(** * RAG chat-with-PDF: ingestion and query pipelines

    A shallow embedding of the server's document controller, document
    service, vector store service, query service and query controller,
    together with the properties of the status state machine, the chunking
    scenario, the retry policy and the status gate of the query endpoint.

    Conventions of the embedding.
    - A JavaScript string is a [string]; one [ascii] stands for one code
      unit, so [String.length] is [.length].
    - An [async] function is a computation in the monad [M]: it threads the
      state of the outside world and of the module-level singletons, appends
      to a call log, and either returns a value or throws a [JsError].
    - The external services (language model, embedding model, vector index,
      file system, PDF parser, clock, uuid generator) are the fields of a
      [Providers] record: arbitrary functions over an abstract world state.
      Every theorem holds for all providers.
    - The packages the services import are embedded from their algorithms:
      the text splitter of @langchain/textsplitters as [TextSplitter], and
      of pdf-parse the way it assembles the text of a document from its
      pages ([pdfText]). *)

From Stdlib Require Import String Ascii List Arith Lia Bool.
From Stdlib Require Import Decimal DecimalNat DecimalString.
From stdpp Require Import base option list gmap strings.

Local Open Scope string_scope.
Local Open Scope list_scope.

(* ===================================================================== *)
(** ** JavaScript strings *)
(* ===================================================================== *)

Module Js.

(** White space as [String.prototype.trim] sees it, on code units below 256:
    TAB, LF, VT, FF, CR, SPACE and NO-BREAK SPACE. *)
Definition isWhiteSpace (c : ascii) : bool :=
  match nat_of_ascii c with
  | 9 | 10 | 11 | 12 | 13 | 32 | 160 => true
  | _ => false
  end.

Fixpoint trimStart (s : string) : string :=
  match s with
  | EmptyString => EmptyString
  | String c s' => if isWhiteSpace c then trimStart s' else s
  end.

(** [trimEnd] keeps a character when it is not white space or when
    something that is not white space follows it. *)
Fixpoint trimEnd (s : string) : string :=
  match s with
  | EmptyString => EmptyString
  | String c s' =>
      match trimEnd s' with
      | EmptyString => if isWhiteSpace c then EmptyString else String c EmptyString
      | t => String c t
      end
  end.

Definition trim (s : string) : string := trimEnd (trimStart s).

Fixpoint startsWith (s p : string) : bool :=
  match p, s with
  | EmptyString, _ => true
  | String _ _, EmptyString => false
  | String a p', String b s' => if Ascii.eqb a b then startsWith s' p' else false
  end.

(** [s.includes(p)]. *)
Fixpoint includes (s p : string) : bool :=
  if startsWith s p then true
  else match s with
       | EmptyString => false
       | String _ s' => includes s' p
       end.

(** [parts.join(sep)]. *)
Fixpoint join (sep : string) (parts : list string) : string :=
  match parts with
  | [] => EmptyString
  | [p] => p
  | p :: rest => p +:+ sep +:+ join sep rest
  end.

(** [s.split] on the empty separator: the code units, each as a string of length one. *)
Fixpoint chars (s : string) : list string :=
  match s with
  | EmptyString => []
  | String c s' => String c EmptyString :: chars s'
  end.

(** A non-negative integer inside a template literal. *)
Definition ofNat (n : nat) : string := NilEmpty.string_of_uint (Nat.to_uint n).

(** [a || b] on strings: the empty string is falsy. *)
Definition orElse (a : option string) (b : string) : string :=
  match a with
  | Some (String c s) => String c s
  | _ => b
  end.

End Js.

(* ===================================================================== *)
(** ** Errors and results *)
(* ===================================================================== *)

(** An [Error]; an [AppError] (errorHandler.js) also carries [statusCode]
    and [code]. *)
Record JsError := mkJsError {
  message : string;
  statusCode : option nat;
  code : option string
}.

Definition Error (msg : string) : JsError :=
  {| message := msg; statusCode := None; code := None |}.

Definition AppError (msg : string) (status : nat) (c : string) : JsError :=
  {| message := msg; statusCode := Some status; code := Some c |}.

Inductive Result (A : Type) : Type :=
| Ok (a : A)
| Throw (e : JsError).
Arguments Ok {A} a.
Arguments Throw {A} e.

(* ===================================================================== *)
(** ** Data model *)
(* ===================================================================== *)

(** A conversation turn. *)
Record Message := { role : string; content : string }.

(** What [response.content] of a chat model can be: a string, or a list of
    content parts, on which [.trim] is not a function. *)
Inductive Content :=
| TextContent (s : string)
| PartsContent.

Record QueryResult := { answer : string; timestamp : string }.

(** A chunk as the text splitter returns it. [locPageNumber] and
    [pageNumber] are [metadata.loc.pageNumber] and [metadata.pageNumber]. *)
Record Chunk := {
  pageContent : string;
  locPageNumber : option nat;
  pageNumber : option nat
}.

Record PdfData := { text : option string; numpages : nat }.

(** The call log: entries of the pipeline stages and calls that leave the
    process. A call is logged when its outcome arrives. The one call whose
    outcome the response to a client does not wait for is the fs.stat of
    processDocument: [FsStatCalled] is logged when that call is made, and
    [FsStat] when its outcome arrives. *)
Inductive Event :=
| CallTransformQuery (question : string)
| CallSearchDocuments (documentId query : string)
| CallGenerateAnswer (query context : string)
| CallProcessQuery (documentId question : string)
| LlmInvoke (prompt : string)
| EmbedQuery (text : string)
| EmbedDocuments (texts : list string)
| IndexQuery (documentId : string) (topK : nat)
| IndexUpsert (ids : list string)
| Sleep (ms : nat)
| FsStat (path : string)
| ReadPdf (path : string)
| Unlink (path : string)
| FsStatCalled (path : string).

(** The metadata of a vector record (pineconeService.js, storeVectors). *)
Record Metadata := {
  md_documentId : string;
  md_fileName : string;
  md_text : string;
  md_chunkIndex : nat;
  md_pageNumber : option nat
}.

(** A vector record sent to the index; [N] is the type of numbers. *)
Record VectorRecord (N : Type) := {
  id : string;
  values : option (list N);
  metadata : Metadata
}.
Arguments id {N}.
Arguments values {N}.
Arguments metadata {N}.

(** A search match: [score] and [metadata.text], either may be absent. *)
Record Match (N : Type) := {
  score : option N;
  matchText : option string
}.
Arguments score {N}.
Arguments matchText {N}.

(** The external collaborators. [World] is the state outside the process;
    [Num] is the type of JavaScript numbers in vectors and scores. *)
Record Providers := {
  World : Type;
  Num : Type;
  toFixed4 : Num -> string;
  GEMINI_API_KEY : option string;
  PINECONE_API_KEY : option string;
  PINECONE_INDEX_NAME : option string;
  llmInvoke : string -> World -> Result Content * World;
  embedQueryP : string -> World -> Result (list Num) * World;
  embedDocumentsP : list string -> World -> Result (list (list Num)) * World;
  indexQueryP : string -> list Num -> nat -> World ->
                Result (option (list (Match Num))) * World;
  indexUpsertP : list (VectorRecord Num) -> World -> Result unit * World;
  fsStat : string -> World -> Result nat * World;
  readPdf : string -> World -> Result (option PdfData) * World;
  fsUnlink : string -> World -> Result unit * World;
  nowISO : World -> string * World;
  uuidv4 : World -> string * World
}.

(* ===================================================================== *)
(** ** The monad of async functions *)
(* ===================================================================== *)

(** Process state: the world, the call log, and the module-level singletons
    of queryService.js, embeddingService.js and pineconeService.js. *)
Record St (P : Providers) := mkSt {
  world : World P;
  trace : list Event;
  geminiModel : bool;
  embeddingsInstance : bool;
  pineconeClient : bool;
  pineconeIndex : bool
}.
Arguments mkSt {P}.
Arguments world {P}.
Arguments trace {P}.
Arguments geminiModel {P}.
Arguments embeddingsInstance {P}.
Arguments pineconeClient {P}.
Arguments pineconeIndex {P}.

Definition M (P : Providers) (A : Type) : Type := St P -> Result A * St P.

Section Monad.
Context {P : Providers}.

Definition ret {A} (a : A) : M P A := fun st => (Ok a, st).

Definition throw {A} (e : JsError) : M P A := fun st => (Throw e, st).

Definition bind {A B} (m : M P A) (k : A -> M P B) : M P B :=
  fun st => match m st with
            | (Ok a, st') => k a st'
            | (Throw e, st') => (Throw e, st')
            end.

(** [try { body } catch (error) { handler }]. *)
Definition tryCatch {A} (body : M P A) (handler : JsError -> M P A) : M P A :=
  fun st => match body st with
            | (Ok a, st') => (Ok a, st')
            | (Throw e, st') => handler e st'
            end.

Definition logEvent (ev : Event) : M P unit :=
  fun st => (Ok tt, mkSt (world st) (trace st ++ [ev]) (geminiModel st)
                         (embeddingsInstance st) (pineconeClient st) (pineconeIndex st)).

(** A call that leaves the process: logged, then answered by the provider. *)
Definition external {A} (ev : Event) (call : World P -> Result A * World P) : M P A :=
  fun st => let (r, w) := call (world st) in
            (r, mkSt w (trace st ++ [ev]) (geminiModel st)
                     (embeddingsInstance st) (pineconeClient st) (pineconeIndex st)).

(** [new Date().toISOString()]. *)
Definition now : M P string :=
  fun st => let (t, w) := nowISO P (world st) in
            (Ok t, mkSt w (trace st) (geminiModel st)
                        (embeddingsInstance st) (pineconeClient st) (pineconeIndex st)).

End Monad.

Notation "'let*' x ':=' m 'in' k" := (bind m (fun x => k))
  (at level 10, x name, m at level 100, k at level 200).
Notation "'do*' m 'in' k" := (bind m (fun _ => k))
  (at level 10, m at level 100, k at level 200).

(* ===================================================================== *)
(** ** embeddingService.js *)
(* ===================================================================== *)

Section Services.
Context {P : Providers}.

(** An environment variable is usable when it is set and not empty. *)
Definition envSet (v : option string) : bool :=
  match v with
  | Some (String _ _) => true
  | _ => false
  end.

Definition getEmbeddings : M P unit :=
  fun st =>
    if embeddingsInstance st then (Ok tt, st)
    else if envSet (GEMINI_API_KEY P)
         then (Ok tt, mkSt (world st) (trace st) (geminiModel st) true
                           (pineconeClient st) (pineconeIndex st))
         else (Throw (Error "GEMINI_API_KEY environment variable is not set"), st).

Definition embedText (text : string) : M P (list (Num P)) :=
  tryCatch
    (do* getEmbeddings in
     let* vector := external (EmbedQuery text) (embedQueryP P text) in
     ret vector)
    (fun error => throw (Error ("Failed to generate embedding: " +:+ message error))).

Definition embedTexts (texts : list string) : M P (list (list (Num P))) :=
  tryCatch
    (do* getEmbeddings in
     let* vectors := external (EmbedDocuments texts) (embedDocumentsP P texts) in
     ret vectors)
    (fun error => throw (Error ("Failed to generate embeddings: " +:+ message error))).

(* ===================================================================== *)
(** ** pineconeService.js *)
(* ===================================================================== *)

Definition getPineconeClient : M P unit :=
  fun st =>
    if pineconeClient st then (Ok tt, st)
    else if envSet (PINECONE_API_KEY P)
         then (Ok tt, mkSt (world st) (trace st) (geminiModel st)
                           (embeddingsInstance st) true (pineconeIndex st))
         else (Throw (Error "PINECONE_API_KEY environment variable is not set"), st).

Definition getIndex : M P unit :=
  fun st =>
    if pineconeIndex st then (Ok tt, st)
    else if envSet (PINECONE_INDEX_NAME P)
         then match getPineconeClient st with
              | (Ok _, st') =>
                  (Ok tt, mkSt (world st') (trace st') (geminiModel st')
                               (embeddingsInstance st') (pineconeClient st') true)
              | (Throw e, st') => (Throw e, st')
              end
         else (Throw (Error "PINECONE_INDEX_NAME environment variable is not set"), st).

(** [chunk.metadata?.loc?.pageNumber || chunk.metadata?.pageNumber]:
    a page number 0 is falsy. *)
Definition chunkPageNumber (chunk : Chunk) : option nat :=
  match locPageNumber chunk with
  | Some (S n) => Some (S n)
  | _ => pageNumber chunk
  end.

(** The callback of [chunks.map((chunk, i) => ...)] in storeVectors. *)
Definition buildRecord (documentId fileName : string) (vectors : list (list (Num P)))
    (i : nat) (chunk : Chunk) : VectorRecord (Num P) :=
  {| id := documentId +:+ "-chunk-" +:+ Js.ofNat i;
     values := vectors !! i;
     metadata := {| md_documentId := documentId;
                    md_fileName := fileName;
                    md_text := pageContent chunk;
                    md_chunkIndex := i;
                    md_pageNumber := chunkPageNumber chunk |} |}.

Definition buildRecords (documentId fileName : string) (chunks : list Chunk)
    (vectors : list (list (Num P))) : list (VectorRecord (Num P)) :=
  imap (buildRecord documentId fileName vectors) chunks.

Definition batchSize : nat := 100.

(** [for (let i = 0; i < records.length; i += batchSize)]: the records still
    to send are [records.slice(i)]; [fuel] bounds the number of batches. *)
Fixpoint upsertBatches (fuel : nat) (records : list (VectorRecord (Num P))) : M P unit :=
  match fuel, records with
  | _, [] => ret tt
  | 0, _ => ret tt
  | S fuel', _ =>
      let batch := take batchSize records in
      do* external (IndexUpsert (map id batch)) (indexUpsertP P batch) in
      upsertBatches fuel' (drop batchSize records)
  end.

Definition storeVectors (documentId : string) (chunks : list Chunk)
    (vectors : list (list (Num P))) (fileName : string) : M P unit :=
  tryCatch
    (if Nat.eqb (length chunks) 0 then throw (Error "No chunks provided for storage")
     else if Nat.eqb (length vectors) 0 then throw (Error "No vectors provided for storage")
     else if negb (Nat.eqb (length chunks) (length vectors))
          then throw (Error "Number of chunks and vectors must match")
     else
       do* getIndex in
       let records := buildRecords documentId fileName chunks vectors in
       upsertBatches (length records) records)
    (fun error => throw (Error ("Failed to store vectors: " +:+ message error))).

Definition searchVectors (documentId : string) (queryVector : list (Num P)) (topK : nat)
    : M P (list (Match (Num P))) :=
  tryCatch
    (if Nat.eqb (length queryVector) 0 then throw (Error "Query vector is required")
     else
       do* getIndex in
       let* matches := external (IndexQuery documentId topK)
                                (indexQueryP P documentId queryVector topK) in
       ret (default [] matches))
    (fun error => throw (Error ("Failed to search vectors: " +:+ message error))).

End Services.

(* ===================================================================== *)
(** ** queryService.js *)
(* ===================================================================== *)

Section QueryService.
Context {P : Providers}.

Definition getGeminiModel : M P unit :=
  fun st =>
    if geminiModel st then (Ok tt, st)
    else if envSet (GEMINI_API_KEY P)
         then (Ok tt, mkSt (world st) (trace st) true
                           (embeddingsInstance st) (pineconeClient st) (pineconeIndex st))
         else (Throw (Error "GEMINI_API_KEY environment variable is not set"), st).

(** [response.content.trim()]; on a content that is not a string the call
    throws a TypeError. *)
Definition contentTrim (c : Content) : M P string :=
  match c with
  | TextContent s => ret (Js.trim s)
  | PartsContent => throw (Error "response.content.trim is not a function")
  end.

(** One iteration of [for (const message of history)]. *)
Definition transcriptLine (acc : string) (m : Message) : string :=
  acc +:+ (if String.eqb (role m) "user" then "User" else "Assistant")
      +:+ ": " +:+ content m +:+ "
".

Definition transformPrompt (question : string) (history : list Message) : string :=
  fold_left transcriptLine history "Previous conversation:
" +:+ "

Current question: " +:+ question +:+ "

Based on the conversation history above, rewrite the current question as a standalone question that includes all necessary context. If the question already has all the context, return it as-is.

Standalone question:".

(** [history] is [None] when the caller passes [null] or leaves it out; the
    default parameter turns the latter into the empty array. *)
Definition transformQuery (question : string) (history : option (list Message)) : M P string :=
  do* logEvent (CallTransformQuery question) in
  tryCatch
    (match history with
     | None | Some [] => ret question
     | Some h =>
         do* getGeminiModel in
         let prompt := transformPrompt question h in
         let* response := external (LlmInvoke prompt) (llmInvoke P prompt) in
         let* standaloneQuery := contentTrim response in
         ret standaloneQuery
     end)
    (fun error => ret question).

(** The callback of [searchResults.map((result, index) => ...)]. *)
Definition formatChunk (index : nat) (result : Match (Num P)) : string :=
  let text := Js.orElse (matchText result) EmptyString in
  let score := Js.orElse (option_map (toFixed4 P) (score result)) "N/A" in
  "[Chunk " +:+ Js.ofNat (index + 1) +:+ ", Relevance: " +:+ score +:+ "]
" +:+ text.

Definition searchDocuments (documentId query : string) (topK : nat) : M P string :=
  do* logEvent (CallSearchDocuments documentId query) in
  tryCatch
    (let* queryVector := embedText query in
     let* searchResults := searchVectors documentId queryVector topK in
     if Nat.eqb (length searchResults) 0 then ret EmptyString
     else ret (Js.join "

---

" (imap formatChunk searchResults)))
    (fun error => throw (Error ("Failed to search documents: " +:+ message error))).

Definition systemInstruction : string :=
"You are an expert in Data Structures and Algorithms (DSA). Your role is to provide clear, accurate, and helpful answers based on the provided document context.

Guidelines:
- Answer questions based primarily on the provided context
- If the context doesn't contain enough information, acknowledge this and provide what you can
- Be concise but thorough in your explanations
- Use examples when helpful
- If asked about code or algorithms, explain them step by step
- Maintain a helpful and educational tone".

Definition answerPrompt (query context : string) (history : option (list Message)) : string :=
  let conversationContext :=
    match history with
    | None | Some [] => EmptyString
    | Some h => fold_left transcriptLine h "

Previous conversation:
"
    end in
  systemInstruction +:+ "

Document Context:
" +:+ context +:+ "
" +:+ conversationContext +:+ "

Current Question: " +:+ query +:+ "

Please provide a helpful answer based on the document context and conversation history:".

Definition generateAnswer (query context : string) (history : option (list Message))
    : M P QueryResult :=
  do* logEvent (CallGenerateAnswer query context) in
  tryCatch
    (do* getGeminiModel in
     let prompt := answerPrompt query context history in
     let* response := external (LlmInvoke prompt) (llmInvoke P prompt) in
     let* answer := contentTrim response in
     let* ts := now in
     ret {| answer := answer; timestamp := ts |})
    (fun error => throw (Error ("Failed to generate answer: " +:+ message error))).

Definition maxRetries : nat := 1.

Definition noInformationAnswer : string :=
  "I couldn't find any relevant information in the document to answer your question. Could you please rephrase or ask something else?".

(** The body of the [try] block of processQuery: one attempt. *)
Definition attemptQuery (documentId question : string) (history : option (list Message))
    : M P QueryResult :=
  let* standaloneQuery := transformQuery question history in
  let* context := searchDocuments documentId standaloneQuery 10 in
  if String.eqb context EmptyString || Nat.eqb (String.length (Js.trim context)) 0 then
    let* ts := now in
    ret {| answer := noInformationAnswer; timestamp := ts |}
  else
    generateAnswer standaloneQuery context history.

(** [await new Promise(resolve => setTimeout(resolve, waitTime))]. *)
Definition sleep (ms : nat) : M P unit := logEvent (Sleep ms).

(** The [for] loop of processQuery from iteration [attempt] on; [remaining]
    is the number of iterations left, [maxRetries + 1 - attempt]. *)
Fixpoint processQueryFrom (remaining attempt : nat) (lastError : option JsError)
    (documentId question : string) (history : option (list Message)) : M P QueryResult :=
  match remaining with
  | 0 => throw (default (Error "Query processing failed") lastError)
  | S remaining' =>
      tryCatch
        (attemptQuery documentId question history)
        (fun error =>
           if Js.includes (message error) "search" then throw error
           else if Nat.eqb attempt maxRetries then throw error
           else
             let waitTime := 2 ^ attempt * 1000 in
             do* sleep waitTime in
             processQueryFrom remaining' (S attempt) (Some error)
                              documentId question history)
  end.

Definition processQuery (documentId question : string) (history : option (list Message))
    : M P QueryResult :=
  do* logEvent (CallProcessQuery documentId question) in
  processQueryFrom (maxRetries + 1) 0 None documentId question history.

End QueryService.

(* ===================================================================== *)
(** ** Text splitter *)
(* ===================================================================== *)

(** [RecursiveCharacterTextSplitter] of the [@langchain/textsplitters]
    package, which documentService.js imports. processDocument constructs
    it with [chunkSize] and [chunkOverlap] only, so the separators are the
    package's defaults, separators are kept, and the length function is
    [.length]. *)
Module TextSplitter.

Section Splitter.
Variables chunkSize chunkOverlap : nat.

(** [joinDocs]: [docs.join(separator).trim()], or null when that is empty. *)
Definition joinDocs (docs : list string) (separator : string) : option string :=
  match Js.trim (Js.join separator docs) with
  | EmptyString => None
  | t => Some t
  end.

Definition pushDoc (docs : list string) (doc : option string) : list string :=
  match doc with
  | Some d => docs ++ [d]
  | None => docs
  end.

(** The [while] loop of mergeSplits, which shifts splits off the front of
    [currentDoc]. [total] is the sum of the lengths in [currentDoc], so on
    the empty list the loop condition is false. *)
Fixpoint popFront (len sepLen : nat) (currentDoc : list string) (total : nat)
    : list string * nat :=
  match currentDoc with
  | [] => ([], total)
  | d :: rest =>
      if Nat.ltb chunkOverlap total
         || (Nat.ltb chunkSize (total + len + length currentDoc * sepLen) && Nat.ltb 0 total)
      then popFront len sepLen rest (total - String.length d)
      else (currentDoc, total)
  end.

(** The [for] loop of mergeSplits and the final [joinDocs]. *)
Fixpoint mergeLoop (separator : string) (splits docs currentDoc : list string)
    (total : nat) : list string :=
  match splits with
  | [] => pushDoc docs (joinDocs currentDoc separator)
  | d :: rest =>
      let len := String.length d in
      if Nat.ltb chunkSize (total + len + length currentDoc * String.length separator) then
        match currentDoc with
        | [] => mergeLoop separator rest docs [d] (total + len)
        | _ :: _ =>
            let docs' := pushDoc docs (joinDocs currentDoc separator) in
            let (currentDoc', total') :=
              popFront len (String.length separator) currentDoc total in
            mergeLoop separator rest docs' (currentDoc' ++ [d]) (total' + len)
        end
      else mergeLoop separator rest docs (currentDoc ++ [d]) (total + len)
  end.

Definition mergeSplits (splits : list string) (separator : string) : list string :=
  mergeLoop separator splits [] [] 0.

(** [text.split(new RegExp("(?=" + separator + ")"))]: the text is cut in
    front of every occurrence of the separator that does not start the
    piece being built. [piece] is that piece. *)
Fixpoint splitBefore (separator : string) (s piece : string) : list string :=
  match s with
  | EmptyString => [piece]
  | String c s' =>
      if Js.startsWith s separator && negb (String.eqb piece EmptyString)
      then piece :: splitBefore separator s' (String c EmptyString)
      else splitBefore separator s' (piece +:+ String c EmptyString)
  end.

Definition nonEmpty (s : string) : bool := negb (String.eqb s EmptyString).

(** [splitOnSeparator] with [keepSeparator = true]. *)
Definition splitOnSeparator (s separator : string) : list string :=
  filter (fun p => nonEmpty p = true)
    (match separator with
     | EmptyString => Js.chars s
     | _ => splitBefore separator s EmptyString
     end).

(** The loop of [_splitText] over the splits: short splits are collected
    in [goodSplits] and merged, a long split is split further by [recur],
    or kept whole when no separator is left. *)
Fixpoint splitPieces (recur : option (string -> list string))
    (splits goodSplits finalChunks : list string) : list string :=
  match splits with
  | [] =>
      match goodSplits with
      | [] => finalChunks
      | _ => finalChunks ++ mergeSplits goodSplits EmptyString
      end
  | s :: rest =>
      if Nat.ltb (String.length s) chunkSize
      then splitPieces recur rest (goodSplits ++ [s]) finalChunks
      else
        let flushed :=
          match goodSplits with
          | [] => finalChunks
          | _ => finalChunks ++ mergeSplits goodSplits EmptyString
          end in
        match recur with
        | None => splitPieces recur rest [] (flushed ++ [s])
        | Some f => splitPieces recur rest [] (flushed ++ f s)
        end
  end.

(** [_splitText(text, separators)]: the first separator that is empty or
    occurs in the text is used; the separators after it serve the
    recursive calls. When none applies the last separator is used. *)
Fixpoint splitTextWith (lastSeparator : string) (separators : list string)
    (s : string) : list string :=
  match separators with
  | [] => splitPieces None (splitOnSeparator s lastSeparator) [] []
  | sep :: newSeparators =>
      match sep with
      | EmptyString => splitPieces None (splitOnSeparator s sep) [] []
      | _ =>
          if Js.includes s sep
          then splitPieces (Some (splitTextWith lastSeparator newSeparators))
                           (splitOnSeparator s sep) [] []
          else splitTextWith lastSeparator newSeparators s
      end
  end.

Definition LF : string := String (ascii_of_nat 10) EmptyString.

Definition separators : list string := [LF +:+ LF; LF; " "; EmptyString].

Definition splitText (s : string) : list string :=
  splitTextWith EmptyString separators s.

(** [splitDocuments] on the single document processDocument builds: every
    chunk becomes a document whose metadata is that of the input plus
    [loc.lines], hence without a page number. *)
Definition splitDocuments (pageText : string) : list Chunk :=
  map (fun chunk => {| pageContent := chunk; locPageNumber := None; pageNumber := None |})
      (splitText pageText).

End Splitter.
End TextSplitter.

(* ===================================================================== *)
(** ** documentService.js *)
(* ===================================================================== *)

(** What processDocument resolves with. *)
Record ProcessResult := {
  success : bool;
  resultPageCount : nat;
  resultChunkCount : nat;
  resultDocumentId : string
}.

Section DocumentService.
Context {P : Providers}.

Definition processDocument (filePath documentId fileName : string) : M P ProcessResult :=
  tryCatch
    (do* tryCatch
           (external (FsStat filePath) (fsStat P filePath))
           (fun err => throw (Error ("File not found at path: " +:+ filePath))) in
     let* pdfData := external (ReadPdf filePath) (readPdf P filePath) in
     match pdfData with
     | None => throw (Error "Failed to extract text from PDF or PDF is empty")
     | Some pdfData =>
         match text pdfData with
         | None | Some EmptyString =>
             throw (Error "Failed to extract text from PDF or PDF is empty")
         | Some pageText =>
             if Nat.eqb (String.length (Js.trim pageText)) 0
             then throw (Error "Failed to extract text from PDF or PDF is empty")
             else
               let pageCount := numpages pdfData in
               let chunks := TextSplitter.splitDocuments 1000 200 pageText in
               let chunkCount := length chunks in
               if Nat.eqb (length chunks) 0
               then throw (Error "No chunks created from document")
               else
                 do* getEmbeddings in
                 let texts := map pageContent chunks in
                 let* vectors := external (EmbedDocuments texts) (embedDocumentsP P texts) in
                 do* storeVectors documentId chunks vectors fileName in
                 ret {| success := true;
                        resultPageCount := pageCount;
                        resultChunkCount := chunkCount;
                        resultDocumentId := documentId |}
         end
     end)
    (fun error => throw (Error ("Failed to process PDF document: " +:+ message error))).

(** What a call of processDocument has done when it returns its promise:
    the function has run to its first [await], where fs.stat has been
    called. [processDocument] is what it does from the outcome of that
    stat on, when the promise is settled. *)
Definition processDocumentCalled (filePath : string) : M P unit :=
  logEvent (FsStatCalled filePath).

End DocumentService.

(* ===================================================================== *)
(** ** errorHandler.js *)
(* ===================================================================== *)

Inductive Body :=
| UploadAccepted (documentId fileName msg : string)
| AnswerBody (answer timestamp : string)
| DocumentBody (documentId fileName uploadDate status : string) (fileSize : nat)
               (pageCount chunkCount : option nat) (error : option string)
| Failure (error code : string).

Record Response := { httpStatus : nat; body : Body }.

(** What an express handler does with a request: it answers, or it hands
    an error to [next]. *)
Inductive HandlerResult :=
| Responded (r : Response)
| Next (e : JsError).

(** The global error handler, outside development mode. *)
Definition errorHandler (err : JsError) : Response :=
  let statusCode :=
    match statusCode err with
    | Some (S n) => S n
    | _ => 500
    end in
  let message := Js.orElse (Some (message err)) "Internal Server Error" in
  {| httpStatus := statusCode;
     body := Failure message (Js.orElse (code err) "INTERNAL_ERROR") |}.

(** The response the client sees. *)
Definition respond (r : HandlerResult) : Response :=
  match r with
  | Responded r => r
  | Next e => errorHandler e
  end.

(* ===================================================================== *)
(** ** documentController.js *)
(* ===================================================================== *)

Record Document := {
  documentId : string;
  fileName : string;
  uploadDate : string;
  status : string;
  filePath : string;
  fileSize : nat;
  pageCount : option nat;
  chunkCount : option nat;
  error : option string
}.

(** [{...doc, status: 'ready', pageCount, chunkCount}]. *)
Definition markReady (doc : Document) (result : ProcessResult) : Document :=
  {| documentId := documentId doc;
     fileName := fileName doc;
     uploadDate := uploadDate doc;
     status := "ready";
     filePath := filePath doc;
     fileSize := fileSize doc;
     pageCount := Some (resultPageCount result);
     chunkCount := Some (resultChunkCount result);
     error := error doc |}.

(** [{...doc, status: 'failed', error: error.message}]. *)
Definition markFailed (doc : Document) (err : JsError) : Document :=
  {| documentId := documentId doc;
     fileName := fileName doc;
     uploadDate := uploadDate doc;
     status := "failed";
     filePath := filePath doc;
     fileSize := fileSize doc;
     pageCount := pageCount doc;
     chunkCount := chunkCount doc;
     error := Some (message err) |}.

(** [req.file] as the upload middleware leaves it. *)
Record UploadedFile := {
  path : string;
  size : nat;
  originalname : option string
}.

(** A background ingestion started by an upload and not yet settled: the
    arguments of the processDocument call whose promise is pending. The
    call is suspended at its first [await], on the outcome of fs.stat. *)
Record Task := {
  taskFilePath : string;
  taskDocumentId : string;
  taskFileName : string
}.

(** The server: the [documents] map of documentController.js, the pending
    background ingestions, and the process state. *)
Record Server (P : Providers) := mkServer {
  documents : gmap string Document;
  pending : list Task;
  proc : St P
}.
Arguments mkServer {P}.
Arguments documents {P}.
Arguments pending {P}.
Arguments proc {P}.

Section DocumentController.
Context {P : Providers}.

(** [fs.unlink(path).catch(...)]: the file system is asked to remove the
    file, and a failure to do so is dropped, or only printed. *)
Definition unlink (p : string) : M P unit :=
  tryCatch (external (Unlink p) (fsUnlink P p)) (fun _ => ret tt).

Definition runUnit (m : M P unit) (st : St P) : St P := snd (m st).

(** The [.then] callback of uploadDocument. *)
Definition onProcessed (documentId filePath : string) (result : ProcessResult)
    (srv : Server P) : Server P :=
  let docs :=
    match documents srv !! documentId with
    | Some doc => <[documentId := markReady doc result]> (documents srv)
    | None => documents srv
    end in
  mkServer docs (pending srv) (runUnit (unlink filePath) (proc srv)).

(** The [.catch] callback of uploadDocument. *)
Definition onProcessingFailed (documentId filePath : string) (err : JsError)
    (srv : Server P) : Server P :=
  let docs :=
    match documents srv !! documentId with
    | Some doc => <[documentId := markFailed doc err]> (documents srv)
    | None => documents srv
    end in
  mkServer docs (pending srv) (runUnit (unlink filePath) (proc srv)).

(** uploadDocument up to its response. The processDocument call it makes
    runs to its first [await] ([processDocumentCalled]) and is recorded in
    [pending]; the rest of the call and its callbacks run in [settle]. *)
Definition uploadDocument (file : option UploadedFile) (srv : Server P)
    : HandlerResult * Server P :=
  match file with
  | None => (Next (AppError "No file uploaded" 400 "NO_FILE_UPLOADED"), srv)
  | Some file =>
      let filePath := path file in
      let cleanup (st : St P) :=
        match filePath with
        | EmptyString => st
        | _ => runUnit (unlink filePath) st
        end in
      if Nat.eqb (size file) 0 then
        (Next (AppError "Uploaded file is empty" 400 "EMPTY_FILE"),
         mkServer (documents srv) (pending srv)
                  (cleanup (runUnit (unlink filePath) (proc srv))))
      else
        match originalname file with
        | Some name =>
            if Nat.eqb (String.length (Js.trim name)) 0 then
              (Next (AppError "Invalid file name" 400 "INVALID_FILE_NAME"),
               mkServer (documents srv) (pending srv)
                        (cleanup (runUnit (unlink filePath) (proc srv))))
            else
              let st := proc srv in
              let (documentId, w1) := uuidv4 P (world st) in
              let (date, w2) := nowISO P w1 in
              let doc := {| documentId := documentId;
                            fileName := name;
                            uploadDate := date;
                            status := "processing";
                            filePath := path file;
                            fileSize := size file;
                            pageCount := None;
                            chunkCount := None;
                            error := None |} in
              let task := {| taskFilePath := path file;
                             taskDocumentId := documentId;
                             taskFileName := name |} in
              (Responded {| httpStatus := 201;
                            body := UploadAccepted documentId name
                                      "Document uploaded and processing started" |},
               mkServer (<[documentId := doc]> (documents srv))
                        (pending srv ++ [task])
                        (runUnit (processDocumentCalled (path file))
                           (mkSt w2 (trace st) (geminiModel st) (embeddingsInstance st)
                                 (pineconeClient st) (pineconeIndex st))))
        | None =>
            (Next (AppError "Invalid file name" 400 "INVALID_FILE_NAME"),
             mkServer (documents srv) (pending srv)
                      (cleanup (runUnit (unlink filePath) (proc srv))))
        end
  end.

(** The [k]-th pending ingestion runs to its end and its promise settles:
    the outcome of fs.stat arrives, processDocument goes on from there and
    resolves or rejects, and the matching callback runs. *)
Definition settle (k : nat) (srv : Server P) : Server P :=
  match pending srv !! k with
  | None => srv
  | Some task =>
      let rest := delete k (pending srv) in
      match processDocument (taskFilePath task) (taskDocumentId task)
                            (taskFileName task) (proc srv) with
      | (Ok result, st) =>
          onProcessed (taskDocumentId task) (taskFilePath task) result
                      (mkServer (documents srv) rest st)
      | (Throw err, st) =>
          onProcessingFailed (taskDocumentId task) (taskFilePath task) err
                             (mkServer (documents srv) rest st)
      end
  end.

(** getDocument. The body is [const { filePath, ...documentData } =
    document]: every field of the record but [filePath]. *)
Definition getDocument (id : string) (srv : Server P) : HandlerResult :=
  match documents srv !! id with
  | None => Next (AppError "Document not found" 404 "DOCUMENT_NOT_FOUND")
  | Some document =>
      Responded {| httpStatus := 200;
                   body := DocumentBody (documentId document) (fileName document)
                             (uploadDate document) (status document)
                             (fileSize document)
                             (pageCount document) (chunkCount document)
                             (error document) |}
  end.

End DocumentController.

(* ===================================================================== *)
(** ** queryController.js *)
(* ===================================================================== *)

(** [req.body] of a query request, after validateQueryRequest. *)
Record QueryBody := {
  bodyDocumentId : string;
  bodyQuestion : string;
  bodyHistory : option (list Message)
}.

Section QueryController.
Context {P : Providers}.

(** The [try] block of handleQuery. *)
Definition handleQueryBody (docs : gmap string Document) (documentId question : string)
    (history : option (list Message)) : M P Response :=
  match docs !! documentId with
  | None => throw (AppError "Document not found" 404 "DOCUMENT_NOT_FOUND")
  | Some document =>
      if String.eqb (status document) "processing" then
        throw (AppError "Document is still being processed. Please try again in a moment."
                        400 "DOCUMENT_PROCESSING")
      else if String.eqb (status document) "failed" then
        throw (AppError ("Document processing failed: "
                         +:+ Js.orElse (error document) "Unknown error"
                         +:+ ". Please upload the document again.")
                        400 "DOCUMENT_FAILED")
      else if negb (String.eqb (status document) "ready") then
        throw (AppError "Document is not ready for queries" 400 "DOCUMENT_NOT_READY")
      else
        let* result := processQuery documentId question history in
        ret {| httpStatus := 200;
               body := AnswerBody (answer result) (timestamp result) |}
  end.

Definition handleQuery (req : QueryBody) (srv : Server P) : HandlerResult * Server P :=
  match handleQueryBody (documents srv) (bodyDocumentId req) (bodyQuestion req)
                        (bodyHistory req) (proc srv) with
  | (Ok r, st) => (Responded r, mkServer (documents srv) (pending srv) st)
  | (Throw e, st) => (Next e, mkServer (documents srv) (pending srv) st)
  end.

End QueryController.

(* ===================================================================== *)
(** ** The server as a transition system *)
(* ===================================================================== *)

(** Everything that can happen to a running server: the three routes, and
    the completion of a background ingestion. *)
Inductive Action :=
| Upload (file : option UploadedFile)
| GetDocument (id : string)
| Query (req : QueryBody)
| Settle (k : nat).

Section Transitions.
Context {P : Providers}.

Definition step (a : Action) (srv : Server P) : Server P :=
  match a with
  | Upload file => snd (uploadDocument file srv)
  | GetDocument _ => srv
  | Query req => snd (handleQuery req srv)
  | Settle k => settle k srv
  end.

Definition run (actions : list Action) (srv : Server P) : Server P :=
  fold_left (fun s a => step a s) actions srv.

(** The server when the process starts. *)
Definition boot (w : World P) : Server P :=
  mkServer ∅ [] (mkSt w [] false false false false).

(** The status of document [id], if it is registered. *)
Definition statusOf (id : string) (srv : Server P) : option string :=
  status <$> documents srv !! id.

(** The id the next accepted upload will draw from uuidv4. *)
Definition nextUuid (srv : Server P) : string := fst (uuidv4 P (world (proc srv))).

(** Whether uploadDocument accepts the file, that is, gets as far as
    drawing a document id. *)
Definition accepts (file : option UploadedFile) : bool :=
  match file with
  | Some f =>
      negb (Nat.eqb (size f) 0)
      && match originalname f with
         | Some name => negb (Nat.eqb (String.length (Js.trim name)) 0)
         | None => false
         end
  | None => false
  end.

(** What is expected of uuidv4 before action [a]: an accepted upload draws
    an id that is not yet a key of [documents]. *)
Definition uuidFresh (a : Action) (srv : Server P) : Prop :=
  match a with
  | Upload file => accepts file = true -> documents srv !! nextUuid srv = None
  | _ => True
  end.

(** uuidv4 never returns an id that is already registered, along a run. *)
Fixpoint uuidsFresh (actions : list Action) (srv : Server P) : Prop :=
  match actions with
  | [] => True
  | a :: rest => uuidFresh a srv /\ uuidsFresh rest (step a srv)
  end.

(** The statuses a finished ingestion leaves. *)
Definition terminal (s : string) : Prop := s = "ready" \/ s = "failed".

(** The invariant of the registry: every pending ingestion belongs to a
    document that is registered with status 'processing', no two pending
    ingestions belong to the same document, and a status is one of the
    three the controller writes. *)
Definition registryInv (srv : Server P) : Prop :=
  NoDup (taskDocumentId <$> pending srv)
  /\ (forall t, t ∈ pending srv -> statusOf (taskDocumentId t) srv = Some "processing")
  /\ (forall id s, statusOf id srv = Some s -> s = "processing" \/ terminal s).

(** How the ingestion of [task] ends when it runs from server [srv]. *)
Definition ingestion (task : Task) (srv : Server P) : Result ProcessResult :=
  fst (processDocument (taskFilePath task) (taskDocumentId task) (taskFileName task)
                       (proc srv)).

(** The status an ingestion with outcome [r] leaves. *)
Definition settledStatus (r : Result ProcessResult) : string :=
  match r with
  | Ok _ => "ready"
  | Throw _ => "failed"
  end.

(** What one action may do to the status of a registered document: leave
    it, or, when the action is the end of the document's own ingestion,
    move it from 'processing' to the status that ingestion leaves. *)
Definition statusStep (id : string) (a : Action) (srv : Server P) (s s' : string) : Prop :=
  s' = s
  \/ (s = "processing"
      /\ exists k task, a = Settle k /\ pending srv !! k = Some task
                        /\ taskDocumentId task = id
                        /\ s' = settledStatus (ingestion task srv)).

(** The statuses document [id] goes through along a run, one entry per
    state in which it is registered. *)
Fixpoint statusHistory (id : string) (actions : list Action) (srv : Server P)
    : list string :=
  match statusOf id srv with
  | Some s => [s]
  | None => []
  end ++
  match actions with
  | [] => []
  | a :: rest => statusHistory id rest (step a srv)
  end.

(** The number of positions at which a list of statuses changes. *)
Fixpoint changes (l : list string) : nat :=
  match l with
  | a :: (b :: _) as rest => (if String.eqb a b then 0 else 1) + changes rest
  | _ => 0
  end.

End Transitions.

(* ===================================================================== *)
(** ** Reading the call log *)
(* ===================================================================== *)

Definition isRewriteCall (ev : Event) : bool :=
  match ev with CallTransformQuery _ => true | _ => false end.

Definition isGeneratorCall (ev : Event) : bool :=
  match ev with CallGenerateAnswer _ _ => true | _ => false end.

Definition isSleep (ev : Event) : bool :=
  match ev with Sleep _ => true | _ => false end.

(** Calls that leave the process. *)
Definition isProviderCall (ev : Event) : bool :=
  match ev with
  | LlmInvoke _ | EmbedQuery _ | EmbedDocuments _ | IndexQuery _ _
  | IndexUpsert _ | FsStat _ | ReadPdf _ => true
  | _ => false
  end.

(** Entries of the query pipeline: the orchestrator and its three stages. *)
Definition isPipelineCall (ev : Event) : bool :=
  match ev with
  | CallProcessQuery _ _ | CallTransformQuery _ | CallSearchDocuments _ _
  | CallGenerateAnswer _ _ => true
  | _ => false
  end.

Fixpoint countEvents (p : Event -> bool) (t : list Event) : nat :=
  match t with
  | [] => 0
  | ev :: t' => (if p ev then 1 else 0) + countEvents p t'
  end.

(** The state in which the first attempt of processQuery starts. *)
Definition entered {P} (documentId question : string) (st : St P) : St P :=
  snd (logEvent (CallProcessQuery documentId question) st).

(** The state in which the retry starts, given the state [st] in which the
    failed attempt ended: the wait has been served. *)
Definition afterWait {P} (ms : nat) (st : St P) : St P := snd (sleep ms st).

(** The reading of the retry policy under which a retry does not run the
    rewrite again: whenever the first attempt fails with an error that is
    not retrieval-tagged, transformQuery is entered once in the whole call. *)
Definition retrySkipsRewrite (P : Providers) : Prop :=
  forall (documentId question : string) (history : option (list Message))
         (st st1 : St P) (e : JsError),
    attemptQuery documentId question history (entered documentId question st)
      = (Throw e, st1) ->
    Js.includes (message e) "search" = false ->
    countEvents isRewriteCall (trace (snd (processQuery documentId question history st)))
      = countEvents isRewriteCall (trace st) + 1.

(* ===================================================================== *)
(** ** The vector index as a map *)
(* ===================================================================== *)

(** The contract of the index's upsert: records are keyed by [id], and a
    record written under an id that exists replaces the old one. *)
Definition pineconeUpsert {N} (batch : list (VectorRecord N))
    (idx : gmap string (VectorRecord N)) : gmap string (VectorRecord N) :=
  fold_left (fun m r => <[id r := r]> m) batch idx.

(** Providers [P] whose index behaves as a keyed store: [view] reads the
    content of the index off the world, and an upsert succeeds and acts on
    it as [pineconeUpsert]. *)
Definition upsertByIdContract (P : Providers)
    (view : World P -> gmap string (VectorRecord (Num P))) : Prop :=
  forall batch w,
    exists w', indexUpsertP P batch w = (Ok tt, w')
               /\ view w' = pineconeUpsert batch (view w).

(** The ids of the records of a document of [n] chunks: they are built
    from the document id and the chunk indices alone. *)
Definition recordIds (documentId : string) (n : nat) : list string :=
  map (fun i => documentId +:+ "-chunk-" +:+ Js.ofNat i) (seq 0 n).

(** The lengths of the chunks processDocument makes of a text. *)
Definition chunkLengths (pageText : string) : list nat :=
  map (fun chunk => String.length (pageContent chunk))
      (TextSplitter.splitDocuments 1000 200 pageText).

(** The text the pdf-parse package, which processDocument imports, returns
    for a document whose pages are rendered as [pages]: it starts from the
    empty text and appends every page after two line feeds,
    [ret.text = `${ret.text}\n\n${pageText}`]. *)
Definition pdfText (pages : list string) : string :=
  fold_left (fun text pageText =>
               text +:+ TextSplitter.LF +:+ TextSplitter.LF +:+ pageText)
            pages EmptyString.

(** A page of text that the two line feeds in front of the pages set
    apart from its neighbours: something other than white space is on it,
    and it has no blank line in it and no line feed at its ends. *)
Definition isPage (pageText : string) : bool :=
  negb (String.eqb (Js.trim pageText) EmptyString)
  && negb (Js.includes (TextSplitter.LF +:+ pageText +:+ TextSplitter.LF)
                       (TextSplitter.LF +:+ TextSplitter.LF)).

(** The chunking of the three-page scenario as it is claimed: the text of
    every PDF of three pages that has 2400 characters is cut into chunks
    of 1000, 1000 and 400 characters. *)
Definition threePagesCutInto_1000_1000_400 : Prop :=
  forall page1 page2 page3,
    String.length (pdfText [page1; page2; page3]) = 2400 ->
    chunkLengths (pdfText [page1; page2; page3]) = [1000; 1000; 400].

(* ===================================================================== *)
(** ** Scripted providers *)
(* ===================================================================== *)

(** Providers driven by a script, used to run the model on concrete
    scenarios: the language model and the index answer from lists of
    prepared responses, the index stores what it is sent, and uuidv4
    numbers the documents. *)
Module Scripted.

(** The world of the script: the prepared responses, the content the
    parser finds in an uploaded file, the counter of uuidv4, the index,
    and the files that have been removed from the disk. *)
Record Script := {
  llmScript : list (Result Content);
  queryScript : list (Result (option (list (Match nat))));
  pdf : Result (option PdfData);
  uuidCounter : nat;
  index : gmap string (VectorRecord nat);
  removed : list string
}.

Definition exhausted {A} : Result A := Throw (Error "script exhausted").

Definition invoke (prompt : string) (w : Script) : Result Content * Script :=
  match llmScript w with
  | r :: rest =>
      (r, {| llmScript := rest; queryScript := queryScript w; pdf := pdf w;
             uuidCounter := uuidCounter w; index := index w; removed := removed w |})
  | [] => (exhausted, w)
  end.

Definition query (documentId : string) (vector : list nat) (topK : nat) (w : Script)
    : Result (option (list (Match nat))) * Script :=
  match queryScript w with
  | r :: rest =>
      (r, {| llmScript := llmScript w; queryScript := rest; pdf := pdf w;
             uuidCounter := uuidCounter w; index := index w; removed := removed w |})
  | [] => (exhausted, w)
  end.

Definition upsert (batch : list (VectorRecord nat)) (w : Script) : Result unit * Script :=
  (Ok tt, {| llmScript := llmScript w; queryScript := queryScript w; pdf := pdf w;
             uuidCounter := uuidCounter w; index := pineconeUpsert batch (index w);
             removed := removed w |}).

Definition uuid (w : Script) : string * Script :=
  ("doc-" +:+ Js.ofNat (uuidCounter w),
   {| llmScript := llmScript w; queryScript := queryScript w; pdf := pdf w;
      uuidCounter := S (uuidCounter w); index := index w; removed := removed w |}).

(** The disk: a file is there until it is removed. *)
Definition onDisk (p : string) (w : Script) : bool :=
  negb (existsb (String.eqb p) (removed w)).

Definition noEntry {A} : Result A := Throw (Error "ENOENT: no such file or directory").

Definition stat (p : string) (w : Script) : Result nat * Script :=
  if onDisk p w then (Ok 4096, w) else (noEntry, w).

Definition parse (p : string) (w : Script) : Result (option PdfData) * Script :=
  if onDisk p w then (pdf w, w) else (noEntry, w).

Definition remove (p : string) (w : Script) : Result unit * Script :=
  if onDisk p w
  then (Ok tt, {| llmScript := llmScript w; queryScript := queryScript w; pdf := pdf w;
                  uuidCounter := uuidCounter w; index := index w;
                  removed := p :: removed w |})
  else (noEntry, w).

Fixpoint repeatChar (n : nat) (c : ascii) : string :=
  match n with
  | 0 => EmptyString
  | S k => String c (repeatChar k c)
  end.

(** [score.toFixed(4)] for a score held in hundredths: 91 prints as
    '0.9100'. *)
Definition fixed4 (n : nat) : string :=
  let cents := Js.ofNat (n mod 100) in
  Js.ofNat (n / 100) +:+ "." +:+ repeatChar (2 - String.length cents) "0" +:+ cents +:+ "00".

Definition providers : Providers :=
  {| World := Script;
     Num := nat;
     toFixed4 := fixed4;
     GEMINI_API_KEY := Some "gemini-key";
     PINECONE_API_KEY := Some "pinecone-key";
     PINECONE_INDEX_NAME := Some "rag-index";
     llmInvoke := invoke;
     embedQueryP := fun _ w => (Ok [1; 2; 3], w);
     embedDocumentsP := fun texts w => (Ok (map (fun _ => [1; 2; 3]) texts), w);
     indexQueryP := query;
     indexUpsertP := upsert;
     fsStat := stat;
     readPdf := parse;
     fsUnlink := remove;
     nowISO := fun w => ("2024-01-01T00:00:00.000Z", w);
     uuidv4 := uuid |}.

Definition script (llm : list (Result Content))
    (results : list (Result (option (list (Match nat)))))
    (doc : Result (option PdfData)) : Script :=
  {| llmScript := llm; queryScript := results; pdf := doc;
     uuidCounter := 0; index := ∅; removed := [] |}.

Definition start (w : Script) : St providers := mkSt (w : World providers) [] false false false false.

Definition turn : Message := {| role := "user"; content := "What is a heap?" |}.

Definition hit : Match nat := {| score := Some 91; matchText := Some "A heap is a tree." |}.

Definition file : UploadedFile :=
  {| path := "uploads/1-notes.pdf"; size := 4096; originalname := Some "notes.pdf" |}.

(** A page of 17 lines of 46 characters: 798 characters. *)
Definition page : string :=
  Js.join TextSplitter.LF (repeat "A heap is a tree kept in an array, root first." 17).

(** A PDF of three such pages: its text has 2400 characters. *)
Definition threePages : PdfData :=
  {| text := Some (pdfText [page; page; page]); numpages := 3 |}.

(** No match in the index. *)
Definition noMatchStart : St providers :=
  start (script [] [Ok (Some [])] (Ok None)).

(** The index is down. *)
Definition indexDownStart : St providers :=
  start (script [] [Throw (Error "index unavailable")] (Ok None)).

(** A follow-up question: the rewrite succeeds in both attempts, the
    generation fails in the first and succeeds in the second. *)
Definition hiccupStart : St providers :=
  start (script [Ok (TextContent "What is the height of a heap?");
                 Throw (Error "503 Service Unavailable");
                 Ok (TextContent "What is the height of a heap?");
                 Ok (TextContent " Logarithmic in its size. ")]
                [Ok (Some [hit]); Ok (Some [hit])]
                (Ok None)).

Definition followUp : string := "And its height?".

(** A server on which notes.pdf has been uploaded and is being ingested. *)
Definition uploaded : Server providers :=
  run [Upload (Some file)] (boot (script [] [] (Ok (Some threePages)) : World providers)).

(** The same server once the ingestion has gone through. *)
Definition ingested : Server providers := run [Settle 0] uploaded.

(** A server on which the ingestion of notes.pdf has failed in the parser. *)
Definition broken : Server providers :=
  run [Upload (Some file); Settle 0]
      (boot (script [] [] (Throw (Error "Invalid PDF structure")) : World providers)).

(** Two chunks and their vectors. *)
Definition twoChunks : list Chunk :=
  [ {| pageContent := "A heap is a tree."; locPageNumber := None; pageNumber := None |};
    {| pageContent := "Its height is logarithmic."; locPageNumber := None;
       pageNumber := Some 2 |} ].

Definition twoVectors : list (list nat) := [[1; 2; 3]; [4; 5; 6]].

Definition idle : St providers := start (script [] [] (Ok None)).

Definition ask : QueryBody :=
  {| bodyDocumentId := "doc-0"; bodyQuestion := "What is a heap?"; bodyHistory := Some [] |}.

End Scripted.

(* ===================================================================== *)
(** ** validateRequest.js *)
(* ===================================================================== *)

(** A value of a parsed JSON body. Of a number the validation looks only
    at whether it is zero; the fields of an object are an association
    list, read by name. *)
#[local] Unset Elimination Schemes.
Inductive JsValue :=
| JUndefined
| JNull
| JBool (b : bool)
| JNumber (isZero : bool)
| JString (s : string)
| JArray (items : list JsValue)
| JObject (fields : list (string * JsValue)).
#[local] Set Elimination Schemes.

(** [!!v]. *)
Definition truthy (v : JsValue) : bool :=
  match v with
  | JUndefined | JNull => false
  | JBool b => b
  | JNumber isZero => negb isZero
  | JString EmptyString => false
  | JString (String _ _) => true
  | JArray _ | JObject _ => true
  end.

(** [typeof v === 'string'] and [typeof v === 'object']. *)
Definition typeofString (v : JsValue) : bool :=
  match v with JString _ => true | _ => false end.

Definition typeofObject (v : JsValue) : bool :=
  match v with JNull | JArray _ | JObject _ => true | _ => false end.

Fixpoint assoc (name : string) (fields : list (string * JsValue)) : JsValue :=
  match fields with
  | [] => JUndefined
  | (k, v) :: rest => if String.eqb k name then v else assoc name rest
  end.

(** [item.name] on a value that is neither null nor undefined, for a name
    that is not a property of arrays. *)
Definition getField (item : JsValue) (name : string) : JsValue :=
  match item with
  | JObject fields => assoc name fields
  | _ => JUndefined
  end.

(** [v === s] for a string literal [s]. *)
Definition isStringLiteral (v : JsValue) (s : string) : bool :=
  match v with JString t => String.eqb t s | _ => false end.

Definition isHexDigit (c : ascii) : bool :=
  let n := nat_of_ascii c in
  (Nat.leb 48 n && Nat.leb n 57) || (Nat.leb 97 n && Nat.leb n 102)
  || (Nat.leb 65 n && Nat.leb n 70).

(** Exactly [n] hexadecimal digits at the start of [s]; what follows them. *)
Fixpoint hexRun (n : nat) (s : string) : option string :=
  match n with
  | 0 => Some s
  | S n' =>
      match s with
      | String c s' => if isHexDigit c then hexRun n' s' else None
      | EmptyString => None
      end
  end.

(** A run of [n] hexadecimal digits followed by a dash. *)
Definition hexGroup (n : nat) (s : string) : option string :=
  match hexRun n s with
  | Some (String c rest) => if Ascii.eqb c "-" then Some rest else None
  | _ => None
  end.

(** [/^[0-9a-f]{8}-[0-9a-f]{4}-[0-9a-f]{4}-[0-9a-f]{4}-[0-9a-f]{12}$/i.test(s)]. *)
Definition uuidRegexTest (s : string) : bool :=
  match hexGroup 8 s with
  | Some s1 =>
      match hexGroup 4 s1 with
      | Some s2 =>
          match hexGroup 4 s2 with
          | Some s3 =>
              match hexGroup 4 s3 with
              | Some s4 =>
                  match hexRun 12 s4 with
                  | Some EmptyString => true
                  | _ => false
                  end
              | None => false
              end
          | None => false
          end
      | None => false
      end
  | None => false
  end.

Definition validationError (msg : string) : JsError := AppError msg 400 "VALIDATION_ERROR".

(** The body of the loop over the history items, for item [i]. *)
Definition validateHistoryItem (i : nat) (item : JsValue) : option JsError :=
  if negb (truthy item) || negb (typeofObject item) then
    Some (validationError ("History item " +:+ Js.ofNat i +:+ " must be an object"))
  else if negb (truthy (getField item "role")) || negb (truthy (getField item "content")) then
    Some (validationError ("History item " +:+ Js.ofNat i
                           +:+ " must have 'role' and 'content' fields"))
  else if negb (isStringLiteral (getField item "role") "user")
          && negb (isStringLiteral (getField item "role") "model") then
    Some (validationError ("History item " +:+ Js.ofNat i
                           +:+ " role must be 'user' or 'model'"))
  else if negb (typeofString (getField item "content")) then
    Some (validationError ("History item " +:+ Js.ofNat i +:+ " content must be a string"))
  else None.

(** [for (let i = 0; i < history.length; i++)] from index [i] on. *)
Fixpoint validateHistoryItems (i : nat) (items : list JsValue) : option JsError :=
  match items with
  | [] => None
  | item :: rest =>
      match validateHistoryItem i item with
      | Some e => Some e
      | None => validateHistoryItems (S i) rest
      end
  end.

(** [req.body] of a query request as it arrives. *)
Record RawQueryBody := {
  rawDocumentId : JsValue;
  rawQuestion : JsValue;
  rawHistory : JsValue
}.

(** validateQueryRequest: [Some e] stands for [next(e)], [None] for
    [next()]. *)
Definition validateQueryRequest (body : RawQueryBody) : option JsError :=
  let documentId := rawDocumentId body in
  let question := rawQuestion body in
  let history := rawHistory body in
  if negb (truthy documentId) then Some (validationError "Document ID is required")
  else
    match documentId with
    | JString documentId =>
        if negb (uuidRegexTest documentId)
        then Some (validationError "Invalid document ID format")
        else if negb (truthy question) then Some (validationError "Question is required")
        else
          match question with
          | JString question =>
              if Nat.eqb (String.length (Js.trim question)) 0
              then Some (validationError "Question cannot be empty")
              else if Nat.ltb 5000 (String.length question)
              then Some (validationError "Question is too long (maximum 5000 characters)")
              else
                match history with
                | JUndefined => None
                | JArray items =>
                    match validateHistoryItems 0 items with
                    | Some e => Some e
                    | None =>
                        if Nat.ltb 100 (length items)
                        then Some (validationError
                                     "History is too long (maximum 100 messages)")
                        else None
                    end
                | _ => Some (validationError "History must be an array")
                end
          | _ => Some (validationError "Question must be a string")
          end
    | _ => Some (validationError "Document ID must be a string")
    end.

(** validateDocumentId; [paramsId] is [req.params.id] and [bodyDocumentId]
    is [req.body.documentId] when the body has one that is a string. *)
Definition validateDocumentId (paramsId : string) (bodyDocumentId : option string)
    : option JsError :=
  let documentId :=
    match paramsId with
    | EmptyString => bodyDocumentId
    | _ => Some paramsId
    end in
  match documentId with
  | None | Some EmptyString => Some (validationError "Document ID is required")
  | Some documentId =>
      if negb (uuidRegexTest documentId)
      then Some (validationError "Invalid document ID format")
      else None
  end.

(* ===================================================================== *)
(** ** queryRoutes.js and documentRoutes.js *)
(* ===================================================================== *)

(** A history item as handleQuery and the query service read it. *)
Definition asMessage (item : JsValue) : option Message :=
  match getField item "role", getField item "content" with
  | JString r, JString c => Some {| role := r; content := c |}
  | _, _ => None
  end.

Fixpoint asMessages (items : list JsValue) : option (list Message) :=
  match items with
  | [] => Some []
  | item :: rest =>
      match asMessage item, asMessages rest with
      | Some m, Some ms => Some (m :: ms)
      | _, _ => None
      end
  end.

(** The body as handleQuery destructures it,
    [{ documentId, question, history = [] }], when the fields have the types
    the query service works with. *)
Definition typedBody (body : RawQueryBody) : option QueryBody :=
  match rawDocumentId body, rawQuestion body with
  | JString documentId, JString question =>
      match rawHistory body with
      | JUndefined =>
          Some {| bodyDocumentId := documentId; bodyQuestion := question;
                  bodyHistory := Some [] |}
      | JArray items =>
          match asMessages items with
          | Some ms => Some {| bodyDocumentId := documentId; bodyQuestion := question;
                               bodyHistory := Some ms |}
          | None => None
          end
      | _ => None
      end
  | _, _ => None
  end.

Section Routes.
Context {P : Providers}.

(** [router.post('/', validateQueryRequest, handleQuery)]: an error of the
    validation goes to the error handler and handleQuery is not called.
    A body that passes the validation is typed (see [validated_body_typed]),
    so the last branch is never taken. *)
Definition postQuery (body : RawQueryBody) (srv : Server P) : HandlerResult * Server P :=
  match validateQueryRequest body with
  | Some e => (Next e, srv)
  | None =>
      match typedBody body with
      | Some req => handleQuery req srv
      | None => (Next (Error "untyped body"), srv)
      end
  end.

(** [router.get('/:id', validateDocumentId, getDocument)]. *)
Definition getDocumentRoute (id : string) (bodyDocumentId : option string)
    (srv : Server P) : HandlerResult :=
  match validateDocumentId id bodyDocumentId with
  | Some e => Next e
  | None => getDocument id srv
  end.

End Routes.

(* ===================================================================== *)
(** ** errorHandler.js: notFoundHandler *)
(* ===================================================================== *)

Definition notFoundHandler (originalUrl : string) : HandlerResult :=
  Next (AppError ("Route " +:+ originalUrl +:+ " not found") 404 "ROUTE_NOT_FOUND").

(* ===================================================================== *)
(** ** uploadMiddleware.js *)
(* ===================================================================== *)

(** The characters [/[^a-zA-Z0-9.-]/g] leaves in place. *)
Definition isFileNameChar (c : ascii) : bool :=
  let n := nat_of_ascii c in
  (Nat.leb 97 n && Nat.leb n 122) || (Nat.leb 65 n && Nat.leb n 90)
  || (Nat.leb 48 n && Nat.leb n 57) || Nat.eqb n 46 || Nat.eqb n 45.

(** [file.originalname.replace(/[^a-zA-Z0-9.-]/g, '_')]. *)
Fixpoint sanitizeName (s : string) : string :=
  match s with
  | EmptyString => EmptyString
  | String c s' => String (if isFileNameChar c then c else "_"%char) (sanitizeName s')
  end.

(** The [filename] callback of the disk storage; [now] is [Date.now()] and
    [random] is [Math.round(Math.random() * 1E9)]. *)
Definition storageFilename (now random : nat) (originalname : string) : string :=
  let uniqueSuffix := Js.ofNat now +:+ "-" +:+ Js.ofNat random in
  let sanitizedName := sanitizeName originalname in
  uniqueSuffix +:+ "-" +:+ sanitizedName.

(** The characters of a stored file name. *)
Definition isStoredChar (c : ascii) : bool := isFileNameChar c || Ascii.eqb c "_".

(** validateFileUpload. *)
Definition validateFileUpload (file : option UploadedFile) : option JsError :=
  match file with
  | None => Some (AppError "No file uploaded" 400 "NO_FILE_UPLOADED")
  | Some _ => None
  end.

(* ===================================================================== *)
(** ** More readers of the call log and of strings *)
(* ===================================================================== *)

Definition isEmbedDocuments (ev : Event) : bool :=
  match ev with EmbedDocuments _ => true | _ => false end.

Definition isIndexUpsert (ev : Event) : bool :=
  match ev with IndexUpsert _ => true | _ => false end.

Definition isIndexQuery (ev : Event) : bool :=
  match ev with IndexQuery _ _ => true | _ => false end.

(** A wait of [ms] milliseconds. *)
Definition isWaitOf (ms : nat) (ev : Event) : bool :=
  match ev with Sleep n => Nat.eqb n ms | _ => false end.

(** Every code unit of [s] satisfies [p]. *)
Fixpoint allChars (p : ascii -> bool) (s : string) : bool :=
  match s with
  | EmptyString => true
  | String c s' => p c && allChars p s'
  end.

(** The records of [records] in batches of [batchSize], in order. *)
Fixpoint batchesOf (fuel : nat) {A} (records : list A) : list (list A) :=
  match fuel, records with
  | _, [] => []
  | 0, _ => []
  | S fuel', _ => take batchSize records :: batchesOf fuel' (drop batchSize records)
  end.

(** The errors the query pipeline throws: those of the retrieval and
    those of the generation, wrapped by the stage. *)
Definition isPipelineError (e : JsError) : Prop :=
  exists m, e = Error ("Failed to search documents: " +:+ m)
            \/ e = Error ("Failed to generate answer: " +:+ m).

Definition isUnlink (ev : Event) : bool :=
  match ev with Unlink _ => true | _ => false end.

(** Entries of the log that stand for the query pipeline or the language
    model, none of which an ingestion makes. *)
Definition isQueryEvent (ev : Event) : bool :=
  match ev with
  | CallTransformQuery _ | CallSearchDocuments _ _ | CallGenerateAnswer _ _
  | CallProcessQuery _ _ | LlmInvoke _ | EmbedQuery _ | IndexQuery _ _ | Sleep _ => true
  | _ => false
  end.

(** The ceiling of [n / batchSize]. *)
Definition batchCount (n : nat) : nat := (n + (batchSize - 1)) / batchSize.

(** [!pdfData || !pdfData.text || pdfData.text.trim().length === 0]. *)
Definition noText (pdfData : option PdfData) : bool :=
  match pdfData with
  | None => true
  | Some d =>
      match text d with
      | None => true
      | Some t => Nat.eqb (String.length (Js.trim t)) 0
      end
  end.

(** The errors processDocument throws. *)
Definition isIngestionError (e : JsError) : Prop :=
  exists m, e = Error ("Failed to process PDF document: " +:+ m).

(** What the controller has written in a record, by its status: the
    counts come with 'ready' and the error with 'failed'. *)
Definition recordShape (doc : Document) : Prop :=
  (status doc = "processing"
   /\ pageCount doc = None /\ chunkCount doc = None /\ error doc = None)
  \/ (status doc = "ready"
      /\ (exists pages chunks,
            pageCount doc = Some pages /\ chunkCount doc = Some chunks /\ 1 <= chunks)
      /\ error doc = None)
  \/ (status doc = "failed"
      /\ pageCount doc = None /\ chunkCount doc = None
      /\ exists m, error doc = Some ("Failed to process PDF document: " +:+ m)).

Section UploadRoute.
Context {P : Providers}.

(** Every record of the registry is filed under its own id and has the
    shape of its status. *)
Definition recordsInv (srv : Server P) : Prop :=
  forall id doc, documents srv !! id = Some doc ->
                 documentId doc = id /\ recordShape doc.

(** [router.post('/upload', uploadSingle, handleUploadError,
    validateFileUpload, uploadDocument)], from the point where multer has
    left [req.file]. *)
Definition postUpload (file : option UploadedFile) (srv : Server P)
    : HandlerResult * Server P :=
  match validateFileUpload file with
  | Some e => (Next e, srv)
  | None => uploadDocument file srv
  end.

End UploadRoute.

(* ===================================================================== *)
(** ** Sample requests *)
(* ===================================================================== *)

Module Samples.

Definition turnOf (r c : string) : JsValue :=
  JObject [("role", JString r); ("content", JString c)].

(** A well-formed query with two turns of history. *)
Definition validBody : RawQueryBody :=
  {| rawDocumentId := JString "123e4567-e89b-12d3-a456-426614174000";
     rawQuestion := JString "And its height?";
     rawHistory := JArray [turnOf "user" "What is a heap?";
                           turnOf "model" "A heap is a tree."] |}.

(** The same query with a history of 101 turns. *)
Definition longBody : RawQueryBody :=
  {| rawDocumentId := JString "123e4567-e89b-12d3-a456-426614174000";
     rawQuestion := JString "And its height?";
     rawHistory := JArray (repeat (turnOf "user" "What is a heap?") 101) |}.

(** A query without a question. *)
Definition noQuestionBody : RawQueryBody :=
  {| rawDocumentId := JString "123e4567-e89b-12d3-a456-426614174000";
     rawQuestion := JUndefined;
     rawHistory := JUndefined |}.

(** The scripted providers without a key for Gemini. *)
Definition noKeyProviders : Providers :=
  {| World := Scripted.Script;
     Num := nat;
     toFixed4 := Scripted.fixed4;
     GEMINI_API_KEY := None;
     PINECONE_API_KEY := Some "pinecone-key";
     PINECONE_INDEX_NAME := Some "rag-index";
     llmInvoke := Scripted.invoke;
     embedQueryP := fun _ w => (Ok [1; 2; 3], w);
     embedDocumentsP := fun texts w => (Ok (map (fun _ => [1; 2; 3]) texts), w);
     indexQueryP := Scripted.query;
     indexUpsertP := Scripted.upsert;
     fsStat := Scripted.stat;
     readPdf := Scripted.parse;
     fsUnlink := Scripted.remove;
     nowISO := fun w => ("2024-01-01T00:00:00.000Z", w);
     uuidv4 := Scripted.uuid |}.

(** The scripted providers with an embedding model that returns no
    vector for a query. *)
Definition emptyEmbeddingProviders : Providers :=
  {| World := Scripted.Script;
     Num := nat;
     toFixed4 := Scripted.fixed4;
     GEMINI_API_KEY := Some "gemini-key";
     PINECONE_API_KEY := Some "pinecone-key";
     PINECONE_INDEX_NAME := Some "rag-index";
     llmInvoke := Scripted.invoke;
     embedQueryP := fun _ w => (Ok [], w);
     embedDocumentsP := fun texts w => (Ok (map (fun _ => [1; 2; 3]) texts), w);
     indexQueryP := Scripted.query;
     indexUpsertP := Scripted.upsert;
     fsStat := Scripted.stat;
     readPdf := Scripted.parse;
     fsUnlink := Scripted.remove;
     nowISO := fun w => ("2024-01-01T00:00:00.000Z", w);
     uuidv4 := Scripted.uuid |}.

(** A disk that has lost the uploaded file. *)
Definition lostFile : Scripted.Script :=
  {| Scripted.llmScript := []; Scripted.queryScript := [];
     Scripted.pdf := Ok (Some Scripted.threePages);
     Scripted.uuidCounter := 1; Scripted.index := ∅;
     Scripted.removed := ["uploads/1-notes.pdf"] |}.

(** A scanned PDF: one page and no text but blanks. *)
Definition scanned : PdfData := {| text := Some "   "; numpages := 1 |}.

Definition startOf (P : Providers) (w : World P) : St P := mkSt w [] false false false false.

(** One match in the index. *)
Definition oneMatchStart : St Scripted.providers :=
  Scripted.start (Scripted.script [] [Ok (Some [Scripted.hit])] (Ok None)).

End Samples.

(* ===================================================================== *)
(** * Properties *)
(* ===================================================================== *)

(** ** Strings *)

Section JsStrings.

Lemma string_app_cons c s1 s2 : String c s1 +:+ s2 = String c (s1 +:+ s2).
Proof. reflexivity. Qed.

Lemma string_app_nil_r s : s +:+ EmptyString = s.
Proof. induction s as [|c s IH]; [done | by rewrite string_app_cons, IH]. Qed.

Lemma string_app_assoc s1 s2 s3 : (s1 +:+ s2) +:+ s3 = s1 +:+ (s2 +:+ s3).
Proof. induction s1 as [|c s1 IH]; [done | by rewrite !string_app_cons, IH]. Qed.

Lemma string_length_app s1 s2 :
  String.length (s1 +:+ s2) = String.length s1 + String.length s2.
Proof.
  induction s1 as [|c s1 IH]; [done|]. rewrite string_app_cons. simpl. by rewrite IH.
Qed.

Lemma startsWith_app s t : Js.startsWith (s +:+ t) s = true.
Proof.
  induction s as [|c s IH]; [by destruct t|].
  rewrite string_app_cons. cbn [Js.startsWith]. by rewrite Ascii.eqb_refl.
Qed.

Lemma startsWith_app_l s t p :
  Js.startsWith s p = true -> Js.startsWith (s +:+ t) p = true.
Proof.
  revert s. induction p as [|a p IH]; intros s H; [by destruct (s +:+ t)|].
  destruct s as [|b s]; [discriminate H|].
  rewrite string_app_cons. cbn [Js.startsWith] in *.
  destruct (Ascii.eqb a b); [by apply IH | discriminate H].
Qed.

Lemma includes_unfold s p :
  Js.includes s p
  = if Js.startsWith s p then true
    else match s with EmptyString => false | String _ s' => Js.includes s' p end.
Proof. by destruct s. Qed.

Lemma includes_app_l s t p : Js.includes s p = true -> Js.includes (s +:+ t) p = true.
Proof.
  induction s as [|c s IH]; intros H.
  - rewrite includes_unfold in H. destruct (Js.startsWith EmptyString p) eqn:Hp; [|done].
    rewrite includes_unfold. by rewrite (startsWith_app_l EmptyString t p Hp).
  - rewrite includes_unfold in H. rewrite includes_unfold.
    destruct (Js.startsWith (String c s) p) eqn:Hp.
    + by rewrite (startsWith_app_l _ t p Hp).
    + rewrite string_app_cons. destruct (Js.startsWith (String c (s +:+ t)) p); [done|].
      by apply IH.
Qed.

Lemma includes_app_r s t p : Js.includes t p = true -> Js.includes (s +:+ t) p = true.
Proof.
  intros H. induction s as [|c s IH]; [done|].
  rewrite string_app_cons, includes_unfold.
  by destruct (Js.startsWith (String c (s +:+ t)) p).
Qed.

Lemma includes_self s : Js.includes s s = true.
Proof.
  rewrite includes_unfold. pose proof (startsWith_app s EmptyString) as H.
  rewrite string_app_nil_r in H. by rewrite H.
Qed.

Lemma allChars_app p s1 s2 : allChars p (s1 +:+ s2) = allChars p s1 && allChars p s2.
Proof.
  induction s1 as [|c s1 IH]; [done|]. rewrite string_app_cons. cbn [allChars].
  by rewrite IH, andb_assoc.
Qed.

End JsStrings.

(** ** The call log of the pipeline stages *)

Section StageLogs.
Context {P : Providers}.

Lemma countEvents_app p (t1 t2 : list Event) :
  countEvents p (t1 ++ t2) = countEvents p t1 + countEvents p t2.
Proof. induction t1 as [|ev t1 IH]; simpl; [done | rewrite IH; lia]. Qed.

Lemma countEvents_none p (t : list Event) :
  Forall (fun ev => p ev = false) t -> countEvents p t = 0.
Proof. induction 1 as [|ev t Hev _ IH]; simpl; [done | by rewrite Hev, IH]. Qed.

(** A stage logs its own entry and, after it, provider calls only. *)
Definition stageLog (entry : Event) (st st' : St P) : Prop :=
  exists calls, trace st' = trace st ++ entry :: calls
                /\ Forall (fun ev => isProviderCall ev = true) calls.

Lemma stageLog_count p entry (st st' : St P) :
  stageLog entry st st' ->
  (forall ev, isProviderCall ev = true -> p ev = false) ->
  countEvents p (trace st') = countEvents p (trace st) + (if p entry then 1 else 0).
Proof.
  intros (calls & -> & Hcalls) Hp.
  rewrite countEvents_app. simpl.
  rewrite (countEvents_none p calls); [lia |].
  eapply Forall_impl; [exact Hcalls | auto].
Qed.

Ltac stage_cases :=
  repeat (case_match; simplify_eq/=);
  rewrite <- ?app_assoc;
  eexists; (split; [reflexivity | repeat constructor]).

Lemma transformQuery_log q h (st : St P) :
  stageLog (CallTransformQuery q) st (snd (transformQuery q h st)).
Proof.
  unfold stageLog, transformQuery, bind, tryCatch, logEvent.
  destruct h as [[|m h]|]; simpl;
    try (exists []; split; [reflexivity | constructor]).
  unfold getGeminiModel, external, contentTrim, ret, throw; simpl.
  stage_cases.
Qed.

Lemma searchDocuments_log d q k (st : St P) :
  stageLog (CallSearchDocuments d q) st (snd (searchDocuments d q k st)).
Proof.
  unfold stageLog, searchDocuments, embedText, searchVectors, bind, tryCatch, logEvent,
    getEmbeddings, getIndex, getPineconeClient, external, ret, throw; simpl.
  stage_cases.
Qed.

Lemma generateAnswer_log q c h (st : St P) :
  stageLog (CallGenerateAnswer q c) st (snd (generateAnswer q c h st)).
Proof.
  unfold stageLog, generateAnswer, bind, tryCatch, logEvent, getGeminiModel, external,
    contentTrim, now, ret, throw; simpl.
  stage_cases.
Qed.

Lemma now_trace (st : St P) : trace (snd (now st)) = trace st.
Proof. unfold now. by destruct (nowISO P (world st)). Qed.

(** transformQuery has no failing path. *)
Lemma transformQuery_returns q h (st : St P) :
  exists r, fst (transformQuery q h st) = Ok r.
Proof.
  unfold transformQuery, bind, tryCatch, logEvent.
  destruct h as [[|m h]|]; simpl; eauto.
  unfold getGeminiModel, external, contentTrim, ret, throw; simpl.
  repeat (case_match; simplify_eq/=; eauto).
Qed.

(** One attempt enters transformQuery exactly once. *)
Lemma attemptQuery_rewrites d q h (st : St P) :
  countEvents isRewriteCall (trace (snd (attemptQuery d q h st)))
  = countEvents isRewriteCall (trace st) + 1.
Proof.
  assert (Hp : forall ev, isProviderCall ev = true -> isRewriteCall ev = false)
    by (by intros []).
  pose proof (stageLog_count isRewriteCall _ _ _ (transformQuery_log q h st) Hp) as H1.
  unfold attemptQuery, bind.
  destruct (transformQuery q h st) as [[sq|e] st1]; simpl in *; [|exact H1].
  pose proof (stageLog_count isRewriteCall _ _ _ (searchDocuments_log d sq 10 st1) Hp) as H2.
  destruct (searchDocuments d sq 10 st1) as [[ctx|e] st2]; simpl in *; [|lia].
  case_match.
  - pose proof (now_trace st2) as Hn. unfold now in *.
    destruct (nowISO P (world st2)); simpl in *. lia.
  - pose proof (stageLog_count isRewriteCall _ _ _ (generateAnswer_log sq ctx h st2) Hp).
    simpl in *. lia.
Qed.

End StageLogs.

(** ** Query rewriter *)

Section Rewriter.
Context {P : Providers}.

(** C8. With an empty history, [Some []], or an absent one, [None],
    transformQuery returns the question unchanged; it logs its own entry
    and nothing else, so it makes no provider call and leaves the world as
    it was. *)
Theorem transformQuery_without_history (question : string) (st : St P) :
  transformQuery question (Some []) st
    = (Ok question, snd (logEvent (CallTransformQuery question) st))
  /\ transformQuery question None st
    = (Ok question, snd (logEvent (CallTransformQuery question) st))
  /\ countEvents isProviderCall (trace (snd (transformQuery question (Some []) st)))
     = countEvents isProviderCall (trace st)
  /\ countEvents isProviderCall (trace (snd (transformQuery question None st)))
     = countEvents isProviderCall (trace st)
  /\ world (snd (transformQuery question (Some []) st)) = world st
  /\ world (snd (transformQuery question None st)) = world st.
Proof.
  repeat split; try reflexivity; simpl; rewrite countEvents_app; simpl; lia.
Qed.

(** C7. When the language-model call of the rewrite fails, whatever the
    error, transformQuery returns the original question; and transformQuery
    returns a value from every state, for every question and history: it
    never throws. *)
Theorem transformQuery_swallows_provider_error
    (question : string) (history : list Message) (st : St P) (e : JsError) (w : World P) :
  llmInvoke P (transformPrompt question history) (world st) = (Throw e, w) ->
  fst (transformQuery question (Some history) st) = Ok question
  /\ (forall q h (st' : St P), exists r, fst (transformQuery q h st') = Ok r).
Proof.
  intros Hfail. split; [|apply transformQuery_returns].
  unfold transformQuery, bind, tryCatch, logEvent.
  destruct history as [|m h]; [reflexivity|].
  unfold getGeminiModel, external, contentTrim, ret, throw; simpl.
  repeat (case_match; simplify_eq/=); congruence.
Qed.

End Rewriter.

(** The rewrite asks the model, the model answers with an error, and the
    question comes back as it was. *)
Lemma transformQuery_swallows_provider_error_witness :
  let st := Scripted.start (Scripted.script [Throw (Error "503 Service Unavailable")] []
                                            (Ok None)) in
  llmInvoke Scripted.providers (transformPrompt "And its height?" [Scripted.turn]) (world st)
    = (Throw (Error "503 Service Unavailable"), Scripted.script [] [] (Ok None))
  /\ fst (transformQuery "And its height?" (Some [Scripted.turn]) st) = Ok "And its height?".
Proof.
  split; [reflexivity|].
  refine (proj1 (transformQuery_swallows_provider_error (P := Scripted.providers)
            "And its height?" [Scripted.turn] _ (Error "503 Service Unavailable")
            (Scripted.script [] [] (Ok None)) _)).
  reflexivity.
Defined.

(** ** Query orchestrator *)

Section Orchestrator.
Context {P : Providers}.

Lemma processQuery_entered d q h (st0 : St P) :
  processQuery d q h st0
  = processQueryFrom (maxRetries + 1) 0 None d q h (entered d q st0).
Proof. reflexivity. Qed.

(** One iteration of the loop of processQuery. *)
Lemma processQueryFrom_iteration remaining attempt lastError d q h (st : St P) :
  processQueryFrom (S remaining) attempt lastError d q h st
  = match attemptQuery d q h st with
    | (Ok r, st') => (Ok r, st')
    | (Throw e, st') =>
        if Js.includes (message e) "search" then (Throw e, st')
        else if Nat.eqb attempt maxRetries then (Throw e, st')
        else processQueryFrom remaining (S attempt) (Some e) d q h
               (afterWait (2 ^ attempt * 1000) st')
    end.
Proof.
  cbn [processQueryFrom]. unfold tryCatch.
  destruct (attemptQuery d q h st) as [[r|e] st']; [reflexivity|].
  destruct (Js.includes (message e) "search"); [reflexivity|].
  destruct (Nat.eqb attempt maxRetries); reflexivity.
Qed.

(** Every error searchDocuments throws is retrieval-tagged. *)
Lemma searchDocuments_error_tagged d q k (st st' : St P) e :
  searchDocuments d q k st = (Throw e, st') ->
  Js.includes (message e) "search" = true.
Proof.
  unfold searchDocuments, bind, tryCatch, logEvent, throw, ret; simpl.
  repeat (case_match; simplify_eq/=); intros; simplify_eq/=; reflexivity.
Qed.

(** C5. When, in an attempt, retrieval returns a context that is empty or
    white space only, the attempt returns the fixed answer with a timestamp
    and generateAnswer is not entered; the loop of processQuery returns
    that result at once, and so does processQuery when this is its first
    attempt. *)
Theorem empty_context_short_circuits
    (documentId question : string) (history : option (list Message))
    (st st1 st2 : St P) (standaloneQuery context : string) :
  transformQuery question history st = (Ok standaloneQuery, st1) ->
  searchDocuments documentId standaloneQuery 10 st1 = (Ok context, st2) ->
  String.length (Js.trim context) = 0 ->
  let result := {| answer := noInformationAnswer;
                   timestamp := fst (nowISO P (world st2)) |} in
  attemptQuery documentId question history st = (Ok result, snd (now st2))
  /\ countEvents isGeneratorCall (trace (snd (now st2)))
     = countEvents isGeneratorCall (trace st)
  /\ (forall remaining attempt lastError,
        processQueryFrom (S remaining) attempt lastError documentId question history st
        = (Ok result, snd (now st2)))
  /\ (forall st0, st = entered documentId question st0 ->
        processQuery documentId question history st0 = (Ok result, snd (now st2))
        /\ countEvents isGeneratorCall (trace (snd (now st2)))
           = countEvents isGeneratorCall (trace st0)).
Proof.
  intros Hrewrite Hsearch Hempty result.
  assert (Hattempt : attemptQuery documentId question history st = (Ok result, snd (now st2))).
  { unfold attemptQuery, bind. rewrite Hrewrite, Hsearch, Hempty.
    rewrite orb_true_r. unfold now, ret, result.
    by destruct (nowISO P (world st2)). }
  assert (Hp : forall ev, isProviderCall ev = true -> isGeneratorCall ev = false)
    by (by intros []).
  assert (Hcount : countEvents isGeneratorCall (trace (snd (now st2)))
                   = countEvents isGeneratorCall (trace st)).
  { rewrite now_trace.
    pose proof (stageLog_count isGeneratorCall _ _ _
                  (transformQuery_log question history st) Hp) as H1.
    pose proof (stageLog_count isGeneratorCall _ _ _
                  (searchDocuments_log documentId standaloneQuery 10 st1) Hp) as H2.
    rewrite Hrewrite in H1. rewrite Hsearch in H2. simpl in *. lia. }
  repeat split; try assumption.
  - intros. by rewrite processQueryFrom_iteration, Hattempt.
  - subst st. rewrite processQuery_entered. change (maxRetries + 1) with 2.
    by rewrite processQueryFrom_iteration, Hattempt.
  - subst st. rewrite Hcount. unfold entered. simpl.
    rewrite countEvents_app. simpl. lia.
Qed.

(** C3. When an attempt throws an error whose message contains "search",
    the loop of processQuery throws that error from the state in which the
    attempt ended: nothing is logged after it, no wait and no further
    attempt. When it is the first attempt, processQuery has entered
    transformQuery exactly once. *)
Theorem retrieval_failure_not_retried
    (documentId question : string) (history : option (list Message))
    (st st1 : St P) (e : JsError) :
  attemptQuery documentId question history st = (Throw e, st1) ->
  Js.includes (message e) "search" = true ->
  (forall remaining attempt lastError,
     processQueryFrom (S remaining) attempt lastError documentId question history st
     = (Throw e, st1))
  /\ (forall st0, st = entered documentId question st0 ->
        processQuery documentId question history st0 = (Throw e, st1)
        /\ countEvents isRewriteCall (trace st1)
           = countEvents isRewriteCall (trace st0) + 1).
Proof.
  intros Hattempt Htag.
  assert (Hloop : forall remaining attempt lastError,
     processQueryFrom (S remaining) attempt lastError documentId question history st
     = (Throw e, st1)).
  { intros. by rewrite processQueryFrom_iteration, Hattempt, Htag. }
  split; [exact Hloop|].
  intros st0 ->. split.
  - rewrite processQuery_entered. apply Hloop.
  - pose proof (attemptQuery_rewrites documentId question history
                  (entered documentId question st0)) as Hn.
    rewrite Hattempt in Hn. simpl in Hn. rewrite Hn.
    rewrite countEvents_app. simpl. lia.
Qed.

(** C4, as the code has it. When the first attempt fails with an error
    whose message does not contain "search", processQuery waits 1000 ms and
    runs the whole attempt once more, transformQuery included: its result,
    value or error, is the result of that second attempt, started in the
    state the first one left behind. transformQuery is entered twice and
    there is no third attempt. *)
Theorem retry_once_after_wait
    (documentId question : string) (history : option (list Message))
    (st0 st1 : St P) (e : JsError) :
  attemptQuery documentId question history (entered documentId question st0)
    = (Throw e, st1) ->
  Js.includes (message e) "search" = false ->
  processQuery documentId question history st0
    = attemptQuery documentId question history (afterWait 1000 st1)
  /\ trace (afterWait 1000 st1) = trace st1 ++ [Sleep 1000]
  /\ world (afterWait 1000 st1) = world st1
  /\ countEvents isRewriteCall (trace (snd (processQuery documentId question history st0)))
     = countEvents isRewriteCall (trace st0) + 2
  /\ (forall r st2,
        attemptQuery documentId question history (afterWait 1000 st1) = (Ok r, st2) ->
        processQuery documentId question history st0 = (Ok r, st2))
  /\ (forall e2 st2,
        attemptQuery documentId question history (afterWait 1000 st1) = (Throw e2, st2) ->
        processQuery documentId question history st0 = (Throw e2, st2)).
Proof.
  intros Hattempt Htag.
  assert (Heq : processQuery documentId question history st0
                = attemptQuery documentId question history (afterWait 1000 st1)).
  { rewrite processQuery_entered. change (maxRetries + 1) with 2.
    rewrite processQueryFrom_iteration, Hattempt, Htag.
    change (Nat.eqb 0 maxRetries) with false. cbv iota.
    change (2 ^ 0 * 1000) with 1000.
    rewrite processQueryFrom_iteration.
    destruct (attemptQuery documentId question history (afterWait 1000 st1))
      as [[r|e2] st2]; [reflexivity|].
    by destruct (Js.includes (message e2) "search"). }
  repeat split.
  - exact Heq.
  - rewrite Heq, attemptQuery_rewrites. unfold afterWait. simpl.
    pose proof (attemptQuery_rewrites documentId question history
                  (entered documentId question st0)) as Hn.
    rewrite Hattempt in Hn. simpl in Hn.
    rewrite countEvents_app, Hn, countEvents_app. simpl. lia.
  - intros r st2 H2. by rewrite Heq.
  - intros e2 st2 H2. by rewrite Heq.
Qed.

End Orchestrator.

(** No match in the index: the fixed answer, and no generator call. *)
Lemma empty_context_short_circuits_witness :
  let st := entered "doc-0" "What is a heap?" Scripted.noMatchStart in
  let st1 := snd (transformQuery "What is a heap?" None st) in
  let st2 := snd (searchDocuments "doc-0" "What is a heap?" 10 st1) in
  searchDocuments "doc-0" "What is a heap?" 10 st1 = (Ok EmptyString, st2)
  /\ processQuery "doc-0" "What is a heap?" None Scripted.noMatchStart
     = (Ok {| answer := noInformationAnswer; timestamp := "2024-01-01T00:00:00.000Z" |},
        snd (now st2))
  /\ countEvents isGeneratorCall (trace (snd (now st2))) = 0.
Proof.
  intros st st1 st2.
  assert (H1 : transformQuery "What is a heap?" None st = (Ok "What is a heap?", st1))
    by reflexivity.
  assert (H2 : searchDocuments "doc-0" "What is a heap?" 10 st1 = (Ok EmptyString, st2))
    by reflexivity.
  assert (H3 : String.length (Js.trim EmptyString) = 0) by reflexivity.
  destruct (empty_context_short_circuits "doc-0" "What is a heap?" None
              st st1 st2 "What is a heap?" EmptyString H1 H2 H3) as (_ & _ & _ & H).
  destruct (H Scripted.noMatchStart eq_refl) as [Hres Hcount].
  split; [exact H2 | split; [exact Hres | exact Hcount]].
Defined.

(** The index is down: the error of the first attempt comes out, after one
    rewrite call. *)
Lemma retrieval_failure_not_retried_witness :
  let e := Error "Failed to search documents: Failed to search vectors: index unavailable" in
  let st := entered "doc-0" "What is a heap?" Scripted.indexDownStart in
  let st1 := snd (attemptQuery "doc-0" "What is a heap?" None st) in
  Js.includes (message e) "search" = true
  /\ processQuery "doc-0" "What is a heap?" None Scripted.indexDownStart = (Throw e, st1)
  /\ countEvents isRewriteCall (trace st1) = 1.
Proof.
  intros e st st1.
  assert (H1 : attemptQuery "doc-0" "What is a heap?" None st = (Throw e, st1))
    by reflexivity.
  assert (H2 : Js.includes (message e) "search" = true) by reflexivity.
  destruct (retrieval_failure_not_retried "doc-0" "What is a heap?" None st st1 e H1 H2)
    as [_ H].
  destruct (H Scripted.indexDownStart eq_refl) as [Hres Hcount].
  split; [exact H2 | split; [exact Hres | exact Hcount]].
Defined.

(** A generation hiccup: the second attempt answers, after a wait of
    1000 ms and a second rewrite call. *)
Lemma retry_once_after_wait_witness :
  let e := Error "Failed to generate answer: 503 Service Unavailable" in
  let h := Some [Scripted.turn] in
  let st := entered "doc-0" Scripted.followUp Scripted.hiccupStart in
  let st1 := snd (attemptQuery "doc-0" Scripted.followUp h st) in
  attemptQuery "doc-0" Scripted.followUp h st = (Throw e, st1)
  /\ Js.includes (message e) "search" = false
  /\ fst (processQuery "doc-0" Scripted.followUp h Scripted.hiccupStart)
     = Ok {| answer := "Logarithmic in its size.";
             timestamp := "2024-01-01T00:00:00.000Z" |}
  /\ countEvents isRewriteCall
       (trace (snd (processQuery "doc-0" Scripted.followUp h Scripted.hiccupStart))) = 2
  /\ countEvents isSleep
       (trace (snd (processQuery "doc-0" Scripted.followUp h Scripted.hiccupStart))) = 1.
Proof.
  intros e h st st1.
  assert (H1 : attemptQuery "doc-0" Scripted.followUp h st = (Throw e, st1))
    by reflexivity.
  assert (H2 : Js.includes (message e) "search" = false) by reflexivity.
  destruct (retry_once_after_wait "doc-0" Scripted.followUp h Scripted.hiccupStart st1 e H1 H2)
    as (Heq & _ & _ & Hcount & _ & _).
  split; [exact H1 | split; [exact H2 | split; [| split; [exact Hcount|]]]].
  - rewrite Heq. reflexivity.
  - rewrite Heq. reflexivity.
Defined.

(** C4, as the claim has it, fails: in the scenario of the hiccup the
    first attempt fails with an error that is not retrieval-tagged, and
    the retry runs the rewrite again, so transformQuery is entered twice in
    the call and the language model is asked to rewrite twice. *)
Lemma retry_runs_rewrite_again : ~ retrySkipsRewrite Scripted.providers.
Proof.
  intros H.
  specialize (H "doc-0" Scripted.followUp (Some [Scripted.turn]) Scripted.hiccupStart
                (snd (attemptQuery "doc-0" Scripted.followUp (Some [Scripted.turn])
                        (entered "doc-0" Scripted.followUp Scripted.hiccupStart)))
                (Error "Failed to generate answer: 503 Service Unavailable")
                eq_refl eq_refl).
  vm_compute in H. discriminate H.
Qed.

(** ** Status gate of the query endpoint *)

Section QueryGate.
Context {P : Providers}.

Lemma server_eta (srv : Server P) :
  mkServer (documents srv) (pending srv) (proc srv) = srv.
Proof. by destruct srv. Qed.

(** C9. A query for a document whose status is 'processing' is rejected
    with an AppError of status 400 and code DOCUMENT_PROCESSING, which the
    error handler renders as such; the server is left as it was, so
    nothing is logged: neither processQuery nor any of its stages is
    entered. *)
Theorem query_rejected_while_processing
    (req : QueryBody) (srv : Server P) (document : Document) :
  documents srv !! bodyDocumentId req = Some document ->
  status document = "processing" ->
  let message := "Document is still being processed. Please try again in a moment." in
  handleQuery req srv = (Next (AppError message 400 "DOCUMENT_PROCESSING"), srv)
  /\ respond (fst (handleQuery req srv))
     = {| httpStatus := 400; body := Failure message "DOCUMENT_PROCESSING" |}
  /\ countEvents isPipelineCall (trace (proc (snd (handleQuery req srv))))
     = countEvents isPipelineCall (trace (proc srv)).
Proof.
  intros Hdoc Hstatus message.
  assert (H : handleQuery req srv
              = (Next (AppError message 400 "DOCUMENT_PROCESSING"), srv)).
  { unfold handleQuery, handleQueryBody. rewrite Hdoc, Hstatus. simpl.
    by rewrite server_eta. }
  rewrite H. repeat split.
Qed.

(** C10. A query for a document whose status is 'failed' is rejected with
    an AppError of status 400 and code DOCUMENT_FAILED, rendered as such by
    the error handler; the stored error message is a part of the message,
    which reads 'Document processing failed: <stored>. Please upload the
    document again.' when the stored message is not empty ('Unknown error'
    takes its place when none, or an empty one, is stored); the server is
    left as it was, so the query pipeline is not entered. *)
Theorem query_rejected_after_failure
    (req : QueryBody) (srv : Server P) (document : Document) :
  documents srv !! bodyDocumentId req = Some document ->
  status document = "failed" ->
  let message := "Document processing failed: "
                 +:+ Js.orElse (error document) "Unknown error"
                 +:+ ". Please upload the document again." in
  handleQuery req srv = (Next (AppError message 400 "DOCUMENT_FAILED"), srv)
  /\ respond (fst (handleQuery req srv))
     = {| httpStatus := 400; body := Failure message "DOCUMENT_FAILED" |}
  /\ (forall stored, error document = Some stored ->
        (exists before after, message = before +:+ stored +:+ after)
        /\ (stored <> EmptyString ->
            message = "Document processing failed: " +:+ stored
                      +:+ ". Please upload the document again."))
  /\ countEvents isPipelineCall (trace (proc (snd (handleQuery req srv))))
     = countEvents isPipelineCall (trace (proc srv)).
Proof.
  intros Hdoc Hstatus message.
  assert (H : handleQuery req srv = (Next (AppError message 400 "DOCUMENT_FAILED"), srv)).
  { unfold handleQuery, handleQueryBody. rewrite Hdoc, Hstatus. simpl.
    by rewrite server_eta. }
  rewrite H. split; [reflexivity|]. split; [reflexivity|]. split; [|reflexivity].
  intros stored Hstored. unfold message. rewrite Hstored.
  destruct stored as [|c stored].
  - split; [|done]. eexists _, EmptyString. by rewrite !string_app_nil_r.
  - split; [|reflexivity]. by eexists _, _.
Qed.

End QueryGate.

(** A query that arrives while notes.pdf is being ingested. *)
Lemma query_rejected_while_processing_witness :
  statusOf "doc-0" Scripted.uploaded = Some "processing"
  /\ respond (fst (handleQuery Scripted.ask Scripted.uploaded))
     = {| httpStatus := 400;
          body := Failure "Document is still being processed. Please try again in a moment."
                          "DOCUMENT_PROCESSING" |}
  /\ trace (proc (snd (handleQuery Scripted.ask Scripted.uploaded)))
     = [FsStatCalled "uploads/1-notes.pdf"].
Proof.
  pose (document := {| documentId := "doc-0"; fileName := "notes.pdf";
                       uploadDate := "2024-01-01T00:00:00.000Z"; status := "processing";
                       filePath := "uploads/1-notes.pdf"; fileSize := 4096;
                       pageCount := None; chunkCount := None; error := None |}).
  assert (H1 : documents Scripted.uploaded !! bodyDocumentId Scripted.ask = Some document)
    by reflexivity.
  destruct (query_rejected_while_processing Scripted.ask Scripted.uploaded document
              H1 eq_refl) as (Hq & Hr & _).
  split; [reflexivity | split; [exact Hr |]].
  rewrite Hq. reflexivity.
Defined.

(** A query for a document whose ingestion failed in the parser. *)
Lemma query_rejected_after_failure_witness :
  statusOf "doc-0" Scripted.broken = Some "failed"
  /\ respond (fst (handleQuery Scripted.ask Scripted.broken))
     = {| httpStatus := 400;
          body := Failure "Document processing failed: Failed to process PDF document: Invalid PDF structure. Please upload the document again."
                          "DOCUMENT_FAILED" |}
  /\ countEvents isPipelineCall (trace (proc (snd (handleQuery Scripted.ask Scripted.broken))))
     = 0.
Proof.
  pose (document := {| documentId := "doc-0"; fileName := "notes.pdf";
                       uploadDate := "2024-01-01T00:00:00.000Z"; status := "failed";
                       filePath := "uploads/1-notes.pdf"; fileSize := 4096;
                       pageCount := None; chunkCount := None;
                       error := Some "Failed to process PDF document: Invalid PDF structure" |}).
  assert (H1 : documents Scripted.broken !! bodyDocumentId Scripted.ask = Some document)
    by reflexivity.
  destruct (query_rejected_after_failure Scripted.ask Scripted.broken document
              H1 eq_refl) as (_ & Hr & _ & Hc).
  split; [reflexivity | split; [exact Hr | exact Hc]].
Defined.

(** ** Vector records and the index *)

Section IndexMap.
Context {N : Type}.
Implicit Types (batch : list (VectorRecord N)) (idx : gmap string (VectorRecord N)).

(** Two numbers with the same decimal rendering are equal. *)
Lemma ofNat_inj : Inj (=) (=) Js.ofNat.
Proof.
  intros a b H. unfold Js.ofNat in H.
  assert (Hu : Nat.to_uint a = Nat.to_uint b).
  { pose proof (NilEmpty.usu (Nat.to_uint a)) as Ha.
    pose proof (NilEmpty.usu (Nat.to_uint b)) as Hb.
    rewrite H in Ha. congruence. }
  rewrite <- (DecimalNat.Unsigned.of_to a), <- (DecimalNat.Unsigned.of_to b).
  by rewrite Hu.
Qed.

Lemma pineconeUpsert_cons r batch idx :
  pineconeUpsert (r :: batch) idx = pineconeUpsert batch (<[id r := r]> idx).
Proof. reflexivity. Qed.

Lemma pineconeUpsert_app b1 b2 idx :
  pineconeUpsert (b1 ++ b2) idx = pineconeUpsert b2 (pineconeUpsert b1 idx).
Proof. apply fold_left_app. Qed.

Lemma pineconeUpsert_other batch idx k :
  k ∉ map id batch -> pineconeUpsert batch idx !! k = idx !! k.
Proof.
  revert idx. induction batch as [|r b IH]; intros idx Hk; [done|].
  rewrite pineconeUpsert_cons, IH.
  - apply lookup_insert_ne. intros <-. apply Hk. simpl. left.
  - intros Hin. apply Hk. simpl. by right.
Qed.

Lemma pineconeUpsert_written batch idx r :
  NoDup (map id batch) -> r ∈ batch -> pineconeUpsert batch idx !! id r = Some r.
Proof.
  revert idx. induction batch as [|r0 b IH]; intros idx Hnd Hin.
  - by apply elem_of_nil in Hin.
  - simpl in Hnd. apply NoDup_cons in Hnd as [Hr0 Hnd].
    rewrite pineconeUpsert_cons.
    apply elem_of_cons in Hin as [->|Hin].
    + rewrite pineconeUpsert_other by done. apply lookup_insert_eq.
    + by apply IH.
Qed.

Lemma pineconeUpsert_fixed batch idx :
  (forall r, r ∈ batch -> idx !! id r = Some r) -> pineconeUpsert batch idx = idx.
Proof.
  induction batch as [|r b IH]; intros H; [done|].
  rewrite pineconeUpsert_cons, insert_id.
  - apply IH. intros r' Hr'. apply H. by right.
  - apply H. left.
Qed.

Lemma pineconeUpsert_dom batch idx :
  dom (pineconeUpsert batch idx) = dom idx ∪ list_to_set (map id batch).
Proof.
  revert idx. induction batch as [|r b IH]; intros idx.
  - simpl. by rewrite union_empty_r_L.
  - rewrite pineconeUpsert_cons, IH, dom_insert_L. simpl.
    by rewrite (comm_L (∪) {[id r]} (dom idx)), <- (assoc_L (∪)).
Qed.
End IndexMap.

Section StoreVectors.
Context {P : Providers}.

Lemma buildRecords_ids d f (chunks : list Chunk) (vectors : list (list (Num P))) :
  map id (buildRecords d f chunks vectors) = recordIds d (length chunks).
Proof.
  unfold buildRecords, recordIds. apply list_eq. intros i.
  change (map id ?l) with (id <$> l).
  change (map ?g (seq 0 ?n)) with (g <$> seq 0 n).
  rewrite !list_lookup_fmap, list_lookup_imap.
  destruct (chunks !! i) as [c|] eqn:Hc; simpl.
  - rewrite lookup_seq_lt by (by eapply lookup_lt_Some). reflexivity.
  - rewrite lookup_seq_ge by (by apply lookup_ge_None). reflexivity.
Qed.

Lemma recordIds_NoDup d n : NoDup (recordIds d n).
Proof.
  unfold recordIds. change (map ?g (seq 0 n)) with (g <$> seq 0 n).
  apply NoDup_fmap_2; [|apply NoDup_seq].
  intros i j H. apply String.app_inj in H. apply String.app_inj in H.
  by apply ofNat_inj.
Qed.

Lemma upsertBatches_cons fuel r (records : list (VectorRecord (Num P))) :
  upsertBatches (S fuel) (r :: records)
  = (do* external (IndexUpsert (map id (take batchSize (r :: records))))
                  (indexUpsertP P (take batchSize (r :: records))) in
     upsertBatches fuel (drop batchSize (r :: records))).
Proof. reflexivity. Qed.

(** With enough fuel for all the batches, and an index that keeps records
    by id, the batches together write exactly the records. *)
Lemma upsertBatches_view view fuel (records : list (VectorRecord (Num P))) (st : St P) :
  upsertByIdContract P view ->
  length records <= fuel ->
  exists st', upsertBatches fuel records st = (Ok tt, st')
              /\ view (world st') = pineconeUpsert records (view (world st))
              /\ pineconeIndex st' = pineconeIndex st.
Proof.
  intros Hc. revert records st.
  induction fuel as [|fuel IH]; intros records st Hlen.
  - destruct records; [|simpl in Hlen; lia]. by exists st.
  - destruct records as [|r records]; [by exists st|].
    rewrite upsertBatches_cons. unfold bind, external.
    destruct (Hc (take batchSize (r :: records)) (world st)) as (w' & Hup & Hview).
    rewrite Hup.
    match goal with |- context [upsertBatches fuel ?rs ?s] =>
      destruct (IH rs s) as (st' & Hrun & Hview' & Hidx) end.
    { rewrite length_drop. simpl in *. unfold batchSize. lia. }
    exists st'. split; [exact Hrun|]. split; [|exact Hidx].
    rewrite Hview'. cbn [world]. rewrite Hview, <- pineconeUpsert_app.
    by rewrite take_drop.
Qed.

Lemma getIndex_ready (st : St P) :
  envSet (PINECONE_API_KEY P) = true ->
  envSet (PINECONE_INDEX_NAME P) = true ->
  exists st', getIndex st = (Ok tt, st') /\ world st' = world st.
Proof.
  intros Hkey Hname. unfold getIndex, getPineconeClient. rewrite Hkey, Hname.
  destruct (pineconeIndex st), (pineconeClient st); eauto.
Qed.

(** storeVectors on well-formed arguments, configuration present, index
    keeping records by id: it succeeds and writes the records it builds. *)
Lemma storeVectors_view view d f (chunks : list Chunk) (vectors : list (list (Num P)))
    (st : St P) :
  upsertByIdContract P view ->
  envSet (PINECONE_API_KEY P) = true ->
  envSet (PINECONE_INDEX_NAME P) = true ->
  chunks <> [] ->
  length chunks = length vectors ->
  exists st', storeVectors d chunks vectors f st = (Ok tt, st')
              /\ view (world st')
                 = pineconeUpsert (buildRecords d f chunks vectors) (view (world st)).
Proof.
  intros Hc Hkey Hname Hne Hlen.
  unfold storeVectors, tryCatch, bind.
  destruct (Nat.eqb_spec (length chunks) 0) as [H0|_];
    [by destruct chunks|].
  destruct (Nat.eqb_spec (length vectors) 0) as [H0|_];
    [destruct chunks; [done | simpl in *; lia]|].
  rewrite Hlen, Nat.eqb_refl. cbn [negb].
  destruct (getIndex_ready st Hkey Hname) as (st1 & -> & Hw).
  destruct (upsertBatches_view view (length (buildRecords d f chunks vectors))
              (buildRecords d f chunks vectors) st1 Hc (le_n _))
    as (st' & -> & Hview & _).
  exists st'. split; [reflexivity|]. by rewrite Hview, Hw.
Qed.

End StoreVectors.

(** C6. storeVectors builds one record per chunk; the id of the record of
    chunk [i] is the document id followed by [-chunk-i], so the ids are
    pairwise distinct and are the same for every ingestion of a document of
    as many chunks under the same document id. On an index that keeps
    records by id, the records are found under their ids after the call;
    a second ingestion under the same document id, of as many chunks,
    adds no id and no record, and leaves its own records under the ids;
    with the same chunks and vectors it leaves the index as it was. *)
Theorem upsert_by_record_id {P : Providers}
    (view : World P -> gmap string (VectorRecord (Num P)))
    (documentId fileName : string) (chunks : list Chunk)
    (vectors : list (list (Num P))) (st : St P) :
  upsertByIdContract P view ->
  envSet (PINECONE_API_KEY P) = true ->
  envSet (PINECONE_INDEX_NAME P) = true ->
  chunks <> [] ->
  length chunks = length vectors ->
  let records := buildRecords documentId fileName chunks vectors in
  length records = length chunks
  /\ map id records = recordIds documentId (length chunks)
  /\ NoDup (map id records)
  /\ exists st1,
       storeVectors documentId chunks vectors fileName st = (Ok tt, st1)
       /\ (forall r, r ∈ records -> view (world st1) !! id r = Some r)
       /\ dom (view (world st1))
          = dom (view (world st)) ∪ list_to_set (recordIds documentId (length chunks))
       /\ (forall fileName' chunks' (vectors' : list (list (Num P))),
             length chunks' = length chunks ->
             length vectors' = length chunks ->
             exists st2,
               storeVectors documentId chunks' vectors' fileName' st1 = (Ok tt, st2)
               /\ dom (view (world st2)) = dom (view (world st1))
               /\ base.size (view (world st2)) = base.size (view (world st1))
               /\ (forall r, r ∈ buildRecords documentId fileName' chunks' vectors' ->
                     view (world st2) !! id r = Some r))
       /\ exists st2,
            storeVectors documentId chunks vectors fileName st1 = (Ok tt, st2)
            /\ view (world st2) = view (world st1).
Proof.
  intros Hc Hkey Hname Hne Hlen records.
  assert (Hids : forall f' c' (v' : list (list (Num P))),
            length c' = length chunks ->
            map id (buildRecords documentId f' c' v') = recordIds documentId (length chunks)).
  { intros f' c' v' <-. apply buildRecords_ids. }
  assert (Hnd : forall f' c' (v' : list (list (Num P))),
            length c' = length chunks ->
            NoDup (map id (buildRecords documentId f' c' v'))).
  { intros f' c' v' Hl. rewrite (Hids f' c' v' Hl). apply recordIds_NoDup. }
  split; [apply length_imap|].
  split; [by apply Hids|].
  split; [by apply Hnd|].
  destruct (storeVectors_view view documentId fileName chunks vectors st
              Hc Hkey Hname Hne Hlen) as (st1 & Hrun1 & Hview1).
  exists st1. split; [exact Hrun1|].
  assert (Hfound : forall r, r ∈ records -> view (world st1) !! id r = Some r).
  { intros r Hr. rewrite Hview1. apply pineconeUpsert_written; [by apply Hnd | exact Hr]. }
  split; [exact Hfound|].
  assert (Hdom : dom (view (world st1))
                 = dom (view (world st)) ∪ list_to_set (recordIds documentId (length chunks))).
  { by rewrite Hview1, pineconeUpsert_dom, (Hids fileName chunks vectors). }
  split; [exact Hdom|]. split.
  - intros fileName' chunks' vectors' Hl1 Hl2.
    destruct (storeVectors_view view documentId fileName' chunks' vectors' st1
                Hc Hkey Hname) as (st2 & Hrun2 & Hview2).
    { destruct chunks', chunks; simpl in *; done. }
    { congruence. }
    exists st2. split; [exact Hrun2|].
    assert (Hdom2 : dom (view (world st2)) = dom (view (world st1))).
    { rewrite Hview2, pineconeUpsert_dom, (Hids fileName' chunks' vectors' Hl1), Hdom.
      by rewrite <- (assoc_L (∪)), (idemp_L (∪)). }
    split; [exact Hdom2|]. split.
    + by rewrite <- !size_dom, Hdom2.
    + intros r Hr. rewrite Hview2.
      apply pineconeUpsert_written; [by apply Hnd | exact Hr].
  - destruct (storeVectors_view view documentId fileName chunks vectors st1
                Hc Hkey Hname Hne Hlen) as (st2 & Hrun2 & Hview2).
    exists st2. split; [exact Hrun2|].
    rewrite Hview2. by apply pineconeUpsert_fixed.
Qed.

(** Two chunks stored twice under doc-0: two ids, and the second call
    leaves the index as the first one made it. *)
Lemma upsert_by_record_id_witness :
  upsertByIdContract Scripted.providers Scripted.index
  /\ map id (buildRecords (P := Scripted.providers) "doc-0" "notes.pdf"
               Scripted.twoChunks Scripted.twoVectors)
     = ["doc-0-chunk-0"; "doc-0-chunk-1"]
  /\ exists st1 st2 : St Scripted.providers,
       storeVectors (P := Scripted.providers)
         "doc-0" Scripted.twoChunks Scripted.twoVectors "notes.pdf" Scripted.idle
         = (Ok tt, st1)
       /\ storeVectors (P := Scripted.providers)
            "doc-0" Scripted.twoChunks Scripted.twoVectors "notes.pdf" st1
         = (Ok tt, st2)
       /\ Scripted.index (world st2) = Scripted.index (world st1).
Proof.
  assert (Hc : upsertByIdContract Scripted.providers Scripted.index).
  { intros batch w. eexists. split; reflexivity. }
  assert (Hne : Scripted.twoChunks <> []) by discriminate.
  destruct (upsert_by_record_id (P := Scripted.providers) Scripted.index
              "doc-0" "notes.pdf" Scripted.twoChunks Scripted.twoVectors Scripted.idle
              Hc eq_refl eq_refl Hne eq_refl)
    as (_ & Hids & _ & st1 & Hrun1 & _ & _ & _ & st2 & Hrun2 & Hsame).
  split; [exact Hc | split; [exact Hids |]].
  exists st1, st2. split; [exact Hrun1 | split; [exact Hrun2 | exact Hsame]].
Defined.

(** ** The status state machine *)

Example ingested_ready : statusOf "doc-0" Scripted.ingested = Some "ready".
Proof. vm_compute. reflexivity. Qed.

Example broken_failed : statusOf "doc-0" Scripted.broken = Some "failed".
Proof. vm_compute. reflexivity. Qed.

Section Registry.
Context {P : Providers}.

Lemma statusOf_insert_eq id d (docs : gmap string Document) pend (st : St P) :
  statusOf id (mkServer (<[id := d]> docs) pend st) = Some (status d).
Proof. unfold statusOf. simpl. by rewrite lookup_insert_eq. Qed.

Lemma statusOf_insert_ne id id' d (docs : gmap string Document) pend pend' (st st' : St P) :
  id <> id' ->
  statusOf id' (mkServer (<[id := d]> docs) pend st) = statusOf id' (mkServer docs pend' st').
Proof. intros Hne. unfold statusOf. simpl. by rewrite lookup_insert_ne. Qed.

Lemma upload_accepted file (srv : Server P) :
  accepts file = true ->
  exists d t,
    documents (snd (uploadDocument file srv)) = <[nextUuid srv := d]> (documents srv)
    /\ pending (snd (uploadDocument file srv)) = pending srv ++ [t]
    /\ status d = "processing"
    /\ taskDocumentId t = nextUuid srv.
Proof.
  intros H. unfold accepts in H.
  destruct file as [f|]; [|done].
  destruct (Nat.eqb (size f) 0) eqn:Hsize; [done|].
  destruct (originalname f) as [name|] eqn:Hname; [|done].
  destruct (Nat.eqb (String.length (Js.trim name)) 0) eqn:Htrim; [done|].
  unfold uploadDocument, nextUuid. rewrite Hsize, Hname, Htrim.
  destruct (uuidv4 P (world (proc srv))) as [newId w1].
  destruct (nowISO P w1) as [date w2]. cbn [snd fst documents pending].
  do 2 eexists. split; [reflexivity|]. split; [reflexivity|]. split; reflexivity.
Qed.

Lemma upload_rejected file (srv : Server P) :
  accepts file = false ->
  documents (snd (uploadDocument file srv)) = documents srv
  /\ pending (snd (uploadDocument file srv)) = pending srv.
Proof.
  intros H. unfold accepts in H.
  destruct file as [f|]; [|done]. unfold uploadDocument.
  destruct (Nat.eqb (size f) 0) eqn:Hsize; [done|].
  destruct (originalname f) as [name|] eqn:Hname; [|done].
  destruct (Nat.eqb (String.length (Js.trim name)) 0) eqn:Htrim; done.
Qed.

Lemma handleQuery_registry req (srv : Server P) :
  documents (snd (handleQuery req srv)) = documents srv
  /\ pending (snd (handleQuery req srv)) = pending srv.
Proof.
  unfold handleQuery.
  by destruct (handleQueryBody _ _ _ _ _) as [[r|e] st].
Qed.

(** The registry after the [k]-th pending ingestion has settled. *)
Lemma settle_registry k task doc (srv : Server P) :
  pending srv !! k = Some task ->
  documents srv !! taskDocumentId task = Some doc ->
  pending (settle k srv) = delete k (pending srv)
  /\ exists doc',
       documents (settle k srv) = <[taskDocumentId task := doc']> (documents srv)
       /\ status doc' = settledStatus (ingestion task srv)
       /\ match ingestion task srv with
          | Ok result => doc' = markReady doc result
          | Throw err => doc' = markFailed doc err
          end.
Proof.
  intros Hk Hdoc. unfold settle, ingestion. rewrite Hk.
  destruct (processDocument _ _ _ _) as [[result|err] st];
    unfold onProcessed, onProcessingFailed; cbn [documents pending fst];
    rewrite Hdoc; (split; [reflexivity|]); eexists; repeat split.
Qed.

Lemma settle_nothing k (srv : Server P) :
  pending srv !! k = None -> settle k srv = srv.
Proof. intros Hk. unfold settle. by rewrite Hk. Qed.


Lemma registry_same (srv srv' : Server P) :
  documents srv' = documents srv -> pending srv' = pending srv ->
  (forall id, statusOf id srv' = statusOf id srv)
  /\ (registryInv srv -> registryInv srv').
Proof.
  intros Hd Hp.
  assert (Hs : forall id, statusOf id srv' = statusOf id srv)
    by (intros id; unfold statusOf; by rewrite Hd).
  split; [exact Hs|]. intros (Hnd & Hpend & Hst). repeat split.
  - by rewrite Hp.
  - intros t Ht. rewrite Hs. apply Hpend. by rewrite <- Hp.
  - intros id s. rewrite Hs. apply Hst.
Qed.

Lemma settledStatus_terminal r : terminal (settledStatus r).
Proof. destruct r; [by left | by right]. Qed.

(** One action keeps the invariant, and moves the status of a registered
    document only as [statusStep] says. *)
Lemma step_registry a (srv : Server P) :
  registryInv srv -> uuidFresh a srv ->
  registryInv (step a srv)
  /\ (forall id s, statusOf id srv = Some s ->
        exists s', statusOf id (step a srv) = Some s' /\ statusStep id a srv s s')
  /\ (forall id s, statusOf id srv = None -> statusOf id (step a srv) = Some s ->
        s = "processing" /\ exists file, a = Upload file).
Proof.
  intros Hinv Hfresh.
  assert (Hkeep : forall srv' : Server P,
            documents srv' = documents srv -> pending srv' = pending srv ->
            registryInv srv'
            /\ (forall id s, statusOf id srv = Some s ->
                  exists s', statusOf id srv' = Some s' /\ statusStep id a srv s s')
            /\ (forall id s, statusOf id srv = None -> statusOf id srv' = Some s ->
                  s = "processing" /\ exists file, a = Upload file)).
  { intros srv' Hd Hp. destruct (registry_same srv srv' Hd Hp) as [Hs Hi].
    split; [by apply Hi|]. split.
    - intros id s H. exists s. rewrite Hs. split; [done | by left].
    - intros id s H1 H2. rewrite Hs in H2. congruence. }
  destruct Hinv as (Hnd & Hpend & Hst).
  destruct a as [file|id0|req|k]; simpl.
  - destruct (accepts file) eqn:Hacc.
    + destruct (upload_accepted file srv Hacc) as (d & t & Hd & Hp & Hsd & Htid).
      specialize (Hfresh Hacc).
      set (new := nextUuid srv) in *.
      assert (Hold : forall id s, statusOf id srv = Some s -> id <> new).
      { intros id s H ->. unfold statusOf in H. by rewrite Hfresh in H. }
      assert (Hs : forall id, id <> new ->
                statusOf id (snd (uploadDocument file srv)) = statusOf id srv).
      { intros id Hne. unfold statusOf. rewrite Hd. by rewrite lookup_insert_ne. }
      assert (Hnew : statusOf new (snd (uploadDocument file srv)) = Some "processing").
      { unfold statusOf. rewrite Hd, lookup_insert_eq. simpl. by rewrite Hsd. }
      split; [repeat split|].
      * rewrite Hp, fmap_app. apply NoDup_app. split; [exact Hnd|]. split.
        -- intros x Hx Hin. simpl in Hin. apply list_elem_of_singleton in Hin.
           apply list_elem_of_fmap in Hx as (t0 & -> & Ht0).
           apply (Hold _ _ (Hpend t0 Ht0)). congruence.
        -- simpl. apply NoDup_singleton.
      * intros t0 Ht0. rewrite Hp in Ht0. apply elem_of_app in Ht0 as [Ht0|Ht0].
        -- rewrite Hs; [by apply Hpend | by eapply Hold, Hpend].
        -- apply list_elem_of_singleton in Ht0 as ->. by rewrite Htid.
      * intros id s H. destruct (decide (id = new)) as [->|Hne].
        -- rewrite Hnew in H. left. congruence.
        -- rewrite Hs in H by done. by eapply Hst.
      * split.
        -- intros id s H. exists s. split; [|by left].
           rewrite Hs; [done | by eapply Hold].
        -- intros id s H1 H2. split; [|by exists file].
           destruct (decide (id = new)) as [->|Hne].
           ++ rewrite Hnew in H2. congruence.
           ++ rewrite Hs in H2 by done. congruence.
    + destruct (upload_rejected file srv Hacc) as [Hd Hp]. by apply Hkeep.
  - by apply Hkeep.
  - destruct (handleQuery_registry req srv) as [Hd Hp]. by apply Hkeep.
  - destruct (pending srv !! k) as [task|] eqn:Hk.
    2:{ rewrite settle_nothing by done. by apply Hkeep. }
    assert (Htask : task ∈ pending srv) by (by eapply list_elem_of_lookup_2).
    pose proof (Hpend task Htask) as Hproc.
    destruct (documents srv !! taskDocumentId task) as [doc|] eqn:Hdoc;
      [|by unfold statusOf in Hproc; rewrite Hdoc in Hproc].
    destruct (settle_registry k task doc srv Hk Hdoc) as (Hp & doc' & Hd & Hsd & _).
    set (tid := taskDocumentId task) in *.
    assert (Hs : forall id, id <> tid -> statusOf id (settle k srv) = statusOf id srv).
    { intros id Hne. unfold statusOf. rewrite Hd. by rewrite lookup_insert_ne. }
    assert (Hnew : statusOf tid (settle k srv) = Some (settledStatus (ingestion task srv))).
    { unfold statusOf. rewrite Hd, lookup_insert_eq. simpl. by rewrite Hsd. }
    (* the other pending ingestions belong to other documents *)
    pose proof (take_drop_middle _ _ _ Hk) as Hmid.
    rewrite <- Hmid in Hnd. rewrite fmap_app, fmap_cons in Hnd.
    apply NoDup_app in Hnd as (Hnd1 & Hdisj & Hnd2).
    apply NoDup_cons in Hnd2 as (Hnot2 & Hnd2).
    assert (Hothers : forall t, t ∈ delete k (pending srv) -> taskDocumentId t <> tid).
    { intros t Ht Heq. unfold tid in Heq. rewrite delete_take_drop in Ht.
      apply elem_of_app in Ht as [Ht|Ht].
      - apply (Hdisj (taskDocumentId task));
          [rewrite <- Heq; by apply list_elem_of_fmap_2 | left].
      - apply Hnot2. rewrite <- Heq. by apply list_elem_of_fmap_2. }
    split; [repeat split|].
    + rewrite Hp, delete_take_drop, fmap_app. apply NoDup_app.
      split; [exact Hnd1|]. split; [|exact Hnd2].
      intros x Hx1 Hx2. apply (Hdisj x Hx1). by right.
    + intros t Ht. rewrite Hp in Ht. rewrite Hs by (by apply Hothers).
      apply Hpend. rewrite delete_take_drop in Ht. rewrite <- Hmid.
      apply elem_of_app in Ht as [Ht|Ht]; apply elem_of_app; [by left | right; by right].
    + intros id s H. destruct (decide (id = tid)) as [->|Hne].
      * rewrite Hnew in H. right. injection H as <-. apply settledStatus_terminal.
      * rewrite Hs in H by done. by eapply Hst.
    + split.
      * intros id s H. destruct (decide (id = tid)) as [->|Hne].
        -- exists (settledStatus (ingestion task srv)). split; [exact Hnew|].
           right. split; [congruence|]. by exists k, task.
        -- exists s. rewrite Hs by done. split; [done | by left].
      * intros id s H1 H2. destruct (decide (id = tid)) as [->|Hne].
        -- congruence.
        -- rewrite Hs in H2 by done. congruence.
Qed.


Lemma boot_registry (w : World P) : registryInv (boot w).
Proof.
  repeat split.
  - apply NoDup_nil_2.
  - intros t Ht. by apply elem_of_nil in Ht.
  - intros id s H. unfold statusOf in H. simpl in H. by rewrite lookup_empty in H.
Qed.

Lemma run_snoc pre a (srv : Server P) : run (pre ++ [a]) srv = step a (run pre srv).
Proof. unfold run. by rewrite fold_left_app. Qed.

(** The invariant holds along a run with fresh ids, and the action that
    follows a prefix of the run finds a fresh id. *)
Lemma run_registry pre post (srv : Server P) :
  registryInv srv -> uuidsFresh (pre ++ post) srv ->
  registryInv (run pre srv) /\ uuidsFresh post (run pre srv).
Proof.
  revert srv. induction pre as [|a pre IH]; intros srv Hinv Hfresh; [done|].
  destruct Hfresh as [Ha Hrest]. apply IH; [|exact Hrest].
  by apply step_registry.
Qed.

Lemma changes_repeat s m : changes (repeat s m) = 0.
Proof.
  induction m as [|m IH]; [done|].
  destruct m as [|m]; [done|].
  change (changes (s :: s :: repeat s m)
          = 0).
  change (changes (s :: repeat s m) = 0) in IH.
  cbn [changes] in *. rewrite String.eqb_refl. exact IH.
Qed.

Lemma changes_two_phases s t n m : changes (repeat s n ++ repeat t m) <= 1.
Proof.
  induction n as [|n IH].
  - simpl. rewrite changes_repeat. lia.
  - destruct n as [|n].
    + destruct m as [|m]; [simpl; lia|].
      pose proof (changes_repeat t (S m)) as H.
      change (changes (t :: repeat t m) = 0) in H.
      change (changes (s :: t :: repeat t m) <= 1).
      cbn [changes] in *. rewrite H. destruct (String.eqb s t); lia.
    + change (changes (s :: (repeat s n ++ repeat t m)) <= 1) in IH.
      change (changes (s :: s :: (repeat s n ++ repeat t m)) <= 1).
      cbn [changes] in *. rewrite String.eqb_refl. exact IH.
Qed.

Lemma statusHistory_cons id a rest (srv : Server P) :
  statusHistory id (a :: rest) srv
  = match statusOf id srv with Some s => [s] | None => [] end
    ++ statusHistory id rest (step a srv).
Proof. reflexivity. Qed.

(** Along a run the statuses of a document are 'processing' for a while
    and then one terminal status for good; from a terminal status on they
    are that status. *)
Lemma statusHistory_shape id actions (srv : Server P) :
  registryInv srv -> uuidsFresh actions srv ->
  (exists n m t, terminal t
                 /\ statusHistory id actions srv = repeat "processing" n ++ repeat t m)
  /\ (forall s, statusOf id srv = Some s -> terminal s ->
        statusHistory id actions srv = repeat s (length (statusHistory id actions srv))).
Proof.
  revert srv. induction actions as [|a rest IH]; intros srv Hinv Hfresh.
  - simpl. destruct (statusOf id srv) as [s|] eqn:Hs.
    + split; [|by intros ? [= <-] _].
      destruct Hinv as (_ & _ & Hst). destruct (Hst id s Hs) as [->|Ht].
      * exists 1, 0, "ready". split; [by left | done].
      * by exists 0, 1, s.
    + split; [|done]. exists 0, 0, "ready". split; [by left | done].
  - destruct Hfresh as [Ha Hrest].
    destruct (step_registry a srv Hinv Ha) as (Hinv' & Hstep & _).
    destruct (IH (step a srv) Hinv' Hrest) as [(n & m & t & Ht & Hshape) Hterm].
    rewrite statusHistory_cons.
    destruct (statusOf id srv) as [s|] eqn:Hs; [|split; [by exists n, m, t | done]].
    destruct (Hstep id s Hs) as (s' & Hs' & Hmove).
    destruct Hinv as (_ & _ & Hst). destruct (Hst id s Hs) as [->|Hts].
    + split; [|by intros ? [= <-] [|]].
      exists (S n), m, t. split; [exact Ht|]. by rewrite Hshape.
    + assert (s' = s) as ->.
      { destruct Hmove as [|[-> _]]; [done | by destruct Hts]. }
      specialize (Hterm s Hs' Hts).
      assert (Hall : [s] ++ statusHistory id rest (step a srv)
                     = repeat s (S (length (statusHistory id rest (step a srv))))).
      { simpl. by rewrite <- Hterm. }
      split.
      * exists 0, (S (length (statusHistory id rest (step a srv)))), s. by split.
      * intros ? [= <-] _. rewrite Hall at 1. reflexivity.
Qed.


(** C1. Along every run of the server from its start in which uuidv4
    returns fresh ids, for every document id: a document is registered by
    an upload, with status 'processing'; an action leaves the status of a
    registered document as it is, unless the action is the end of that
    document's own ingestion and the status is 'processing', in which case
    the status becomes 'ready' when processDocument resolves and 'failed'
    when it rejects; hence the statuses the document goes through are
    'processing' for a while and then one of 'ready' and 'failed' for good,
    with at most one change. *)
Theorem status_state_machine (w : World P) (actions : list Action) (id : string) :
  uuidsFresh actions (boot w) ->
  (forall pre a post s,
     actions = pre ++ a :: post ->
     statusOf id (run pre (boot w)) = None ->
     statusOf id (step a (run pre (boot w))) = Some s ->
     s = "processing" /\ exists file, a = Upload file)
  /\ (forall pre a post s,
        actions = pre ++ a :: post ->
        statusOf id (run pre (boot w)) = Some s ->
        exists s', statusOf id (step a (run pre (boot w))) = Some s'
                   /\ statusStep id a (run pre (boot w)) s s')
  /\ (exists n m t, terminal t
                    /\ statusHistory id actions (boot w)
                       = repeat "processing" n ++ repeat t m)
  /\ changes (statusHistory id actions (boot w)) <= 1.
Proof.
  intros Hfresh.
  assert (Hat : forall pre a post, actions = pre ++ a :: post ->
            registryInv (run pre (boot w)) /\ uuidFresh a (run pre (boot w))).
  { intros pre a post ->.
    destruct (run_registry pre (a :: post) (boot w) (boot_registry w) Hfresh)
      as [Hinv [Ha _]]. done. }
  destruct (statusHistory_shape id actions (boot w) (boot_registry w) Hfresh)
    as [(n & m & t & Ht & Hshape) _].
  split; [|split; [|split]].
  - intros pre a post s Hact Hnone Hsome. destruct (Hat pre a post Hact) as [Hinv Ha].
    destruct (step_registry a _ Hinv Ha) as (_ & _ & Hnew).
    exact (Hnew id s Hnone Hsome).
  - intros pre a post s Hact Hs. destruct (Hat pre a post Hact) as [Hinv Ha].
    destruct (step_registry a _ Hinv Ha) as (_ & Hstep & _).
    exact (Hstep id s Hs).
  - by exists n, m, t.
  - rewrite Hshape. apply changes_two_phases.
Qed.

End Registry.

(** A run in which notes.pdf is uploaded, queried while it is ingested,
    ingested, and queried and looked up afterwards: its status changes
    once, from 'processing' to 'ready'. *)
Lemma status_state_machine_witness :
  let actions := [Upload (Some Scripted.file); Query Scripted.ask; Settle 0;
                  Query Scripted.ask; GetDocument "doc-0"] in
  let w := Scripted.script [] [] (Ok (Some Scripted.threePages)) : World Scripted.providers in
  uuidsFresh actions (boot w)
  /\ statusHistory "doc-0" actions (boot w)
     = ["processing"; "processing"; "ready"; "ready"; "ready"]
  /\ changes (statusHistory "doc-0" actions (boot w)) <= 1.
Proof.
  intros actions w.
  assert (Hfresh : uuidsFresh actions (boot w)).
  { repeat split. }
  destruct (status_state_machine (P := Scripted.providers) w actions "doc-0" Hfresh)
    as (_ & _ & _ & Hchanges).
  split; [exact Hfresh | split; [vm_compute; reflexivity | exact Hchanges]].
Defined.

(** ** The text splitter on the text of a PDF *)

(** The splitter on small inputs: windows of 10 code units that advance
    by 7 on a word without separators, and cuts in front of the spaces on a
    sentence, the white space at the ends of a chunk trimmed. *)
Example splitText_alphabet :
  TextSplitter.splitText 10 3 "abcdefghijklmnopqrstuvwxyz"
  = ["abcdefghij"; "hijklmnopq"; "opqrstuvwx"; "vwxyz"].
Proof. reflexivity. Qed.

Example splitText_sentence :
  TextSplitter.splitText 10 3 "hello world foo bar baz qux quux"
  = ["hello"; "world foo"; "bar baz"; "qux quux"].
Proof. reflexivity. Qed.

Example splitOnSeparator_spaces :
  TextSplitter.splitOnSeparator " a b  c" " " = [" a"; " b"; " "; " c"].
Proof. reflexivity. Qed.

Section MergingSplits.
Variables chunkSize chunkOverlap : nat.

(** Splits that are all shorter than the chunk size are merged in one go,
    whatever the function for the long ones is. *)
Lemma splitPieces_good recur splits goodSplits finalChunks :
  Forall (fun s => String.length s < chunkSize) splits ->
  goodSplits ++ splits <> [] ->
  TextSplitter.splitPieces chunkSize chunkOverlap recur splits goodSplits finalChunks
  = finalChunks
    ++ TextSplitter.mergeSplits chunkSize chunkOverlap (goodSplits ++ splits) EmptyString.
Proof.
  intros Hshort. revert goodSplits.
  induction Hshort as [|s splits Hs _ IH]; intros goodSplits Hne.
  - rewrite app_nil_r in *. simpl. by destruct goodSplits.
  - cbn [TextSplitter.splitPieces].
    destruct (Nat.ltb_spec (String.length s) chunkSize) as [_|Hge]; [|lia].
    rewrite IH; rewrite <- app_assoc; [done|]. by destruct goodSplits.
Qed.

(** Three splits of which no two neighbours fit in a chunk together, the
    first two longer than the overlap: each becomes a chunk of its own,
    and nothing of a chunk is carried over into the next. *)
Lemma mergeSplits_apart a b c :
  chunkSize < String.length a + String.length b ->
  chunkSize < String.length b + String.length c ->
  chunkOverlap < String.length a ->
  chunkOverlap < String.length b ->
  TextSplitter.mergeSplits chunkSize chunkOverlap [a; b; c] EmptyString
  = TextSplitter.pushDoc
      (TextSplitter.pushDoc
         (TextSplitter.pushDoc [] (TextSplitter.joinDocs [a] EmptyString))
         (TextSplitter.joinDocs [b] EmptyString))
      (TextSplitter.joinDocs [c] EmptyString).
Proof.
  intros Hab Hbc Ha Hb.
  assert (Hfirst :
    TextSplitter.mergeLoop chunkSize chunkOverlap EmptyString [a; b; c] [] [] 0
    = TextSplitter.mergeLoop chunkSize chunkOverlap EmptyString [b; c] [] [a]
        (String.length a)).
  { cbn [TextSplitter.mergeLoop app].
    by destruct (Nat.ltb chunkSize _). }
  unfold TextSplitter.mergeSplits. rewrite Hfirst.
  cbn [TextSplitter.mergeLoop TextSplitter.popFront String.length length app].
  rewrite ?Nat.mul_0_r, ?Nat.add_0_r.
  destruct (Nat.ltb_spec chunkSize (String.length a + String.length b)) as [_|]; [|lia].
  destruct (Nat.ltb_spec chunkOverlap (String.length a)) as [_|]; [|lia].
  cbn [orb app TextSplitter.mergeLoop TextSplitter.popFront String.length length].
  rewrite Nat.sub_diag. cbn [Nat.add]. rewrite ?Nat.mul_0_r, ?Nat.add_0_r.
  destruct (Nat.ltb_spec chunkSize (String.length b + String.length c)) as [_|]; [|lia].
  destruct (Nat.ltb_spec chunkOverlap (String.length b)) as [_|]; [|lia].
  cbn [orb app TextSplitter.mergeLoop]. reflexivity.
Qed.

End MergingSplits.

Section PdfPages.

Lemma allChars_trimStart s :
  allChars Js.isWhiteSpace (Js.trimStart s) = allChars Js.isWhiteSpace s.
Proof.
  induction s as [|c s IH]; [done|]. cbn [Js.trimStart allChars].
  destruct (Js.isWhiteSpace c) eqn:Hc; [exact IH|]. cbn [allChars]. by rewrite Hc.
Qed.

Lemma trimEnd_blank s :
  Js.trimEnd s = EmptyString <-> allChars Js.isWhiteSpace s = true.
Proof.
  induction s as [|c s IH]; [done|]. cbn [Js.trimEnd allChars].
  destruct (Js.trimEnd s) as [|d t].
  - destruct IH as [IH _]. rewrite (IH eq_refl), andb_true_r.
    by destruct (Js.isWhiteSpace c).
  - split; [discriminate|]. intros [_ Hs]%andb_prop.
    destruct IH as [_ IH]. discriminate (IH Hs).
Qed.

(** A text trims to nothing exactly when it is all white space. *)
Lemma trim_blank s :
  Js.trim s = EmptyString <-> allChars Js.isWhiteSpace s = true.
Proof. unfold Js.trim. by rewrite trimEnd_blank, allChars_trimStart. Qed.

Lemma length_trimStart s : String.length (Js.trimStart s) <= String.length s.
Proof.
  induction s as [|c s IH]; [done|]. cbn [Js.trimStart].
  destruct (Js.isWhiteSpace c); cbn [String.length]; lia.
Qed.

Lemma length_trimEnd s : String.length (Js.trimEnd s) <= String.length s.
Proof.
  induction s as [|c s IH]; [done|]. cbn [Js.trimEnd].
  destruct (Js.trimEnd s) as [|d t]; [destruct (Js.isWhiteSpace c)|];
    cbn [String.length] in *; lia.
Qed.

Lemma length_trim s : String.length (Js.trim s) <= String.length s.
Proof.
  unfold Js.trim. pose proof (length_trimEnd (Js.trimStart s)).
  pose proof (length_trimStart s). lia.
Qed.

(** The text of three pages, written out. *)
Lemma pdfText_three page1 page2 page3 :
  pdfText [page1; page2; page3]
  = String "010" (String "010" (page1 +:+
      String "010" (String "010" (page2 +:+
        String "010" (String "010" page3))))).
Proof.
  unfold pdfText, TextSplitter.LF. cbn [fold_left].
  change (ascii_of_nat 10) with "010"%char.
  by rewrite !string_app_assoc, !string_app_cons.
Qed.

Lemma isPage_spec pageText :
  isPage pageText = true ->
  Js.trim pageText <> EmptyString
  /\ Js.includes (String "010" (pageText +:+ String "010" EmptyString))
                 (String "010" (String "010" EmptyString)) = false.
Proof.
  unfold isPage, TextSplitter.LF. change (ascii_of_nat 10) with "010"%char.
  intros [Hblank Hsep]%andb_prop. apply negb_true_iff in Hblank, Hsep.
  split; [|exact Hsep].
  intros Ht. rewrite Ht in Hblank. discriminate Hblank.
Qed.

(** Where a blank line starts inside a page or at its end, it also does
    when a line feed follows the page. *)
Lemma startsWith_blankLine v rest :
  v <> EmptyString ->
  Js.startsWith (v +:+ rest) (String "010" (String "010" EmptyString)) = true ->
  Js.startsWith (v +:+ String "010" EmptyString)
                (String "010" (String "010" EmptyString)) = true.
Proof.
  intros Hv. destruct v as [|c [|c' v]]; [done| |]; rewrite !string_app_cons;
    cbn [Js.startsWith String.append].
  - destruct (Ascii.eqb "010" c); [|done]. intros _. by rewrite ?Ascii.eqb_refl.
  - destruct (Ascii.eqb "010" c); [|done]. destruct (Ascii.eqb "010" c'); [|done].
    intros _. by destruct (v +:+ String "010" EmptyString).
Qed.

(** Inside a page the text is not cut, whatever follows the page. *)
Lemma page_uncut pageText :
  Js.includes (String "010" (pageText +:+ String "010" EmptyString))
              (String "010" (String "010" EmptyString)) = false ->
  forall u v rest,
    pageText = u +:+ v -> v <> EmptyString ->
    Js.startsWith (v +:+ rest) (String "010" (String "010" EmptyString)) = false.
Proof.
  intros Hpage u v rest -> Hv.
  destruct (Js.startsWith (v +:+ rest) _) eqn:Hstart; [|reflexivity].
  apply startsWith_blankLine in Hstart; [|exact Hv].
  rewrite <- Hpage.
  change (String "010" ((u +:+ v) +:+ String "010" EmptyString))
    with (String "010" EmptyString +:+ ((u +:+ v) +:+ String "010" EmptyString)).
  rewrite string_app_assoc. symmetry.
  apply includes_app_r, includes_app_r.
  rewrite includes_unfold. by rewrite Hstart.
Qed.

Lemma splitBefore_uncut sep pageText rest piece :
  (forall u v, pageText = u +:+ v -> v <> EmptyString ->
               Js.startsWith (v +:+ rest) sep = false) ->
  TextSplitter.splitBefore sep (pageText +:+ rest) piece
  = TextSplitter.splitBefore sep rest (piece +:+ pageText).
Proof.
  revert piece. induction pageText as [|c pageText IH]; intros piece Hcut.
  - by rewrite string_app_nil_r.
  - rewrite string_app_cons. cbn [TextSplitter.splitBefore].
    rewrite <- string_app_cons.
    rewrite (Hcut EmptyString (String c pageText) eq_refl) by discriminate.
    cbn [andb]. rewrite IH.
    + by rewrite string_app_assoc.
    + intros u v -> Hv. apply (Hcut (String c u) v); [reflexivity | exact Hv].
Qed.

(** The text is cut in front of the two line feeds of a page: the piece
    that was being built ends there, and the page goes, with its line
    feeds, into the next piece. *)
Lemma splitBefore_page pageText rest piece :
  isPage pageText = true ->
  TextSplitter.splitBefore (String "010" (String "010" EmptyString))
    (String "010" (String "010" (pageText +:+ rest))) piece
  = match piece with
    | EmptyString => []
    | _ => [piece]
    end
    ++ TextSplitter.splitBefore (String "010" (String "010" EmptyString)) rest
         (String "010" (String "010" pageText)).
Proof.
  intros [Hblank Hsep]%isPage_spec.
  assert (Hfirst : Js.startsWith (String "010" (pageText +:+ rest))
                     (String "010" (String "010" EmptyString)) = false).
  { destruct pageText as [|c pageText]; [done|].
    rewrite includes_unfold in Hsep.
    destruct (Js.startsWith (String "010" (String c pageText +:+ _)) _) eqn:H0 in Hsep;
      [discriminate Hsep|].
    rewrite string_app_cons in *. cbn [Js.startsWith] in *.
    rewrite Ascii.eqb_refl in *. destruct (Ascii.eqb "010" c); [|done].
    by destruct (pageText +:+ String "010" EmptyString). }
  assert (Hrest :
    TextSplitter.splitBefore (String "010" (String "010" EmptyString))
      (String "010" (pageText +:+ rest)) (String "010" EmptyString)
    = TextSplitter.splitBefore (String "010" (String "010" EmptyString)) rest
        (String "010" (String "010" pageText))).
  { cbn [TextSplitter.splitBefore]. rewrite Hfirst. cbn [andb String.append].
    rewrite splitBefore_uncut; [reflexivity|].
    intros u v Hp Hv. by eapply page_uncut. }
  assert (Hstep : forall c s,
    TextSplitter.splitBefore (String "010" (String "010" EmptyString)) (String c s) piece
    = if Js.startsWith (String c s) (String "010" (String "010" EmptyString))
         && negb (String.eqb piece EmptyString)
      then piece :: TextSplitter.splitBefore (String "010" (String "010" EmptyString)) s
                      (String c EmptyString)
      else TextSplitter.splitBefore (String "010" (String "010" EmptyString)) s
             (piece +:+ String c EmptyString)) by reflexivity.
  rewrite Hstep.
  assert (Hsep0 : Js.startsWith (String "010" (String "010" (pageText +:+ rest)))
                    (String "010" (String "010" EmptyString)) = true)
    by (by destruct (pageText +:+ rest)).
  rewrite Hsep0.
  destruct piece as [|c piece]; cbn [String.eqb negb andb app String.append].
  - exact Hrest.
  - by rewrite Hrest.
Qed.

(** The splits of the text of three pages on the blank line: the pages,
    each behind its two line feeds. *)
Lemma splitOnSeparator_pages page1 page2 page3 :
  isPage page1 = true -> isPage page2 = true -> isPage page3 = true ->
  TextSplitter.splitOnSeparator (pdfText [page1; page2; page3])
    (String "010" (String "010" EmptyString))
  = [String "010" (String "010" page1); String "010" (String "010" page2);
     String "010" (String "010" page3)].
Proof.
  intros H1 H2 H3. unfold TextSplitter.splitOnSeparator.
  rewrite pdfText_three.
  rewrite (splitBefore_page page1 _ EmptyString H1).
  rewrite (splitBefore_page page2 _ _ H2).
  rewrite <- (string_app_nil_r page3) at 1.
  rewrite (splitBefore_page page3 EmptyString _ H3).
  cbn [TextSplitter.splitBefore app].
  by rewrite !filter_cons_True, filter_nil by done.
Qed.

Lemma length_pdfText_three page1 page2 page3 :
  String.length (pdfText [page1; page2; page3])
  = 6 + String.length page1 + String.length page2 + String.length page3.
Proof.
  rewrite pdfText_three.
  repeat first [rewrite string_length_app | progress cbn [String.length]].
  lia.
Qed.

(** A page behind its line feeds, as a chunk: the page trimmed. *)
Lemma joinDocs_page pageText :
  isPage pageText = true ->
  TextSplitter.joinDocs [String "010" (String "010" pageText)] EmptyString
  = Some (Js.trim pageText).
Proof.
  intros [Hblank _]%isPage_spec. unfold TextSplitter.joinDocs. cbn [Js.join].
  change (Js.trim (String "010" (String "010" pageText))) with (Js.trim pageText).
  by destruct (Js.trim pageText).
Qed.

(** The chunks of the text of three pages that has 2400 characters, with
    the parameters of processDocument, when no page has more than 997
    characters: the three pages, trimmed. *)
Lemma splitText_three_pages page1 page2 page3 :
  isPage page1 = true -> isPage page2 = true -> isPage page3 = true ->
  String.length page1 <= 997 -> String.length page2 <= 997 ->
  String.length page3 <= 997 ->
  String.length (pdfText [page1; page2; page3]) = 2400 ->
  TextSplitter.splitText 1000 200 (pdfText [page1; page2; page3])
  = [Js.trim page1; Js.trim page2; Js.trim page3].
Proof.
  intros H1 H2 H3 L1 L2 L3 Hlen.
  assert (Hsum : String.length page1 + String.length page2 + String.length page3 = 2394).
  { rewrite pdfText_three in Hlen.
    repeat first [rewrite string_length_app in Hlen
                 | progress cbn [String.length] in Hlen].
    lia. }
  unfold TextSplitter.splitText.
  change TextSplitter.separators
    with [String "010" (String "010" EmptyString); String "010" EmptyString;
          String " " EmptyString; EmptyString].
  cbn [TextSplitter.splitTextWith].
  assert (Hinc : Js.includes (pdfText [page1; page2; page3])
                   (String "010" (String "010" EmptyString)) = true).
  { rewrite pdfText_three, includes_unfold. cbn [Js.startsWith].
    rewrite ?Ascii.eqb_refl. by destruct (page1 +:+ _). }
  rewrite Hinc, splitOnSeparator_pages by done.
  rewrite splitPieces_good.
  - cbn [app]. rewrite mergeSplits_apart by (cbn [String.length]; lia).
    rewrite !joinDocs_page by done. reflexivity.
  - do 3 (constructor; [cbn [String.length]; lia|]). constructor.
  - discriminate.
Qed.

End PdfPages.

(** ** Ingestion of a document *)

Section Ingestion.
Context {P : Providers}.

Lemma bind_ok {A B} (m : M P A) (k : A -> M P B) (st st' : St P) a res :
  m st = (Ok a, st') -> k a st' = res -> bind m k st = res.
Proof. intros Hm Hk. unfold bind. by rewrite Hm. Qed.

Lemma tryCatch_ok {A} (body : M P A) handler (st st' : St P) a :
  body st = (Ok a, st') -> tryCatch body handler st = (Ok a, st').
Proof. intros Hb. unfold tryCatch. by rewrite Hb. Qed.

Lemma external_ok {A} ev (call : World P -> Result A * World P) (st : St P) a w :
  call (world st) = (Ok a, w) ->
  external ev call st
  = (Ok a, mkSt w (trace st ++ [ev]) (geminiModel st) (embeddingsInstance st)
               (pineconeClient st) (pineconeIndex st)).
Proof. intros Hc. unfold external. by rewrite Hc. Qed.

Lemma getEmbeddings_ready (st : St P) :
  envSet (GEMINI_API_KEY P) = true ->
  exists st', getEmbeddings st = (Ok tt, st') /\ world st' = world st.
Proof.
  intros Hkey. unfold getEmbeddings. rewrite Hkey.
  destruct (embeddingsInstance st); eauto.
Qed.

(** A single batch: at most [batchSize] records go out in one upsert. *)
Lemma upsertBatches_single (records : list (VectorRecord (Num P))) (st : St P) w :
  records <> [] -> length records <= batchSize ->
  indexUpsertP P records (world st) = (Ok tt, w) ->
  exists st', upsertBatches (length records) records st = (Ok tt, st').
Proof.
  intros Hne Hlen Hup. destruct records as [|r records]; [done|].
  cbn [length]. rewrite upsertBatches_cons.
  rewrite take_ge, drop_ge by done.
  unfold bind, external. rewrite Hup. destruct (length records); simpl; eauto.
Qed.

Lemma storeVectors_single d f (chunks : list Chunk) (vectors : list (list (Num P)))
    (st : St P) w :
  chunks <> [] -> length chunks <= batchSize -> length vectors = length chunks ->
  envSet (PINECONE_API_KEY P) = true ->
  envSet (PINECONE_INDEX_NAME P) = true ->
  indexUpsertP P (buildRecords d f chunks vectors) (world st) = (Ok tt, w) ->
  exists st', storeVectors d chunks vectors f st = (Ok tt, st').
Proof.
  intros Hne Hle Hlen Hkey Hname Hup.
  unfold storeVectors, tryCatch, bind.
  destruct (Nat.eqb_spec (length chunks) 0) as [H0|_]; [by destruct chunks|].
  destruct (Nat.eqb_spec (length vectors) 0) as [H0|_];
    [destruct chunks; [done | simpl in *; lia]|].
  rewrite Hlen, Nat.eqb_refl. cbn [negb].
  destruct (getIndex_ready st Hkey Hname) as (st1 & -> & Hw).
  rewrite <- Hw in Hup.
  destruct (upsertBatches_single (buildRecords d f chunks vectors) st1 w) as (st' & ->).
  - unfold buildRecords. destruct chunks; [done | discriminate].
  - unfold buildRecords. by rewrite length_imap.
  - exact Hup.
  - eauto.
Qed.

(** processDocument resolves when every stage goes through, with the
    page count of the parser and the number of chunks of the splitter. *)
Lemma processDocument_resolves filePath documentId fileName (st : St P)
    sz w1 pageText pages w2 vectors w3 w4 :
  fsStat P filePath (world st) = (Ok sz, w1) ->
  readPdf P filePath w1 = (Ok (Some {| text := Some pageText; numpages := pages |}), w2) ->
  String.length (Js.trim pageText) <> 0 ->
  let chunks := TextSplitter.splitDocuments 1000 200 pageText in
  chunks <> [] -> length chunks <= batchSize ->
  envSet (GEMINI_API_KEY P) = true ->
  envSet (PINECONE_API_KEY P) = true ->
  envSet (PINECONE_INDEX_NAME P) = true ->
  embedDocumentsP P (map pageContent chunks) w2 = (Ok vectors, w3) ->
  length vectors = length chunks ->
  indexUpsertP P (buildRecords documentId fileName chunks vectors) w3 = (Ok tt, w4) ->
  exists st',
    processDocument filePath documentId fileName st
    = (Ok {| success := true; resultPageCount := pages;
             resultChunkCount := length chunks; resultDocumentId := documentId |}, st').
Proof.
  intros Hstat Hpdf Htrim chunks Hne Hle Hgem Hkey Hname Hembed Hlen Hup.
  unfold processDocument.
  pose proof (external_ok (FsStat filePath) (fsStat P filePath) st sz w1 Hstat) as H1.
  set (st1 := mkSt w1 (trace st ++ [FsStat filePath]) (geminiModel st)
                   (embeddingsInstance st) (pineconeClient st) (pineconeIndex st)) in *.
  pose proof (external_ok (ReadPdf filePath) (readPdf P filePath) st1 _ w2 Hpdf) as H2.
  set (st2 := mkSt w2 (trace st1 ++ [ReadPdf filePath]) (geminiModel st1)
                   (embeddingsInstance st1) (pineconeClient st1) (pineconeIndex st1)) in *.
  destruct (getEmbeddings_ready st2 Hgem) as (st3 & H3 & Hw3).
  pose proof (external_ok (EmbedDocuments (map pageContent chunks))
                (embedDocumentsP P (map pageContent chunks)) st3 vectors w3) as H4.
  rewrite Hw3 in H4. specialize (H4 Hembed).
  match type of H4 with _ = (_, ?s) => set (st4 := s) in * end.
  destruct (storeVectors_single documentId fileName chunks vectors st4 w4
              Hne Hle Hlen Hkey Hname Hup) as (st5 & H5).
  exists st5.
  apply tryCatch_ok.
  eapply bind_ok; [apply tryCatch_ok; exact H1|]. cbv beta.
  eapply bind_ok; [exact H2|]. cbv beta. cbn [text numpages].
  destruct pageText as [|c0 rest]; [done|].
  destruct (Nat.eqb_spec (String.length (Js.trim (String c0 rest))) 0) as [|_]; [done|].
  fold chunks.
  destruct (Nat.eqb_spec (length chunks) 0) as [H0|_]; [by destruct chunks|].
  eapply bind_ok; [exact H3|]. cbv beta.
  eapply bind_ok; [exact H4|]. cbv beta.
  eapply bind_ok; [exact H5|]. reflexivity.
Qed.

End Ingestion.

(** C2, as the code has it. The text of a PDF of 3 pages has two line
    feeds in front of every page. When it has 2400 characters, and every
    page has at most 997 characters, something other than white space on
    it, no blank line in it and no line feed at its ends, the text is cut
    into exactly 3 chunks, one per page: the pages, trimmed, of at most 997
    characters each and at most 2394 together; consecutive chunks share
    nothing. When the file is readable, the embedding call returns as many
    vectors as chunks and the upsert goes through, the ingestion resolves
    and its document ends with status 'ready', chunkCount 3 and
    pageCount 3. *)
Theorem ingest_three_pages {P : Providers}
    (srv : Server P) (k : nat) (task : Task) (doc : Document)
    (page1 page2 page3 : string)
    (sz : nat) (w1 w2 w3 w4 : World P) (vectors : list (list (Num P))) :
  pending srv !! k = Some task ->
  documents srv !! taskDocumentId task = Some doc ->
  fsStat P (taskFilePath task) (world (proc srv)) = (Ok sz, w1) ->
  readPdf P (taskFilePath task) w1
    = (Ok (Some {| text := Some (pdfText [page1; page2; page3]); numpages := 3 |}), w2) ->
  String.length (pdfText [page1; page2; page3]) = 2400 ->
  isPage page1 = true -> isPage page2 = true -> isPage page3 = true ->
  String.length page1 <= 997 -> String.length page2 <= 997 ->
  String.length page3 <= 997 ->
  envSet (GEMINI_API_KEY P) = true ->
  envSet (PINECONE_API_KEY P) = true ->
  envSet (PINECONE_INDEX_NAME P) = true ->
  let chunks := TextSplitter.splitDocuments 1000 200 (pdfText [page1; page2; page3]) in
  embedDocumentsP P (map pageContent chunks) w2 = (Ok vectors, w3) ->
  length vectors = length chunks ->
  indexUpsertP P (buildRecords (taskDocumentId task) (taskFileName task) chunks vectors) w3
    = (Ok tt, w4) ->
  map pageContent chunks = [Js.trim page1; Js.trim page2; Js.trim page3]
  /\ chunkLengths (pdfText [page1; page2; page3])
     = [String.length (Js.trim page1); String.length (Js.trim page2);
        String.length (Js.trim page3)]
  /\ Forall (fun n => n <= 997) (chunkLengths (pdfText [page1; page2; page3]))
  /\ String.length (Js.trim page1) + String.length (Js.trim page2)
     + String.length (Js.trim page3) <= 2394
  /\ exists doc',
       documents (settle k srv) !! taskDocumentId task = Some doc'
       /\ status doc' = "ready"
       /\ chunkCount doc' = Some 3
       /\ pageCount doc' = Some 3.
Proof.
  intros Hk Hdoc Hstat Hpdf Hlen Hp1 Hp2 Hp3 L1 L2 L3 Hgem Hkey Hname chunks
    Hembed Hvec Hup.
  assert (Hchunks : map pageContent chunks
                    = [Js.trim page1; Js.trim page2; Js.trim page3]).
  { unfold chunks, TextSplitter.splitDocuments. rewrite map_map. cbn [pageContent].
    rewrite map_id. by apply splitText_three_pages. }
  assert (Hthree : length chunks = 3).
  { rewrite <- (length_map pageContent), Hchunks. reflexivity. }
  assert (Hlens : chunkLengths (pdfText [page1; page2; page3])
                  = [String.length (Js.trim page1); String.length (Js.trim page2);
                     String.length (Js.trim page3)]).
  { unfold chunkLengths. fold chunks.
    rewrite <- (map_map pageContent String.length), Hchunks. reflexivity. }
  pose proof (length_trim page1) as T1. pose proof (length_trim page2) as T2.
  pose proof (length_trim page3) as T3.
  rewrite length_pdfText_three in Hlen.
  split; [exact Hchunks|]. split; [exact Hlens|].
  split; [rewrite Hlens; do 3 (constructor; [lia|]); constructor|].
  split; [lia|].
  assert (Hnb : String.length (Js.trim (pdfText [page1; page2; page3])) <> 0).
  { destruct (Js.trim (pdfText [page1; page2; page3])) eqn:Ht; [|discriminate].
    apply trim_blank in Ht. rewrite pdfText_three in Ht. cbn [allChars] in Ht.
    rewrite allChars_app in Ht.
    apply andb_prop in Ht as [_ Ht]. apply andb_prop in Ht as [_ Ht].
    apply andb_prop in Ht as [Ht _]. apply trim_blank in Ht.
    by destruct (isPage_spec _ Hp1). }
  destruct (processDocument_resolves (taskFilePath task) (taskDocumentId task)
              (taskFileName task) (proc srv) sz w1 (pdfText [page1; page2; page3])
              3 w2 vectors w3 w4)
    as (st' & Hrun); try done.
  { fold chunks. intros Hnil. by rewrite Hnil in Hthree. }
  { fold chunks. rewrite Hthree. unfold batchSize. lia. }
  destruct (settle_registry k task doc srv Hk Hdoc) as (_ & doc' & Hdocs & _ & Hdoc').
  unfold ingestion in Hdoc'. rewrite Hrun in Hdoc'. cbn [fst] in Hdoc'.
  exists doc'. rewrite Hdocs, lookup_insert_eq. split; [reflexivity|].
  rewrite Hdoc'. cbn [markReady status chunkCount pageCount resultChunkCount resultPageCount].
  fold chunks. by rewrite Hthree.
Qed.

(** notes.pdf, three pages of 17 lines each, 2400 characters in all with
    the line feeds in front of the pages: after the upload and the
    ingestion the chunks are the three pages, of 798 characters each, and
    the document is ready with 3 chunks and 3 pages. *)
Lemma ingest_three_pages_witness :
  let pageText := pdfText [Scripted.page; Scripted.page; Scripted.page] in
  String.length pageText = 2400
  /\ chunkLengths pageText = [798; 798; 798]
  /\ exists doc',
       documents (settle 0 Scripted.uploaded) !! "doc-0" = Some doc'
       /\ status doc' = "ready"
       /\ chunkCount doc' = Some 3
       /\ pageCount doc' = Some 3.
Proof.
  intros pageText.
  pose (task := {| taskFilePath := "uploads/1-notes.pdf"; taskDocumentId := "doc-0";
                   taskFileName := "notes.pdf" |}).
  pose (doc := {| documentId := "doc-0"; fileName := "notes.pdf";
                  uploadDate := "2024-01-01T00:00:00.000Z"; status := "processing";
                  filePath := "uploads/1-notes.pdf"; fileSize := 4096;
                  pageCount := None; chunkCount := None; error := None |}).
  pose (w := world (proc Scripted.uploaded)).
  pose (chunks := TextSplitter.splitDocuments 1000 200 pageText).
  pose (vectors := [[1; 2; 3]; [1; 2; 3]; [1; 2; 3]]).
  assert (Hlen : String.length pageText = 2400) by (vm_compute; reflexivity).
  assert (Hpage : isPage Scripted.page = true) by (vm_compute; reflexivity).
  assert (Hshort : String.length Scripted.page <= 997)
    by (apply Nat.leb_le; vm_compute; reflexivity).
  assert (Hk : pending Scripted.uploaded !! 0 = Some task) by reflexivity.
  assert (Hdoc : documents Scripted.uploaded !! taskDocumentId task = Some doc)
    by reflexivity.
  assert (Hstat : fsStat Scripted.providers (taskFilePath task) w = (Ok 4096, w))
    by reflexivity.
  assert (Hpdf : readPdf Scripted.providers (taskFilePath task) w
                 = (Ok (Some {| text := Some pageText; numpages := 3 |}), w))
    by reflexivity.
  assert (Hembed : embedDocumentsP Scripted.providers (map pageContent chunks) w
                   = (Ok vectors, w))
    by (vm_compute; reflexivity).
  assert (Hvec : length vectors = length chunks) by (vm_compute; reflexivity).
  destruct (ingest_three_pages (P := Scripted.providers)
              Scripted.uploaded 0 task doc Scripted.page Scripted.page Scripted.page
              4096 w w w
              (snd (Scripted.upsert
                      (buildRecords (P := Scripted.providers) "doc-0" "notes.pdf"
                         chunks vectors) w))
              vectors Hk Hdoc Hstat Hpdf Hlen Hpage Hpage Hpage Hshort Hshort Hshort
              eq_refl eq_refl eq_refl Hembed Hvec eq_refl)
    as (_ & Hlengths & _ & _ & Hready).
  split; [exact Hlen|]. split; [|exact Hready].
  etransitivity; [exact Hlengths | vm_compute; reflexivity].
Defined.

(** C2, as the claim has it, fails: the text of the three pages of
    notes.pdf has 2400 characters and is cut into chunks of 798, 798 and
    798 characters, not 1000, 1000 and 400. *)
Lemma three_pages_not_cut_into_1000_1000_400 : ~ threePagesCutInto_1000_1000_400.
Proof.
  intros H.
  specialize (H Scripted.page Scripted.page Scripted.page
                ltac:(vm_compute; reflexivity)).
  vm_compute in H. discriminate H.
Qed.

(* ===================================================================== *)
(** * Further properties *)
(* ===================================================================== *)

(** ** Request validation *)

Section Validation.

Lemma hexRun_spec n s rest :
  hexRun n s = Some rest ->
  exists digits, s = digits +:+ rest /\ String.length digits = n
                 /\ allChars isHexDigit digits = true.
Proof.
  revert s. induction n as [|n IH]; intros s H.
  - injection H as <-. by exists EmptyString.
  - destruct s as [|c s]; [discriminate H|]. cbn [hexRun] in H.
    destruct (isHexDigit c) eqn:Hc; [|discriminate H].
    destruct (IH s H) as (digits & -> & Hlen & Hall).
    exists (String c digits). cbn [allChars String.length]. by rewrite Hc, Hlen, Hall.
Qed.

Lemma hexRun_complete digits rest :
  allChars isHexDigit digits = true ->
  hexRun (String.length digits) (digits +:+ rest) = Some rest.
Proof.
  induction digits as [|c digits IH]; [done|]. cbn [allChars]. intros [Hc Hall]%andb_prop.
  rewrite string_app_cons. cbn [String.length hexRun]. rewrite Hc. by apply IH.
Qed.

Lemma hexGroup_spec n s rest :
  hexGroup n s = Some rest ->
  exists digits, s = digits +:+ "-" +:+ rest /\ String.length digits = n
                 /\ allChars isHexDigit digits = true.
Proof.
  unfold hexGroup. destruct (hexRun n s) as [[|c r]|] eqn:Hrun; try discriminate.
  destruct (Ascii.eqb_spec c "-") as [->|]; [|discriminate]. intros [= <-].
  destruct (hexRun_spec n s _ Hrun) as (digits & -> & Hlen & Hall). by exists digits.
Qed.

Lemma hexGroup_complete digits rest :
  allChars isHexDigit digits = true ->
  hexGroup (String.length digits) (digits +:+ "-" +:+ rest) = Some rest.
Proof. intros H. unfold hexGroup. by rewrite hexRun_complete. Qed.

(** X1. The format test of the document id accepts exactly the strings
    made of five groups of 8, 4, 4, 4 and 12 hexadecimal digits, of either
    case, separated by dashes; such a string has 36 characters. *)
Theorem uuidRegexTest_groups (s : string) :
  uuidRegexTest s = true <->
  exists g1 g2 g3 g4 g5,
    s = g1 +:+ "-" +:+ g2 +:+ "-" +:+ g3 +:+ "-" +:+ g4 +:+ "-" +:+ g5
    /\ String.length g1 = 8 /\ String.length g2 = 4 /\ String.length g3 = 4
    /\ String.length g4 = 4 /\ String.length g5 = 12
    /\ allChars isHexDigit (g1 +:+ g2 +:+ g3 +:+ g4 +:+ g5) = true
    /\ String.length s = 36.
Proof.
  split.
  - unfold uuidRegexTest.
    destruct (hexGroup 8 s) as [s1|] eqn:H1; [|discriminate].
    destruct (hexGroup 4 s1) as [s2|] eqn:H2; [|discriminate].
    destruct (hexGroup 4 s2) as [s3|] eqn:H3; [|discriminate].
    destruct (hexGroup 4 s3) as [s4|] eqn:H4; [|discriminate].
    destruct (hexRun 12 s4) as [[|]|] eqn:H5; try discriminate. intros _.
    destruct (hexGroup_spec _ _ _ H1) as (g1 & -> & L1 & A1).
    destruct (hexGroup_spec _ _ _ H2) as (g2 & -> & L2 & A2).
    destruct (hexGroup_spec _ _ _ H3) as (g3 & -> & L3 & A3).
    destruct (hexGroup_spec _ _ _ H4) as (g4 & -> & L4 & A4).
    destruct (hexRun_spec _ _ _ H5) as (g5 & -> & L5 & A5).
    exists g1, g2, g3, g4, g5. rewrite string_app_nil_r.
    repeat split; try done.
    + repeat (rewrite allChars_app; apply andb_true_intro; split; [done|]). done.
    + rewrite !string_length_app. simpl. lia.
  - intros (g1 & g2 & g3 & g4 & g5 & -> & L1 & L2 & L3 & L4 & L5 & Hall & _).
    rewrite !allChars_app in Hall.
    destruct (andb_prop _ _ Hall) as [A1 Hall1].
    destruct (andb_prop _ _ Hall1) as [A2 Hall2].
    destruct (andb_prop _ _ Hall2) as [A3 Hall3].
    destruct (andb_prop _ _ Hall3) as [A4 A5].
    unfold uuidRegexTest.
    pose proof (fun rest => hexGroup_complete g1 rest A1) as E1. rewrite L1 in E1.
    pose proof (fun rest => hexGroup_complete g2 rest A2) as E2. rewrite L2 in E2.
    pose proof (fun rest => hexGroup_complete g3 rest A3) as E3. rewrite L3 in E3.
    pose proof (fun rest => hexGroup_complete g4 rest A4) as E4. rewrite L4 in E4.
    pose proof (hexRun_complete g5 EmptyString A5) as E5.
    rewrite L5, string_app_nil_r in E5.
    by rewrite E1, E2, E3, E4, E5.
Qed.


Lemma validateHistoryItem_accepts i item :
  validateHistoryItem i item = None ->
  exists m, asMessage item = Some m
            /\ (role m = "user" \/ role m = "model") /\ content m <> EmptyString.
Proof.
  unfold validateHistoryItem, asMessage. intros H.
  destruct item as [| |b|z|s|items|fields];
    try (cbn in H; repeat case_match; discriminate H).
  cbn [getField] in *. cbn [truthy typeofObject negb orb] in H.
  destruct (assoc "role" fields) as [| |b|z|r|?|?];
    try (cbn in H; repeat case_match; discriminate H).
  destruct r as [|c0 r]; [cbn in H; repeat case_match; discriminate H|].
  destruct (assoc "content" fields) as [| |b|z|c|?|?];
    try (cbn in H; repeat case_match; discriminate H).
  destruct c as [|c1 c]; [cbn in H; repeat case_match; discriminate H|].
  cbn [truthy typeofString isStringLiteral negb orb] in H.
  destruct (String.eqb_spec (String c0 r) "user") as [->|_].
  - eexists. split; [reflexivity|]. split; [by left | done].
  - destruct (String.eqb_spec (String c0 r) "model") as [->|_]; [|discriminate H].
    eexists. split; [reflexivity|]. split; [by right | done].
Qed.

Lemma validateHistoryItem_rejects i item e :
  validateHistoryItem i item = Some e ->
  exists rest, e = validationError ("History item " +:+ rest).
Proof.
  unfold validateHistoryItem. repeat case_match; intros [= <-]; by eexists.
Qed.

Lemma validateHistoryItems_accepts i items :
  validateHistoryItems i items = None ->
  exists ms, asMessages items = Some ms /\ length ms = length items
             /\ Forall (fun m => (role m = "user" \/ role m = "model")
                                 /\ content m <> EmptyString) ms.
Proof.
  revert i. induction items as [|item rest IH]; intros i H.
  - by exists [].
  - cbn [validateHistoryItems] in H.
    destruct (validateHistoryItem i item) eqn:Hitem; [discriminate H|].
    destruct (validateHistoryItem_accepts i item Hitem) as (m & Hm & Hok).
    destruct (IH (S i) H) as (ms & Hms & Hlen & Hall).
    exists (m :: ms). cbn [asMessages length]. rewrite Hm, Hms.
    split; [done|]. split; [by rewrite Hlen | by constructor].
Qed.

Lemma validateHistoryItems_rejects i items e :
  validateHistoryItems i items = Some e ->
  exists rest, e = validationError ("History item " +:+ rest).
Proof.
  revert i. induction items as [|item rest IH]; intros i H; [discriminate H|].
  cbn [validateHistoryItems] in H.
  destruct (validateHistoryItem i item) eqn:Hitem.
  - injection H as <-. by eapply validateHistoryItem_rejects.
  - by eapply IH.
Qed.

Lemma asMessages_length items ms :
  asMessages items = Some ms -> length ms = length items.
Proof.
  revert ms. induction items as [|item rest IH]; intros ms H.
  - by injection H as <-.
  - cbn [asMessages] in H.
    destruct (asMessage item); [|discriminate H].
    destruct (asMessages rest) as [ms'|]; [|discriminate H].
    injection H as <-. cbn [length]. f_equal. by apply IH.
Qed.

(** X2. A body that validateQueryRequest lets through is typed as the
    query service expects: the document id is a string in the UUID format,
    the question is a string that is not blank and has at most 5000
    characters, and the history, when present, is an array of at most 100
    items whose role is 'user' or 'model' and whose content is a string
    that is not empty. *)
Theorem validated_body_typed (body : RawQueryBody) :
  validateQueryRequest body = None ->
  exists req history,
    typedBody body = Some req
    /\ rawDocumentId body = JString (bodyDocumentId req)
    /\ rawQuestion body = JString (bodyQuestion req)
    /\ bodyHistory req = Some history
    /\ uuidRegexTest (bodyDocumentId req) = true
    /\ Js.trim (bodyQuestion req) <> EmptyString
    /\ String.length (bodyQuestion req) <= 5000
    /\ length history <= 100
    /\ Forall (fun m => (role m = "user" \/ role m = "model")
                        /\ content m <> EmptyString) history
    /\ (forall (P : Providers) (srv : Server P),
          postQuery body srv = handleQuery req srv).
Proof.
  intros Hvalid.
  assert (forall req, typedBody body = Some req ->
          forall (P : Providers) (srv : Server P),
            postQuery body srv = handleQuery req srv) as Hroute.
  { intros req Hreq P srv. unfold postQuery. by rewrite Hvalid, Hreq. }
  revert Hvalid Hroute.
  unfold validateQueryRequest, typedBody.
  destruct (truthy (rawDocumentId body)); [|done]. cbn [negb].
  destruct (rawDocumentId body) as [| | | |documentId| |]; try done.
  destruct (uuidRegexTest documentId) eqn:Hid; [|done]. cbn [negb].
  destruct (truthy (rawQuestion body)); [|done]. cbn [negb].
  destruct (rawQuestion body) as [| | | |question| |]; try done.
  destruct (Nat.eqb_spec (String.length (Js.trim question)) 0) as [|Htrim]; [done|].
  destruct (Nat.ltb_spec 5000 (String.length question)) as [|Hlen]; [done|].
  assert (Hq : Js.trim question <> EmptyString) by (by intros Hq; rewrite Hq in Htrim).
  destruct (rawHistory body) as [| | | | |items|]; try done.
  - intros _ Hroute. eexists _, []. repeat split; try done; [cbn; lia|].
    by apply Hroute.
  - destruct (validateHistoryItems 0 items) eqn:Hitems; [done|].
    destruct (Nat.ltb_spec 100 (length items)) as [|Hmax]; [done|]. intros _.
    destruct (validateHistoryItems_accepts 0 items Hitems) as (ms & -> & Hms & Hall).
    intros Hroute. eexists _, ms. repeat split; try done; [lia|]. by apply Hroute.
Qed.

(** X3. Whatever validateQueryRequest rejects, it rejects with an AppError
    of status 400 and code VALIDATION_ERROR and a message that is not
    empty, which the error handler renders as such. *)
Theorem validation_rejects_with_400 (body : RawQueryBody) (e : JsError) :
  validateQueryRequest body = Some e ->
  e = validationError (message e)
  /\ message e <> EmptyString
  /\ errorHandler e
     = {| httpStatus := 400; body := Failure (message e) "VALIDATION_ERROR" |}.
Proof.
  intros H.
  assert (Hshape : exists c rest, e = validationError (String c rest)).
  { unfold validateQueryRequest in H.
    repeat case_match; simplify_eq; try (by eexists _, _);
      match goal with
      | Hi : validateHistoryItems _ _ = Some _ |- _ =>
          destruct (validateHistoryItems_rejects _ _ _ Hi) as (rest & ->); by eexists _, _
      end. }
  destruct Hshape as (c & rest & ->). done.
Qed.

(** X4. A query request whose history has more than 100 items never gets
    past validateQueryRequest, so the route answers with the validation
    error and leaves the server as it was: handleQuery is not called. When
    the rest of the request is well formed the error is 'History is too
    long (maximum 100 messages)'. *)
Theorem long_history_rejected {P : Providers}
    (body : RawQueryBody) (items : list JsValue) (srv : Server P) :
  rawHistory body = JArray items ->
  100 < length items ->
  (exists e, validateQueryRequest body = Some e /\ postQuery body srv = (Next e, srv))
  /\ (forall documentId question,
        rawDocumentId body = JString documentId -> uuidRegexTest documentId = true ->
        rawQuestion body = JString question -> Js.trim question <> EmptyString ->
        String.length question <= 5000 ->
        validateHistoryItems 0 items = None ->
        validateQueryRequest body
        = Some (validationError "History is too long (maximum 100 messages)")).
Proof.
  intros Hhistory Hlong. split.
  - destruct (validateQueryRequest body) as [e|] eqn:Hv.
    + exists e. split; [done|]. unfold postQuery. by rewrite Hv.
    + destruct (validated_body_typed body Hv)
        as (req & history & Htyped & _ & _ & Hh & _ & _ & _ & Hlen & _ & _).
      unfold typedBody in Htyped. rewrite Hhistory in Htyped.
      destruct (rawDocumentId body); try discriminate Htyped.
      destruct (rawQuestion body); try discriminate Htyped.
      destruct (asMessages items) as [ms|] eqn:Hms; [|discriminate Htyped].
      injection Htyped as <-. cbn [bodyHistory] in Hh. injection Hh as <-.
      apply asMessages_length in Hms. lia.
  - intros documentId question Hid Huuid Hq Htrim Hlen Hitems.
    unfold validateQueryRequest. rewrite Hid, Hq, Hhistory, Huuid, Hitems.
    assert (truthy (JString documentId) = true) as ->.
    { destruct documentId; [done | reflexivity]. }
    assert (truthy (JString question) = true) as ->.
    { destruct question; [done | reflexivity]. }
    cbn [negb].
    destruct (Nat.eqb_spec (String.length (Js.trim question)) 0) as [H0|_].
    { destruct (Js.trim question); [done | discriminate H0]. }
    destruct (Nat.ltb_spec 5000 (String.length question)) as [|_]; [lia|].
    destruct (Nat.ltb_spec 100 (length items)) as [_|]; [done | lia].
Qed.

End Validation.

Lemma validated_body_typed_witness :
  validateQueryRequest Samples.validBody = None
  /\ exists req,
       typedBody Samples.validBody = Some req
       /\ bodyHistory req
          = Some [ {| role := "user"; content := "What is a heap?" |};
                   {| role := "model"; content := "A heap is a tree." |} ]
       /\ uuidRegexTest (bodyDocumentId req) = true.
Proof.
  assert (Hv : validateQueryRequest Samples.validBody = None) by reflexivity.
  destruct (validated_body_typed Samples.validBody Hv)
    as (req & history & Htyped & _ & _ & Hh & Hid & _).
  split; [exact Hv|]. exists req. split; [exact Htyped|]. split; [|exact Hid].
  vm_compute in Htyped. injection Htyped as <-. reflexivity.
Defined.

Lemma validation_rejects_with_400_witness :
  validateQueryRequest Samples.noQuestionBody
    = Some (validationError "Question is required")
  /\ errorHandler (validationError "Question is required")
     = {| httpStatus := 400; body := Failure "Question is required" "VALIDATION_ERROR" |}.
Proof.
  assert (Hv : validateQueryRequest Samples.noQuestionBody
               = Some (validationError "Question is required")) by reflexivity.
  destruct (validation_rejects_with_400 Samples.noQuestionBody _ Hv) as (_ & _ & Hr).
  split; [exact Hv | exact Hr].
Defined.

Lemma long_history_rejected_witness :
  rawHistory Samples.longBody = JArray (repeat (Samples.turnOf "user" "What is a heap?") 101)
  /\ validateQueryRequest Samples.longBody
     = Some (validationError "History is too long (maximum 100 messages)")
  /\ exists e, postQuery Samples.longBody Scripted.ingested = (Next e, Scripted.ingested).
Proof.
  assert (Hlen : 100 < length (repeat (Samples.turnOf "user" "What is a heap?") 101)).
  { apply Nat.ltb_lt. vm_compute. reflexivity. }
  destruct (long_history_rejected (P := Scripted.providers) Samples.longBody
              (repeat (Samples.turnOf "user" "What is a heap?") 101)
              Scripted.ingested eq_refl Hlen) as [(e & _ & Hpost) Hmsg].
  split; [reflexivity|]. split.
  - apply (Hmsg "123e4567-e89b-12d3-a456-426614174000" "And its height?").
    + reflexivity.
    + vm_compute. reflexivity.
    + reflexivity.
    + discriminate.
    + apply Nat.leb_le. vm_compute. reflexivity.
    + vm_compute. reflexivity.
  - exists e. exact Hpost.
Defined.

(** ** Error responses *)

(** X5. The error handler always answers with a status that is not 0, an
    error text and a code that are not empty: a missing or zero status
    becomes 500, an empty message 'Internal Server Error' and a missing or
    empty code 'INTERNAL_ERROR'; a status that is not 0, a message and a
    code that are not empty are passed on as they are. A route that is not
    found is answered 404 with code ROUTE_NOT_FOUND. *)
Theorem errorHandler_response (err : JsError) :
  httpStatus (errorHandler err) <> 0
  /\ (exists text c,
        body (errorHandler err) = Failure text c
        /\ text <> EmptyString /\ c <> EmptyString
        /\ (message err <> EmptyString -> text = message err)
        /\ (message err = EmptyString -> text = "Internal Server Error")
        /\ (forall c', code err = Some c' -> c' <> EmptyString -> c = c')
        /\ (code err = None \/ code err = Some EmptyString -> c = "INTERNAL_ERROR"))
  /\ (forall s, statusCode err = Some s -> s <> 0 -> httpStatus (errorHandler err) = s)
  /\ (statusCode err = None \/ statusCode err = Some 0 ->
      httpStatus (errorHandler err) = 500)
  /\ (forall url,
        respond (notFoundHandler url)
        = {| httpStatus := 404;
             body := Failure ("Route " +:+ url +:+ " not found") "ROUTE_NOT_FOUND" |}).
Proof.
  destruct err as [msg st c]. unfold errorHandler. cbn [message statusCode code httpStatus body].
  split; [by destruct st as [[|]|]|]. split.
  - eexists _, _. split; [reflexivity|].
    split; [by destruct msg|]. split; [by destruct c as [[|]|]|].
    split; [by destruct msg|]. split; [by intros ->|]. split.
    + intros c' -> Hc'. by destruct c'.
    + by intros [->| ->].
  - split; [|split].
    + intros s -> Hs. by destruct s.
    + by intros [->| ->].
    + reflexivity.
Qed.

(** ** Names of stored files *)

Section FileNames.

Lemma string_of_uint_stored d : allChars isStoredChar (NilEmpty.string_of_uint d) = true.
Proof. induction d; cbn; done. Qed.

Lemma sanitizeName_stored s : allChars isStoredChar (sanitizeName s) = true.
Proof.
  induction s as [|c s IH]; [done|]. cbn [sanitizeName allChars]. rewrite IH, andb_true_r.
  unfold isStoredChar. destruct (isFileNameChar c) eqn:Hc; [by rewrite Hc | reflexivity].
Qed.

Lemma sanitizeName_length s : String.length (sanitizeName s) = String.length s.
Proof. induction s as [|c s IH]; [done|]. cbn [sanitizeName String.length]. by rewrite IH. Qed.

Lemma isFileNameChar_underscore : isFileNameChar "_" = false.
Proof. reflexivity. Qed.

Lemma sanitizeName_idempotent s : sanitizeName (sanitizeName s) = sanitizeName s.
Proof.
  induction s as [|c s IH]; [done|]. cbn [sanitizeName]. rewrite IH.
  destruct (isFileNameChar c) eqn:Hc; [by rewrite Hc|].
  by rewrite isFileNameChar_underscore.
Qed.

Lemma sanitizeName_clean s : allChars isFileNameChar s = true -> sanitizeName s = s.
Proof.
  induction s as [|c s IH]; [done|]. cbn [allChars sanitizeName].
  intros [Hc Hs]%andb_prop. by rewrite Hc, IH.
Qed.

Lemma allChars_excludes p s c :
  allChars p s = true -> p c = false -> Js.includes s (String c EmptyString) = false.
Proof.
  intros Hall Hc. induction s as [|b s IH]; [done|].
  cbn [allChars] in Hall. apply andb_prop in Hall as [Hb Hall].
  cbn [Js.includes Js.startsWith].
  destruct (Ascii.eqb_spec c b) as [->|_]; [congruence|]. by apply IH.
Qed.

(** X6. The name under which an upload is stored consists of letters,
    digits, dots, dashes and underscores only, whatever the original name:
    it contains no slash and no backslash. It is the time stamp and the
    random number followed by the original name in which every other
    character is replaced by an underscore, one for one; a name that is
    already clean is kept, and cleaning twice changes nothing more. *)
Theorem storageFilename_safe (now random : nat) (originalname : string) :
  allChars isStoredChar (storageFilename now random originalname) = true
  /\ Js.includes (storageFilename now random originalname) "/" = false
  /\ Js.includes (storageFilename now random originalname) "\" = false
  /\ storageFilename now random originalname
     = Js.ofNat now +:+ "-" +:+ Js.ofNat random +:+ "-" +:+ sanitizeName originalname
  /\ String.length (sanitizeName originalname) = String.length originalname
  /\ sanitizeName (sanitizeName originalname) = sanitizeName originalname
  /\ (allChars isFileNameChar originalname = true ->
      sanitizeName originalname = originalname).
Proof.
  assert (Hall : allChars isStoredChar (storageFilename now random originalname) = true).
  { unfold storageFilename, Js.ofNat.
    rewrite !allChars_app, !string_of_uint_stored, sanitizeName_stored. reflexivity. }
  split; [exact Hall|].
  split; [by apply (allChars_excludes isStoredChar)|].
  split; [by apply (allChars_excludes isStoredChar)|].
  split; [unfold storageFilename; by rewrite !string_app_assoc|].
  split; [apply sanitizeName_length|].
  split; [apply sanitizeName_idempotent | apply sanitizeName_clean].
Qed.

End FileNames.

(** ** The query pipeline: errors and bounds *)

Section PipelineBounds.
Context {P : Providers}.

Lemma generateAnswer_error q c h (st st' : St P) e :
  generateAnswer q c h st = (Throw e, st') ->
  exists m, e = Error ("Failed to generate answer: " +:+ m).
Proof.
  unfold generateAnswer, bind, tryCatch, logEvent, throw, ret; simpl.
  repeat (case_match; simplify_eq/=); intros; simplify_eq/=; by eexists.
Qed.

Lemma searchDocuments_error d q k (st st' : St P) e :
  searchDocuments d q k st = (Throw e, st') ->
  exists m, e = Error ("Failed to search documents: " +:+ m).
Proof.
  unfold searchDocuments, bind, tryCatch, logEvent, throw, ret; simpl.
  repeat (case_match; simplify_eq/=); intros; simplify_eq/=; by eexists.
Qed.

Lemma attemptQuery_error d q h (st st' : St P) e :
  attemptQuery d q h st = (Throw e, st') -> isPipelineError e.
Proof.
  unfold attemptQuery, bind. intros H.
  destruct (transformQuery_returns q h st) as (sq & Hsq).
  destruct (transformQuery q h st) as [r1 st1]. cbn in Hsq. subst r1.
  destruct (searchDocuments d sq 10 st1) as [[ctx|e1] st2] eqn:Hsearch.
  - destruct (_ || _).
    + unfold now, ret in H. destruct (nowISO P (world st2)). discriminate H.
    + destruct (generateAnswer_error _ _ _ _ _ _ H) as (m & ->). exists m. by right.
  - injection H as <- <-. destruct (searchDocuments_error _ _ _ _ _ _ Hsearch) as (m & ->).
    exists m. by left.
Qed.

(** What one attempt adds to the call log, for events that are neither
    provider calls nor stage entries. *)
Lemma attemptQuery_quiet p d q h (st : St P) :
  (forall ev, isProviderCall ev = true -> p ev = false) ->
  (forall ev, isPipelineCall ev = true -> p ev = false) ->
  countEvents p (trace (snd (attemptQuery d q h st))) = countEvents p (trace st).
Proof.
  intros Hp Hs.
  pose proof (stageLog_count p _ _ _ (transformQuery_log q h st) Hp) as H1.
  rewrite (Hs (CallTransformQuery q) eq_refl) in H1.
  unfold attemptQuery, bind.
  destruct (transformQuery q h st) as [[sq|e] st1]; simpl in *; [|lia].
  pose proof (stageLog_count p _ _ _ (searchDocuments_log d sq 10 st1) Hp) as H2.
  rewrite (Hs (CallSearchDocuments d sq) eq_refl) in H2.
  destruct (searchDocuments d sq 10 st1) as [[ctx|e] st2]; simpl in *; [|lia].
  case_match.
  - pose proof (now_trace st2) as Hn. unfold now in *.
    destruct (nowISO P (world st2)); simpl in *. lia.
  - pose proof (stageLog_count p _ _ _ (generateAnswer_log sq ctx h st2) Hp) as H3.
    rewrite (Hs (CallGenerateAnswer sq ctx) eq_refl) in H3. simpl in *. lia.
Qed.

Lemma attemptQuery_generators d q h (st : St P) :
  countEvents isGeneratorCall (trace (snd (attemptQuery d q h st)))
  <= countEvents isGeneratorCall (trace st) + 1.
Proof.
  assert (Hp : forall ev, isProviderCall ev = true -> isGeneratorCall ev = false)
    by (by intros []).
  pose proof (stageLog_count isGeneratorCall _ _ _ (transformQuery_log q h st) Hp) as H1.
  unfold attemptQuery, bind.
  destruct (transformQuery q h st) as [[sq|e] st1]; simpl in *; [|lia].
  pose proof (stageLog_count isGeneratorCall _ _ _ (searchDocuments_log d sq 10 st1) Hp)
    as H2.
  destruct (searchDocuments d sq 10 st1) as [[ctx|e] st2]; simpl in *; [|lia].
  case_match.
  - pose proof (now_trace st2) as Hn. unfold now in *.
    destruct (nowISO P (world st2)); simpl in *. lia.
  - pose proof (stageLog_count isGeneratorCall _ _ _ (generateAnswer_log sq ctx h st2) Hp).
    simpl in *. lia.
Qed.

(** X7. Whatever the providers do, processQuery makes one attempt or two:
    it enters transformQuery once and never waits, or it enters it twice
    and waits once, for 1000 ms, in between; it enters generateAnswer at
    most once per attempt. An error it throws is one the retrieval or the
    generation threw, with the prefix of that stage; it never throws
    'Query processing failed'. *)
Theorem processQuery_bounded
    (documentId question : string) (history : option (list Message)) (st : St P) :
  let st' := snd (processQuery documentId question history st) in
  (exists retries,
     retries <= 1
     /\ countEvents isRewriteCall (trace st')
        = countEvents isRewriteCall (trace st) + 1 + retries
     /\ countEvents isSleep (trace st') = countEvents isSleep (trace st) + retries
     /\ countEvents (isWaitOf 1000) (trace st')
        = countEvents (isWaitOf 1000) (trace st) + retries
     /\ countEvents isGeneratorCall (trace st')
        <= countEvents isGeneratorCall (trace st) + 1 + retries)
  /\ (forall e, fst (processQuery documentId question history st) = Throw e ->
        isPipelineError e /\ message e <> "Query processing failed").
Proof.
  intros st'. subst st'.
  set (sleep1000 := isWaitOf 1000).
  assert (Hq : forall p, (forall ev, isProviderCall ev = true -> p ev = false) ->
                 (forall ev, isPipelineCall ev = true -> p ev = false) ->
                 forall s : St P,
                   countEvents p (trace (snd (attemptQuery documentId question history s)))
                   = countEvents p (trace s))
    by (intros; by apply attemptQuery_quiet).
  assert (Hs1 : forall s : St P,
            countEvents isSleep (trace (snd (attemptQuery documentId question history s)))
            = countEvents isSleep (trace s)) by (apply Hq; by intros []).
  assert (Hs2 : forall s : St P,
            countEvents sleep1000 (trace (snd (attemptQuery documentId question history s)))
            = countEvents sleep1000 (trace s)) by (apply Hq; by intros []).
  assert (Hperr : forall e, isPipelineError e -> message e <> "Query processing failed").
  { intros e (m & [-> | ->]); discriminate. }
  rewrite processQuery_entered. change (maxRetries + 1) with 2.
  rewrite processQueryFrom_iteration.
  pose proof (attemptQuery_rewrites documentId question history
                (entered documentId question st)) as Hr1.
  pose proof (attemptQuery_generators documentId question history
                (entered documentId question st)) as Hg1.
  pose proof (Hs1 (entered documentId question st)) as Hz1.
  pose proof (Hs2 (entered documentId question st)) as Hy1.
  assert (Hent : forall p, p (CallProcessQuery documentId question) = false ->
            countEvents p (trace (entered documentId question st))
            = countEvents p (trace st)).
  { intros p Hp. unfold entered. simpl. rewrite countEvents_app. simpl. rewrite Hp. lia. }
  rewrite !Hent in * by done.
  destruct (attemptQuery documentId question history (entered documentId question st))
    as [[r|e1] st1] eqn:H1; cbn [fst snd] in *.
  { split; [|done]. exists 0. repeat split; lia. }
  destruct (Js.includes (message e1) "search").
  { cbn [fst snd]. split; [exists 0; repeat split; lia|]. intros e [= <-].
    split; [by eapply attemptQuery_error | eapply Hperr; by eapply attemptQuery_error]. }
  change (Nat.eqb 0 maxRetries) with false. cbv iota.
  change (2 ^ 0 * 1000) with 1000.
  rewrite processQueryFrom_iteration.
  pose proof (attemptQuery_rewrites documentId question history (afterWait 1000 st1)) as Hr2.
  pose proof (attemptQuery_generators documentId question history (afterWait 1000 st1))
    as Hg2.
  pose proof (Hs1 (afterWait 1000 st1)) as Hz2.
  pose proof (Hs2 (afterWait 1000 st1)) as Hy2.
  assert (Hwait : forall p,
            countEvents p (trace (afterWait 1000 st1))
            = countEvents p (trace st1) + (if p (Sleep 1000) then 1 else 0)).
  { intros p. unfold afterWait. simpl. rewrite countEvents_app. simpl. lia. }
  rewrite !Hwait in *. unfold sleep1000 in *.
  cbn [isRewriteCall isGeneratorCall isSleep isWaitOf] in *.
  change (Nat.eqb 1000 1000) with true in *. cbv iota in *.
  assert (Hfinal :
    forall res : Result QueryResult * St P,
      (res = attemptQuery documentId question history (afterWait 1000 st1)
       \/ exists e2 st2, attemptQuery documentId question history (afterWait 1000 st1)
                         = (Throw e2, st2) /\ res = (Throw e2, st2)) ->
      (exists retries, retries <= 1
         /\ countEvents isRewriteCall (trace (snd res))
            = countEvents isRewriteCall (trace st) + 1 + retries
         /\ countEvents isSleep (trace (snd res)) = countEvents isSleep (trace st) + retries
         /\ countEvents (isWaitOf 1000) (trace (snd res))
            = countEvents (isWaitOf 1000) (trace st) + retries
         /\ countEvents isGeneratorCall (trace (snd res))
            <= countEvents isGeneratorCall (trace st) + 1 + retries)
      /\ (forall e, fst res = Throw e ->
            isPipelineError e /\ message e <> "Query processing failed")).
  { intros res Hres.
    assert (res = attemptQuery documentId question history (afterWait 1000 st1)) as ->.
    { destruct Hres as [->|(e2 & st2 & -> & ->)]; reflexivity. }
    split; [exists 1; repeat split; lia|].
    intros e He.
    destruct (attemptQuery documentId question history (afterWait 1000 st1))
      as [[r2|e2] st2] eqn:H2; cbn in He; [discriminate He|].
    injection He as <-.
    split; [by eapply attemptQuery_error | eapply Hperr; by eapply attemptQuery_error]. }
  destruct (attemptQuery documentId question history (afterWait 1000 st1))
    as [[r2|e2] st2] eqn:H2.
  - apply Hfinal. left. first [reflexivity | by rewrite H2].
  - assert ((if Js.includes (message e2) "search" then (Throw e2, st2)
             else if Nat.eqb 1 maxRetries then (Throw e2, st2)
                  else processQueryFrom 0 2 (Some e2) documentId question history
                         (afterWait (2 ^ 1 * 1000) st2))
            = (Throw e2, st2 : St P)) as ->.
    { by destruct (Js.includes (message e2) "search"). }
    apply Hfinal. left. first [reflexivity | by rewrite H2].
Qed.

End PipelineBounds.

(** ** Prompts and contexts *)

Section Prompts.

(** The transcript keeps what it has and carries the content of every turn
    that is added to it. *)
Lemma transcript_keeps history acc p :
  Js.includes acc p = true -> Js.includes (fold_left transcriptLine history acc) p = true.
Proof.
  revert acc. induction history as [|m history IH]; intros acc H; [done|].
  cbn [fold_left]. apply IH. unfold transcriptLine. by apply includes_app_l.
Qed.

Lemma transcript_carries history acc m :
  m ∈ history ->
  Js.includes (fold_left transcriptLine history acc) (content m) = true.
Proof.
  revert acc. induction history as [|m0 history IH]; intros acc Hin.
  - by apply elem_of_nil in Hin.
  - cbn [fold_left]. apply elem_of_cons in Hin as [->|Hin]; [|by apply IH].
    apply transcript_keeps. unfold transcriptLine.
    rewrite <- !string_app_assoc. rewrite !string_app_assoc.
    apply includes_app_r, includes_app_r, includes_app_r, includes_app_l, includes_self.
Qed.

(** X8. The prompts carry their inputs verbatim. The prompt of the rewrite
    contains the question and the content of every turn of the history;
    the prompt of the generation starts with the system instruction and
    contains the retrieved context, the query and the content of every
    turn. *)
Theorem prompts_carry_inputs
    (question query context : string) (history : list Message) :
  Js.includes (transformPrompt question history) question = true
  /\ (forall m, m ∈ history ->
        Js.includes (transformPrompt question history) (content m) = true)
  /\ Js.startsWith (answerPrompt query context (Some history)) systemInstruction = true
  /\ Js.includes (answerPrompt query context (Some history)) context = true
  /\ Js.includes (answerPrompt query context (Some history)) query = true
  /\ (forall m, m ∈ history ->
        Js.includes (answerPrompt query context (Some history)) (content m) = true).
Proof.
  split; [|split; [|split; [|split; [|split]]]].
  - unfold transformPrompt. apply includes_app_r, includes_app_r, includes_app_l, includes_self.
  - intros m Hm. unfold transformPrompt. by apply includes_app_l, transcript_carries.
  - unfold answerPrompt. apply startsWith_app.
  - unfold answerPrompt. apply includes_app_r, includes_app_r, includes_app_l, includes_self.
  - unfold answerPrompt.
    do 6 apply includes_app_r. apply includes_app_l, includes_self.
  - intros m Hm. unfold answerPrompt.
    do 4 apply includes_app_r. apply includes_app_l.
    destruct history as [|m0 history]; [by apply elem_of_nil in Hm|].
    by apply transcript_carries.
Qed.

End Prompts.

(** ** Retrieval and generation *)

Section Stages.
Context {P : Providers}.

Lemma join_cons_prefix sep x rest :
  exists tail, Js.join sep (x :: rest) = x +:+ tail.
Proof.
  destruct rest as [|y rest]; [exists EmptyString; by rewrite string_app_nil_r|].
  by eexists.
Qed.

Lemma trim_nonblank c s :
  Js.isWhiteSpace c = false -> String.length (Js.trim (String c s)) <> 0.
Proof.
  intros Hc. unfold Js.trim. cbn [Js.trimStart]. rewrite Hc. cbn [Js.trimEnd].
  destruct (Js.trimEnd s); [by rewrite Hc | done].
Qed.

Lemma getIndex_world (st : St P) : world (snd (getIndex st)) = world st.
Proof.
  unfold getIndex, getPineconeClient.
  destruct (pineconeIndex st); [reflexivity|].
  destruct (envSet (PINECONE_INDEX_NAME P)); [|reflexivity].
  destruct (pineconeClient st); [reflexivity|].
  by destruct (envSet (PINECONE_API_KEY P)).
Qed.

(** What embedText resolves with is what the embedding model returned
    for the text. *)
Lemma embedText_ok text (st st1 : St P) vector :
  embedText text st = (Ok vector, st1) ->
  embedQueryP P text (world st) = (Ok vector, world st1).
Proof.
  unfold embedText, getEmbeddings, tryCatch, bind, external, throw, ret.
  destruct (embeddingsInstance st); [|destruct (envSet (GEMINI_API_KEY P))];
    cbn [fst snd world]; try discriminate;
    destruct (embedQueryP P text (world st)) as [[v|e] w]; try discriminate;
    by intros [= <- <-].
Qed.

(** What searchVectors resolves with is what the index returned for a
    vector that is not empty, the empty list standing for no [matches]. *)
Lemma searchVectors_ok documentId vector topK (st st' : St P) results :
  searchVectors documentId vector topK st = (Ok results, st') ->
  vector <> []
  /\ exists matches,
       indexQueryP P documentId vector topK (world st) = (Ok matches, world st')
       /\ results = default [] matches.
Proof.
  unfold searchVectors, tryCatch, bind, external, throw, ret.
  destruct vector as [|x vector]; cbn [length Nat.eqb]; [discriminate|].
  intros H. split; [discriminate|].
  pose proof (getIndex_world st) as Hw.
  destruct (getIndex st) as [[u|e] st1]; [|discriminate H].
  cbn [snd] in Hw. rewrite Hw in H.
  destruct (indexQueryP P documentId (x :: vector) topK (world st)) as [[matches|e] w];
    [|discriminate H].
  injection H as <- <-. by exists matches.
Qed.

(** X9. When searchDocuments returns, the embedding model gave a vector
    that is not empty for the query, the index answered the search with
    that vector, and the result is made of the matches the index
    returned, in their order: the empty string when there is none, and
    otherwise the matches formatted and joined, a text that starts with
    '[Chunk 1, Relevance: ' and so is not blank. Hence an attempt of
    processQuery takes the short cut of the fixed answer exactly when the
    index has returned no match. *)
Theorem searchDocuments_context
    (documentId query : string) (topK : nat) (st st' : St P) (context : string) :
  searchDocuments documentId query topK st = (Ok context, st') ->
  exists (vector : list (Num P)) (w : World P)
         (matches : option (list (Match (Num P)))),
    embedQueryP P query (world st) = (Ok vector, w)
    /\ vector <> []
    /\ indexQueryP P documentId vector topK w = (Ok matches, world st')
    /\ context = match default [] matches with
                 | [] => EmptyString
                 | _ => Js.join "

---

" (imap formatChunk (default [] matches))
                 end
    /\ (default [] matches <> [] ->
        (exists rest, context = "[Chunk 1, Relevance: " +:+ rest)
        /\ String.length (Js.trim context) <> 0)
    /\ (String.eqb context EmptyString || Nat.eqb (String.length (Js.trim context)) 0
        = match default [] matches with [] => true | _ => false end).
Proof.
  unfold searchDocuments, bind, tryCatch, logEvent, throw, ret. cbn [fst snd].
  destruct (embedText query _) as [[vector|e] st1] eqn:Hembed; [|discriminate].
  apply embedText_ok in Hembed. cbn [world] in Hembed.
  destruct (searchVectors documentId vector topK st1) as [[results|e] st2] eqn:Hsearch;
    [|discriminate].
  apply searchVectors_ok in Hsearch as (Hvector & matches & Hquery & ->).
  intros H. exists vector, (world st1), matches.
  split; [exact Hembed|]. split; [exact Hvector|].
  destruct (default [] matches) as [|r results]; cbn [length Nat.eqb] in H.
  - injection H as <- <-. split; [exact Hquery|]. repeat split; done.
  - injection H as <- <-. split; [exact Hquery|]. split; [reflexivity|].
    assert (Hshape : exists rest,
              Js.join "

---

" (imap formatChunk (r :: results)) = "[Chunk 1, Relevance: " +:+ rest).
    { cbn [imap].
      destruct (join_cons_prefix "

---

" (formatChunk 0 r) (imap (formatChunk ∘ S) results)) as (tail & ->).
      unfold formatChunk. eexists. cbn [Nat.add]. rewrite !string_app_assoc. reflexivity. }
    destruct Hshape as (rest & Hrest).
    assert (Hblank : String.length (Js.trim (Js.join "

---

" (imap formatChunk (r :: results)))) <> 0).
    { rewrite Hrest. by apply trim_nonblank. }
    split; [intros _; split; [by exists rest | exact Hblank]|].
    assert (Hgen : forall c tl : string,
              c = "[Chunk 1, Relevance: " +:+ tl -> String.length (Js.trim c) <> 0 ->
              String.eqb c EmptyString || Nat.eqb (String.length (Js.trim c)) 0 = false).
    { intros c tl -> Hc. rewrite string_app_cons. cbn [String.eqb orb].
      by apply Nat.eqb_neq. }
    exact (Hgen _ rest Hrest Hblank).
Qed.

(** X10. When the embedding of the query comes back empty, searchDocuments
    throws 'Failed to search documents: Failed to search vectors: Query
    vector is required': the index is not queried. *)
Theorem empty_query_vector_rejected
    (documentId query : string) (topK : nat) (st : St P) (w : World P) :
  envSet (GEMINI_API_KEY P) = true ->
  embedQueryP P query (world st) = (Ok [], w) ->
  fst (searchDocuments documentId query topK st)
  = Throw (Error "Failed to search documents: Failed to search vectors: Query vector is required")
  /\ countEvents isIndexQuery (trace (snd (searchDocuments documentId query topK st)))
     = countEvents isIndexQuery (trace st)
  /\ world (snd (searchDocuments documentId query topK st)) = w.
Proof.
  intros Hkey Hembed.
  unfold searchDocuments, embedText, searchVectors, getEmbeddings, bind, tryCatch,
    logEvent, external, throw, ret. cbn [fst snd world trace embeddingsInstance].
  rewrite Hkey.
  destruct (embeddingsInstance st); cbn [fst snd world trace]; rewrite Hembed;
    cbn [fst snd world trace length Nat.eqb message];
    (split; [reflexivity|]); (split; [|reflexivity]);
    rewrite !countEvents_app; cbn; lia.
Qed.

(** X11. Without GEMINI_API_KEY, and before any client exists, processQuery
    fails in its first attempt with the retrieval-tagged error of the
    embedding; the rewrite has fallen back to the question, no provider
    was called and nothing is retried. *)
Theorem missing_api_key_fails_fast
    (documentId question : string) (history : option (list Message)) (st : St P) :
  envSet (GEMINI_API_KEY P) = false ->
  geminiModel st = false ->
  embeddingsInstance st = false ->
  processQuery documentId question history st
  = (Throw (Error "Failed to search documents: Failed to generate embedding: GEMINI_API_KEY environment variable is not set"),
     mkSt (world st)
          (trace st ++ [CallProcessQuery documentId question;
                        CallTransformQuery question;
                        CallSearchDocuments documentId question])
          false false (pineconeClient st) (pineconeIndex st)).
Proof.
  intros Hkey Hmodel Hemb.
  rewrite processQuery_entered. change (maxRetries + 1) with 2.
  rewrite processQueryFrom_iteration.
  assert (Hattempt :
    attemptQuery documentId question history (entered documentId question st)
    = (Throw (Error "Failed to search documents: Failed to generate embedding: GEMINI_API_KEY environment variable is not set"),
       mkSt (world st)
            (trace st ++ [CallProcessQuery documentId question;
                          CallTransformQuery question;
                          CallSearchDocuments documentId question])
            false false (pineconeClient st) (pineconeIndex st))).
  { destruct st as [w0 tr gm em pc pi]. cbn in Hmodel, Hemb. subst gm em.
    unfold attemptQuery, transformQuery, searchDocuments, embedText, getEmbeddings,
      getGeminiModel, entered, bind, tryCatch, logEvent, throw, ret.
    destruct history as [[|m h]|];
      cbn [fst snd world trace geminiModel embeddingsInstance pineconeClient pineconeIndex];
      rewrite ?Hkey;
      cbn [fst snd world trace geminiModel embeddingsInstance pineconeClient pineconeIndex
           message];
      rewrite <- ?app_assoc; reflexivity. }
  rewrite Hattempt. reflexivity.
Qed.

(** X12. Whether a failed generation is retried depends on the message of
    the provider's error. When retrieval has found a context and the
    language model fails with error [e0], the attempt throws 'Failed to
    generate answer: ' followed by the message of [e0]; if that message
    contains 'search' the loop of processQuery throws at once, as for a
    retrieval failure, and otherwise the first iteration goes on to the
    wait and the second attempt. *)
Theorem generation_failure_retry
    (documentId question : string) (history : option (list Message))
    (st st1 st2 : St P) (standaloneQuery context : string) (e0 : JsError) (w : World P) :
  transformQuery question history st = (Ok standaloneQuery, st1) ->
  searchDocuments documentId standaloneQuery 10 st1 = (Ok context, st2) ->
  String.length (Js.trim context) <> 0 ->
  geminiModel st2 = true \/ envSet (GEMINI_API_KEY P) = true ->
  llmInvoke P (answerPrompt standaloneQuery context history) (world st2) = (Throw e0, w) ->
  let e := Error ("Failed to generate answer: " +:+ message e0) in
  exists st3,
    attemptQuery documentId question history st = (Throw e, st3)
    /\ Js.includes (message e) "search" = Js.includes (message e0) "search"
    /\ (Js.includes (message e0) "search" = true ->
        forall remaining attempt lastError,
          processQueryFrom (S remaining) attempt lastError documentId question history st
          = (Throw e, st3))
    /\ (Js.includes (message e0) "search" = false ->
        forall lastError,
          processQueryFrom 2 0 lastError documentId question history st
          = processQueryFrom 1 1 (Some e) documentId question history (afterWait 1000 st3)).
Proof.
  intros Hrewrite Hsearch Hblank Hmodel Hllm e.
  assert (Hgen : exists st3, generateAnswer standaloneQuery context history st2 = (Throw e, st3)).
  { unfold generateAnswer, getGeminiModel, bind, tryCatch, logEvent, external, throw, ret.
    cbn [fst snd world trace geminiModel].
    destruct Hmodel as [Hm|Hk]; rewrite ?Hm, ?Hk.
    - cbn [fst snd world trace]. rewrite Hllm. by eexists.
    - destruct (geminiModel st2); cbn [fst snd world trace]; rewrite Hllm; by eexists. }
  destruct Hgen as (st3 & Hgen). exists st3.
  assert (Hattempt : attemptQuery documentId question history st = (Throw e, st3)).
  { unfold attemptQuery, bind. rewrite Hrewrite, Hsearch.
    destruct (Nat.eqb_spec (String.length (Js.trim context)) 0) as [|_]; [done|].
    destruct (String.eqb_spec context EmptyString) as [->|_]; [done|].
    exact Hgen. }
  split; [exact Hattempt|]. split; [reflexivity|]. split.
  - intros Htag remaining attempt lastError.
    rewrite processQueryFrom_iteration, Hattempt.
    change (Js.includes (message e) "search") with (Js.includes (message e0) "search").
    by rewrite Htag.
  - intros Htag lastError.
    rewrite processQueryFrom_iteration, Hattempt.
    change (Js.includes (message e) "search") with (Js.includes (message e0) "search").
    by rewrite Htag.
Qed.

(** X13. With a history and a language model that answers with a text,
    transformQuery returns that text trimmed, after one call to the model
    with the rewrite prompt and no other provider call. *)
Theorem transformQuery_rewrites
    (question : string) (m : Message) (history : list Message) (st : St P)
    (reply : string) (w : World P) :
  geminiModel st = true \/ envSet (GEMINI_API_KEY P) = true ->
  llmInvoke P (transformPrompt question (m :: history)) (world st)
    = (Ok (TextContent reply), w) ->
  fst (transformQuery question (Some (m :: history)) st) = Ok (Js.trim reply)
  /\ trace (snd (transformQuery question (Some (m :: history)) st))
     = trace st ++ [CallTransformQuery question;
                    LlmInvoke (transformPrompt question (m :: history))]
  /\ world (snd (transformQuery question (Some (m :: history)) st)) = w
  /\ geminiModel (snd (transformQuery question (Some (m :: history)) st)) = true.
Proof.
  intros Hmodel Hllm.
  unfold transformQuery, getGeminiModel, contentTrim, bind, tryCatch, logEvent, external,
    throw, ret. cbn [fst snd world trace geminiModel].
  destruct Hmodel as [Hm|Hk]; rewrite ?Hm, ?Hk.
  - cbn [fst snd world trace geminiModel]. rewrite Hllm. cbn. by rewrite <- app_assoc.
  - destruct (geminiModel st); cbn [fst snd world trace geminiModel]; rewrite Hllm; cbn;
      by rewrite <- app_assoc.
Qed.

End Stages.

(** One match in the index, of score 0.91: the context is that match,
    formatted. *)
Lemma searchDocuments_context_witness :
  fst (searchDocuments "doc-0" "What is a heap?" 10 Samples.oneMatchStart)
  = Ok ("[Chunk 1, Relevance: 0.9100]" +:+ String "010" "A heap is a tree.")
  /\ fst (indexQueryP Scripted.providers "doc-0" [1; 2; 3] 10
            (world Samples.oneMatchStart))
     = Ok (Some [Scripted.hit]).
Proof.
  pose (st' := snd (searchDocuments "doc-0" "What is a heap?" 10 Samples.oneMatchStart)).
  pose (context := "[Chunk 1, Relevance: 0.9100]" +:+ String "010" "A heap is a tree.").
  assert (H : searchDocuments "doc-0" "What is a heap?" 10 Samples.oneMatchStart
              = (Ok context, st')) by (vm_compute; reflexivity).
  destruct (searchDocuments_context "doc-0" "What is a heap?" 10 Samples.oneMatchStart
              st' context H) as (vector & w & matches & Hembed & _ & Hquery & Hctx & _).
  injection Hembed as <- <-. split; [by rewrite H|].
  assert (Hm : matches = Some [Scripted.hit]).
  { pose proof (f_equal fst Hquery) as Hfst. vm_compute in Hfst.
    by injection Hfst as <-. }
  exact (eq_trans (f_equal fst Hquery) (f_equal Ok Hm)).
Defined.

(** An embedding model that returns no vector. *)
Lemma empty_query_vector_rejected_witness :
  let st := Samples.startOf Samples.emptyEmbeddingProviders
              (Scripted.script [] [Ok (Some [Scripted.hit])] (Ok None)) in
  fst (searchDocuments "doc-0" "What is a heap?" 10 st)
  = Throw (Error "Failed to search documents: Failed to search vectors: Query vector is required")
  /\ countEvents isIndexQuery (trace (snd (searchDocuments "doc-0" "What is a heap?" 10 st))) = 0.
Proof.
  intros st.
  destruct (empty_query_vector_rejected (P := Samples.emptyEmbeddingProviders)
              "doc-0" "What is a heap?" 10 st (world st) eq_refl eq_refl)
    as (Hres & Hcount & _).
  split; [exact Hres | exact Hcount].
Defined.

(** No key for Gemini. *)
Lemma missing_api_key_fails_fast_witness :
  let st := Samples.startOf Samples.noKeyProviders
              (Scripted.script [] [Ok (Some [Scripted.hit])] (Ok None)) in
  fst (processQuery "doc-0" "What is a heap?" (Some [Scripted.turn]) st)
  = Throw (Error "Failed to search documents: Failed to generate embedding: GEMINI_API_KEY environment variable is not set").
Proof.
  intros st.
  by rewrite (missing_api_key_fails_fast (P := Samples.noKeyProviders)
                "doc-0" "What is a heap?" (Some [Scripted.turn]) st eq_refl eq_refl eq_refl).
Defined.

(** The generation fails with '503 Service Unavailable': the loop goes on
    to the wait and the second attempt. *)
Lemma generation_failure_retry_witness :
  exists st3,
    attemptQuery "doc-0" Scripted.followUp (Some [Scripted.turn]) Scripted.hiccupStart
    = (Throw (Error "Failed to generate answer: 503 Service Unavailable"), st3)
    /\ processQueryFrom 2 0 None "doc-0" Scripted.followUp (Some [Scripted.turn])
         Scripted.hiccupStart
       = processQueryFrom 1 1
           (Some (Error "Failed to generate answer: 503 Service Unavailable"))
           "doc-0" Scripted.followUp (Some [Scripted.turn]) (afterWait 1000 st3).
Proof.
  pose (history := Some [Scripted.turn]).
  pose (st1 := snd (transformQuery Scripted.followUp history Scripted.hiccupStart)).
  pose (st2 := snd (searchDocuments "doc-0" "What is the height of a heap?" 10 st1)).
  pose (context := "[Chunk 1, Relevance: 0.9100]" +:+ String "010" "A heap is a tree.").
  assert (H1 : transformQuery Scripted.followUp history Scripted.hiccupStart
               = (Ok "What is the height of a heap?", st1)) by (vm_compute; reflexivity).
  assert (H2 : searchDocuments "doc-0" "What is the height of a heap?" 10 st1
               = (Ok context, st2)) by (vm_compute; reflexivity).
  assert (H3 : String.length (Js.trim context) <> 0) by (vm_compute; discriminate).
  assert (H4 : geminiModel st2 = true \/ envSet (GEMINI_API_KEY Scripted.providers) = true)
    by (right; reflexivity).
  pose (w := snd (llmInvoke Scripted.providers
                    (answerPrompt "What is the height of a heap?" context history)
                    (world st2))).
  assert (H5 : llmInvoke Scripted.providers
                 (answerPrompt "What is the height of a heap?" context history) (world st2)
               = (Throw (Error "503 Service Unavailable"), w)) by (vm_compute; reflexivity).
  destruct (generation_failure_retry "doc-0" Scripted.followUp history
              Scripted.hiccupStart st1 st2 "What is the height of a heap?" context
              (Error "503 Service Unavailable") w H1 H2 H3 H4 H5)
    as (st3 & Hattempt & _ & _ & Hretry).
  exists st3. split; [exact Hattempt|]. apply Hretry. vm_compute. reflexivity.
Defined.

(** A follow-up question is rewritten by the model. *)
Lemma transformQuery_rewrites_witness :
  fst (transformQuery Scripted.followUp (Some [Scripted.turn]) Scripted.hiccupStart)
  = Ok "What is the height of a heap?".
Proof.
  pose (w := snd (llmInvoke Scripted.providers
                    (transformPrompt Scripted.followUp [Scripted.turn])
                    (world Scripted.hiccupStart))).
  assert (H : llmInvoke Scripted.providers
                (transformPrompt Scripted.followUp [Scripted.turn])
                (world Scripted.hiccupStart)
              = (Ok (TextContent "What is the height of a heap?"), w))
    by (vm_compute; reflexivity).
  destruct (transformQuery_rewrites Scripted.followUp Scripted.turn [] Scripted.hiccupStart
              "What is the height of a heap?" w (or_intror eq_refl) H) as (Hres & _).
  exact Hres.
Defined.

(** ** Storing the vectors *)

Section Batches.

Lemma batchSize_pos : 1 <= batchSize.
Proof. unfold batchSize. lia. Qed.

Lemma batchesOf_nil fuel {A} : batchesOf fuel (@nil A) = [].
Proof. by destruct fuel. Qed.

Lemma batchesOf_cons fuel {A} (a : A) l :
  batchesOf (S fuel) (a :: l)
  = take batchSize (a :: l) :: batchesOf fuel (drop batchSize (a :: l)).
Proof. reflexivity. Qed.

Lemma batchesOf_fmap fuel {A B} (g : A -> B) (l : list A) :
  batchesOf fuel (map g l) = map (map g) (batchesOf fuel l).
Proof.
  revert l. induction fuel as [|fuel IH]; intros [|a l]; try reflexivity.
  change (map g (a :: l)) with (g a :: map g l).
  rewrite !batchesOf_cons.
  change (g a :: map g l) with (g <$> (a :: l)).
  rewrite <- fmap_take, <- fmap_drop.
  change (g <$> drop batchSize (a :: l)) with (map g (drop batchSize (a :: l))).
  rewrite IH. reflexivity.
Qed.



Lemma batchCount_small n : 1 <= n -> n <= batchSize -> batchCount n = 1.
Proof.
  intros H1 H2. unfold batchCount, batchSize in *.
  symmetry. apply (Nat.div_unique _ _ 1 (n - 1)); lia.
Qed.

Lemma batchCount_step n : batchSize < n -> batchCount n = S (batchCount (n - batchSize)).
Proof.
  intros H. unfold batchCount, batchSize in *.
  replace (n + (100 - 1)) with ((n - 100 + (100 - 1)) + 1 * 100) by lia.
  rewrite Nat.div_add by lia. lia.
Qed.

Lemma batchesOf_length fuel {A} (l : list A) :
  length l <= fuel -> length (batchesOf fuel l) = batchCount (length l).
Proof.
  revert l. induction fuel as [|fuel IH]; intros [|a l] Hl; try reflexivity.
  - cbn in Hl. lia.
  - rewrite batchesOf_cons. cbn [length].
    destruct (le_lt_dec (length (a :: l)) batchSize) as [Hs|Hs].
    + rewrite drop_ge by exact Hs. rewrite batchesOf_nil.
      rewrite batchCount_small; [reflexivity | cbn [length]; lia | exact Hs].
    + rewrite IH.
      * rewrite length_drop. by rewrite <- batchCount_step.
      * rewrite length_drop. pose proof batchSize_pos. cbn [length] in *. lia.
Qed.

End Batches.

Section StoreVectors.
Context {P : Providers}.

Lemma getIndex_trace (st : St P) : trace (snd (getIndex st)) = trace st.
Proof.
  unfold getIndex, getPineconeClient.
  destruct (pineconeIndex st); [reflexivity|].
  destruct (envSet (PINECONE_INDEX_NAME P)); [|reflexivity].
  destruct (pineconeClient st); [reflexivity|].
  by destruct (envSet (PINECONE_API_KEY P)).
Qed.

(** The loop of the upserts sends the batches in order and stops at the
    first that fails. *)
Lemma upsertBatches_sent fuel (records : list (VectorRecord (Num P))) (st : St P) :
  let batches := batchesOf fuel (map id records) in
  exists k,
    k <= length batches
    /\ trace (snd (upsertBatches fuel records st))
       = trace st ++ map IndexUpsert (take k batches)
    /\ (forall u, fst (upsertBatches fuel records st) = Ok u -> k = length batches)
    /\ (forall e, fst (upsertBatches fuel records st) = Throw e -> 1 <= k).
Proof.
  revert records st. induction fuel as [|fuel IH]; intros [|r records] st batches;
    subst batches.
  1-3: exists 0; cbn; rewrite ?app_nil_r; repeat split; try done; lia.
  rewrite upsertBatches_cons.
  change (map id (r :: records)) with (id r :: map id records).
  rewrite batchesOf_cons.
  change (id r :: map id records) with (id <$> (r :: records)).
  rewrite <- fmap_take, <- fmap_drop.
  change (id <$> drop batchSize (r :: records))
    with (map id (drop batchSize (r :: records))).
  change (id <$> take batchSize (r :: records))
    with (map id (take batchSize (r :: records))).
  unfold bind, external.
  destruct (indexUpsertP P (take batchSize (r :: records)) (world st)) as [[u|e] w].
  - match goal with |- context [upsertBatches fuel ?l ?s] =>
      destruct (IH l s) as (k & Hk & Htrace & Hok & Herr) end.
    exists (S k). cbn [length take map fst snd trace] in *.
    split; [lia|]. split; [by rewrite Htrace, <- app_assoc|].
    split.
    + intros u' Hu. f_equal. by eapply Hok.
    + intros e Hu. lia.
  - exists 1. cbn [length take map fst snd trace]. rewrite take_0.
    split; [lia|]. split; [reflexivity|]. split; [discriminate|]. intros; lia.
Qed.

(** The batches storeVectors sends are a prefix of the batches of the
    record ids, all of them when it resolves. *)
Lemma storeVectors_sent d f (chunks : list Chunk) (vectors : list (list (Num P)))
    (st : St P) :
  let n := length chunks in
  let batches := batchesOf n (recordIds d n) in
  exists k,
    k <= length batches
    /\ trace (snd (storeVectors d chunks vectors f st))
       = trace st ++ map IndexUpsert (take k batches)
    /\ (forall u, fst (storeVectors d chunks vectors f st) = Ok u ->
          k = length batches /\ 1 <= n /\ length vectors = n)
    /\ (forall e, fst (storeVectors d chunks vectors f st) = Throw e ->
          exists m, e = Error ("Failed to store vectors: " +:+ m)).
Proof.
  intros n batches. subst n batches.
  assert (Hstop : forall (m : string) (s : St P),
            trace s = trace st ->
            exists k,
              k <= length (batchesOf (length chunks) (recordIds d (length chunks)))
              /\ trace (snd (@Throw unit (Error ("Failed to store vectors: " +:+ m)), s))
                 = trace st ++ map IndexUpsert
                     (take k (batchesOf (length chunks) (recordIds d (length chunks))))
              /\ (forall u, fst (@Throw unit (Error ("Failed to store vectors: " +:+ m)), s)
                            = Ok u ->
                    k = length (batchesOf (length chunks) (recordIds d (length chunks)))
                    /\ 1 <= length chunks /\ length vectors = length chunks)
              /\ (forall e, fst (@Throw unit (Error ("Failed to store vectors: " +:+ m)), s)
                            = Throw e ->
                    exists m', e = Error ("Failed to store vectors: " +:+ m'))).
  { intros m s Hs. exists 0. cbn [fst snd]. rewrite take_0. cbn [map]. rewrite app_nil_r.
    split; [lia|]. split; [exact Hs|]. split; [discriminate|].
    intros e [= <-]. by exists m. }
  unfold storeVectors, tryCatch, throw.
  destruct (Nat.eqb_spec (length chunks) 0) as [|Hc]; [by apply Hstop|].
  destruct (Nat.eqb_spec (length vectors) 0) as [|Hv]; [by apply Hstop|].
  destruct (Nat.eqb_spec (length chunks) (length vectors)) as [Hcv|]; cbn [negb];
    [|by apply Hstop].
  unfold bind.
  pose proof (getIndex_trace st) as Hg.
  destruct (getIndex st) as [[u|e] st1]; cbn [snd] in Hg; [|by apply Hstop].
  pose proof (upsertBatches_sent (length (buildRecords d f chunks vectors))
                (buildRecords d f chunks vectors) st1) as Hsent.
  cbn zeta in Hsent. rewrite buildRecords_ids in Hsent.
  assert (Hlen : length (buildRecords d f chunks vectors) = length chunks)
    by (unfold buildRecords; apply length_imap).
  rewrite Hlen in Hsent. rewrite Hg in Hsent.
  destruct Hsent as (k & Hk & Htrace & Hok & Herr).
  exists k. split; [exact Hk|].
  rewrite Hlen.
  destruct (upsertBatches (length chunks) (buildRecords d f chunks vectors) st1)
    as [[u'|e] st2]; cbn [fst snd] in *.
  - split; [exact Htrace|]. split; [|discriminate].
    intros ? _. split; [by eapply Hok|]. lia.
  - split; [exact Htrace|]. split; [discriminate|].
    intros ? [= <-]. by eexists.
Qed.

End StoreVectors.


(** ** Ingestion *)

Section ProcessDocument.
Context {P : Providers}.

Lemma countEvents_upserts (p : Event -> bool) (b : bool) (batches : list (list string)) :
  (forall ids, p (IndexUpsert ids) = b) ->
  countEvents p (map IndexUpsert batches) = if b then length batches else 0.
Proof.
  intros Hp. induction batches as [|ids batches IH]; [by destruct b|].
  cbn [map countEvents length]. rewrite Hp, IH. by destruct b.
Qed.

Lemma getEmbeddings_trace (st : St P) : trace (snd (getEmbeddings st)) = trace st.
Proof.
  unfold getEmbeddings. destruct (embeddingsInstance st); [reflexivity|].
  by destruct (envSet (GEMINI_API_KEY P)).
Qed.

(** The course of an ingestion: what it logs and how it ends. *)
Lemma processDocument_run filePath documentId fileName (st : St P) :
  exists rest,
    trace (snd (processDocument filePath documentId fileName st))
    = trace st ++ FsStat filePath :: rest
    /\ match fst (processDocument filePath documentId fileName st) with
       | Ok r =>
           success r = true /\ resultDocumentId r = documentId
           /\ 1 <= resultChunkCount r
           /\ exists texts batches,
                rest = ReadPdf filePath :: EmbedDocuments texts :: map IndexUpsert batches
                /\ length texts = resultChunkCount r
                /\ length batches = batchCount (resultChunkCount r)
       | Throw e =>
           isIngestionError e
           /\ (rest = [] \/ rest = [ReadPdf filePath]
               \/ exists texts batches,
                    rest = ReadPdf filePath :: EmbedDocuments texts
                           :: map IndexUpsert batches)
       end.
Proof.
  unfold processDocument, tryCatch, bind, external, throw, ret.
  destruct (fsStat P filePath (world st)) as [[sz|e0] w1]; cbn [fst snd world trace].
  2: { exists []. split; [reflexivity|]. split; [by eexists | by left]. }
  assert (Hstop : forall (m : string) (t : list Event),
            t = trace st ++ [FsStat filePath; ReadPdf filePath] ->
            exists rest,
              t = trace st ++ FsStat filePath :: rest
              /\ isIngestionError (Error ("Failed to process PDF document: " +:+ m))
              /\ (rest = [] \/ rest = [ReadPdf filePath]
                  \/ exists texts batches,
                       rest = ReadPdf filePath :: EmbedDocuments texts
                              :: map IndexUpsert batches)).
  { intros m t ->. exists [ReadPdf filePath].
    split; [reflexivity|]. split; [by eexists | by right; left]. }
  destruct (readPdf P filePath w1) as [[pdfData|e0] w2]; cbn [fst snd world trace];
    [|apply Hstop; by rewrite <- app_assoc].
  destruct pdfData as [pdfData|]; [|apply Hstop; by rewrite <- app_assoc].
  destruct (text pdfData) as [[|c pageText]|];
    [apply Hstop; by rewrite <- app_assoc| |apply Hstop; by rewrite <- app_assoc].
  destruct (Nat.eqb (String.length (Js.trim (String c pageText))) 0);
    [apply Hstop; by rewrite <- app_assoc|].
  set (chunks := TextSplitter.splitDocuments 1000 200 (String c pageText)).
  destruct (Nat.eqb_spec (length chunks) 0) as [|Hchunks];
    [apply Hstop; by rewrite <- app_assoc|].
  match goal with |- context [getEmbeddings ?s] =>
    pose proof (getEmbeddings_trace s) as Hemb;
    destruct (getEmbeddings s) as [[u|e0] st1] end;
    cbn [fst snd trace] in Hemb |- *; [|apply Hstop; by rewrite Hemb, <- app_assoc].
  destruct (embedDocumentsP P (map pageContent chunks) (world st1)) as [[vectors|e0] w3];
    cbn [fst snd world trace].
  2: { exists [ReadPdf filePath; EmbedDocuments (map pageContent chunks)].
       rewrite Hemb, <- !app_assoc. split; [reflexivity|].
       split; [by eexists|]. right; right. by exists (map pageContent chunks), []. }
  match goal with |- context [storeVectors documentId chunks vectors fileName ?s] =>
    destruct (storeVectors_sent documentId fileName chunks vectors s)
      as (k & Hk & Htrace & Hok & Herr);
    destruct (storeVectors documentId chunks vectors fileName s) as [[u'|e0] st2] end;
    cbn [fst snd world trace] in *.
  - destruct (Hok u' eq_refl) as (-> & Hn & Hv).
    eexists. rewrite Htrace, Hemb, <- !app_assoc. cbn [app]. split; [reflexivity|].
    cbn [fst success resultDocumentId resultChunkCount].
    split; [reflexivity|]. split; [reflexivity|]. split; [exact Hn|].
    eexists _, _. split; [reflexivity|]. split; [by rewrite length_map|].
    rewrite firstn_all. rewrite batchesOf_length; unfold recordIds;
      by rewrite length_map, length_seq.
  - eexists. rewrite Htrace, Hemb, <- !app_assoc. cbn [app]. split; [reflexivity|].
    split; [by eexists|]. right; right. by eexists _, _.
Qed.

End ProcessDocument.

Section Ingestion2.
Context {P : Providers}.

(** What an ingestion logs after the stat of the file. *)
Lemma processDocument_quiet (filePath documentId fileName : string) (st : St P) :
  exists rest,
    trace (snd (processDocument filePath documentId fileName st))
    = trace st ++ FsStat filePath :: rest
    /\ countEvents isUnlink rest = 0
    /\ countEvents isQueryEvent rest = 0
    /\ countEvents isEmbedDocuments rest <= 1.
Proof.
  destruct (processDocument_run filePath documentId fileName st) as (rest & Htrace & Hres).
  exists rest. split; [exact Htrace|].
  assert (Hrest : rest = [] \/ rest = [ReadPdf filePath]
                  \/ exists texts batches,
                       rest = ReadPdf filePath :: EmbedDocuments texts
                              :: map IndexUpsert batches).
  { destruct (fst (processDocument filePath documentId fileName st)).
    - destruct Hres as (_ & _ & _ & texts & batches & -> & _). right; right. by eexists _, _.
    - by destruct Hres as [_ ?]. }
  destruct Hrest as [-> | [-> | (texts & batches & ->)]]; try (cbn; split; [|split]; lia).
  cbn [countEvents isUnlink isQueryEvent isEmbedDocuments].
  rewrite !(countEvents_upserts _ false) by done. repeat split; lia.
Qed.

(** X15. Whatever the providers do, an ingestion starts with the stat of
    the file and then only reads the PDF, embeds and upserts: it removes
    no file, makes no call of the query pipeline and calls embedDocuments
    at most once. When it resolves, it reports success, the document id
    it was given and at least one chunk, after exactly one call of
    embedDocuments, for all chunks at once, and ceil(chunks / 100)
    upserts. When it rejects, the error is a plain Error whose message
    starts with 'Failed to process PDF document: '. *)
Theorem processDocument_outcome (filePath documentId fileName : string) (st : St P) :
  let res := processDocument filePath documentId fileName st in
  (exists rest,
     trace (snd res) = trace st ++ FsStat filePath :: rest
     /\ countEvents isUnlink rest = 0
     /\ countEvents isQueryEvent rest = 0
     /\ countEvents isEmbedDocuments rest <= 1)
  /\ (forall r, fst res = Ok r ->
        success r = true /\ resultDocumentId r = documentId
        /\ 1 <= resultChunkCount r
        /\ countEvents isEmbedDocuments (trace (snd res))
           = countEvents isEmbedDocuments (trace st) + 1
        /\ countEvents isIndexUpsert (trace (snd res))
           = countEvents isIndexUpsert (trace st) + batchCount (resultChunkCount r))
  /\ (forall e, fst res = Throw e ->
        isIngestionError e /\ statusCode e = None /\ code e = None).
Proof.
  intros res. subst res.
  destruct (processDocument_run filePath documentId fileName st) as (rest & Htrace & Hres).
  split; [apply processDocument_quiet|split].
  - intros r Hr. rewrite Hr in Hres.
    destruct Hres as (Hs & Hd & Hn & texts & batches & -> & _ & Hb).
    split; [exact Hs|]. split; [exact Hd|]. split; [exact Hn|].
    rewrite Htrace, !countEvents_app. cbn [countEvents isEmbedDocuments isIndexUpsert].
    rewrite (countEvents_upserts _ false) by done.
    rewrite (countEvents_upserts _ true) by done. rewrite Hb. split; lia.
  - intros e He. rewrite He in Hres. destruct Hres as [(m & ->) _].
    split; [by exists m | split; reflexivity].
Qed.

(** X16. When the stat of the uploaded file fails, the ingestion rejects
    with 'Failed to process PDF document: File not found at path: ' and
    the path, whatever the error of the file system was; the PDF is not
    read and nothing is embedded or stored. *)
Theorem missing_file_stops_ingestion
    (filePath documentId fileName : string) (st : St P) (e0 : JsError) (w : World P) :
  fsStat P filePath (world st) = (Throw e0, w) ->
  processDocument filePath documentId fileName st
  = (Throw (Error ("Failed to process PDF document: File not found at path: " +:+ filePath)),
     mkSt w (trace st ++ [FsStat filePath]) (geminiModel st) (embeddingsInstance st)
          (pineconeClient st) (pineconeIndex st)).
Proof.
  intros Hstat.
  unfold processDocument, tryCatch, bind, external, throw. by rewrite Hstat.
Qed.

(** X17. A PDF from which the parser gets nothing, no text or only blanks,
    is rejected with 'Failed to process PDF document: Failed to extract
    text from PDF or PDF is empty' after the stat and the read: no
    embedding client is created and nothing is embedded or stored. *)
Theorem pdf_without_text_rejected
    (filePath documentId fileName : string) (st : St P)
    (sz : nat) (w1 w2 : World P) (pdfData : option PdfData) :
  fsStat P filePath (world st) = (Ok sz, w1) ->
  readPdf P filePath w1 = (Ok pdfData, w2) ->
  noText pdfData = true ->
  processDocument filePath documentId fileName st
  = (Throw (Error "Failed to process PDF document: Failed to extract text from PDF or PDF is empty"),
     mkSt w2 (trace st ++ [FsStat filePath; ReadPdf filePath])
          (geminiModel st) (embeddingsInstance st) (pineconeClient st) (pineconeIndex st)).
Proof.
  intros Hstat Hread Hblank.
  unfold processDocument, tryCatch, bind, external, throw.
  rewrite Hstat. cbn [fst snd world trace]. rewrite Hread.
  cbn [fst snd world trace geminiModel embeddingsInstance pineconeClient pineconeIndex].
  rewrite <- app_assoc. cbn [app].
  destruct pdfData as [pdfData|]; [|reflexivity].
  cbn [noText] in Hblank.
  destruct (text pdfData) as [[|c t]|]; [reflexivity| |reflexivity].
  by rewrite Hblank.
Qed.

End Ingestion2.

(** The uploaded file is gone from the disk. *)
Lemma missing_file_stops_ingestion_witness :
  fst (processDocument "uploads/1-notes.pdf" "doc-0" "notes.pdf"
         (Scripted.start Samples.lostFile))
  = Throw (Error "Failed to process PDF document: File not found at path: uploads/1-notes.pdf").
Proof.
  by rewrite (missing_file_stops_ingestion (P := Scripted.providers)
                "uploads/1-notes.pdf" "doc-0" "notes.pdf"
                (Scripted.start Samples.lostFile)
                (Error "ENOENT: no such file or directory")
                Samples.lostFile eq_refl).
Defined.

Lemma pdf_without_text_rejected_witness :
  fst (processDocument "uploads/1-scan.pdf" "doc-0" "scan.pdf"
         (Scripted.start (Scripted.script [] [] (Ok (Some Samples.scanned)))))
  = Throw (Error "Failed to process PDF document: Failed to extract text from PDF or PDF is empty").
Proof.
  by rewrite (pdf_without_text_rejected (P := Scripted.providers)
                "uploads/1-scan.pdf" "doc-0" "scan.pdf"
                (Scripted.start (Scripted.script [] [] (Ok (Some Samples.scanned))))
                4096
                (Scripted.script [] [] (Ok (Some Samples.scanned)))
                (Scripted.script [] [] (Ok (Some Samples.scanned)))
                (Some Samples.scanned) eq_refl eq_refl eq_refl).
Defined.

(** ** The upload route *)

Section Uploads.
Context {P : Providers}.

(** What a call of unlink leaves: the call is logged and the world is as
    the file system leaves it, whether the removal succeeded or not. *)
Lemma unlink_run (p : string) (st : St P) :
  runUnit (unlink p) st
  = mkSt (snd (fsUnlink P p (world st))) (trace st ++ [Unlink p]) (geminiModel st)
         (embeddingsInstance st) (pineconeClient st) (pineconeIndex st).
Proof.
  unfold runUnit, unlink, tryCatch, external, ret.
  by destruct (fsUnlink P p (world st)) as [[u|e] w].
Qed.

(** X18. An upload that is not accepted, for want of a file, of content
    or of a name, is answered with a 400 error and leaves the registry and
    the pending ingestions as they are. No id is drawn: without a file
    the server is left as it was, and for a file that has arrived the only
    calls that leave the process are two calls of fs.unlink on its path,
    one before the throw and one in the catch block, so the log grows by
    these two and the outside world is what they leave. *)
Theorem upload_rejected_cleanly (file : option UploadedFile) (srv : Server P) :
  accepts file = false ->
  exists e,
    fst (uploadDocument file srv) = Next e
    /\ fst (postUpload file srv) = Next e
    /\ statusCode e = Some 400
    /\ match file with
       | None =>
           e = AppError "No file uploaded" 400 "NO_FILE_UPLOADED"
           /\ snd (uploadDocument file srv) = srv
       | Some f =>
           (if Nat.eqb (size f) 0
            then e = AppError "Uploaded file is empty" 400 "EMPTY_FILE"
            else e = AppError "Invalid file name" 400 "INVALID_FILE_NAME")
           /\ (path f <> EmptyString ->
               proc (snd (uploadDocument file srv))
               = runUnit (unlink (path f)) (runUnit (unlink (path f)) (proc srv))
               /\ trace (proc (snd (uploadDocument file srv)))
                  = trace (proc srv) ++ [Unlink (path f); Unlink (path f)]
               /\ world (proc (snd (uploadDocument file srv)))
                  = snd (fsUnlink P (path f)
                           (snd (fsUnlink P (path f) (world (proc srv))))))
       end
    /\ documents (snd (uploadDocument file srv)) = documents srv
    /\ pending (snd (uploadDocument file srv)) = pending srv.
Proof.
  intros Hacc. unfold postUpload, validateFileUpload.
  destruct file as [f|]; [|eexists; repeat split; reflexivity].
  unfold accepts in Hacc. unfold uploadDocument.
  assert (Hproc : forall st : St P,
            path f <> EmptyString ->
            let st' := match path f with
                       | EmptyString => runUnit (unlink (path f)) st
                       | String _ _ =>
                           runUnit (unlink (path f)) (runUnit (unlink (path f)) st)
                       end in
            st' = runUnit (unlink (path f)) (runUnit (unlink (path f)) st)
            /\ trace st' = trace st ++ [Unlink (path f); Unlink (path f)]
            /\ world st'
               = snd (fsUnlink P (path f) (snd (fsUnlink P (path f) (world st))))).
  { intros st Hp. destruct (path f) as [|c p] eqn:Hpath; [done|]. cbn zeta.
    split; [reflexivity|]. rewrite !unlink_run. cbn [trace world].
    by rewrite <- app_assoc. }
  destruct (Nat.eqb (size f) 0); cbn [negb andb] in Hacc.
  - eexists. cbn [fst snd documents pending proc].
    repeat split; try reflexivity; by apply Hproc.
  - destruct (originalname f) as [name|].
    + destruct (Nat.eqb (String.length (Js.trim name)) 0); [|discriminate Hacc].
      eexists. cbn [fst snd documents pending proc].
      repeat split; try reflexivity; by apply Hproc.
    + eexists. cbn [fst snd documents pending proc].
      repeat split; try reflexivity; by apply Hproc.
Qed.

(** What an accepted upload does. *)
Lemma upload_accepted_record (file : option UploadedFile) (srv : Server P) :
  accepts file = true ->
  exists f name,
    file = Some f /\ originalname f = Some name
    /\ uploadDocument file srv
       = (Responded {| httpStatus := 201;
                       body := UploadAccepted (nextUuid srv) name
                                 "Document uploaded and processing started" |},
          mkServer
            (<[nextUuid srv :=
                 {| documentId := nextUuid srv;
                    fileName := name;
                    uploadDate := fst (nowISO P (snd (uuidv4 P (world (proc srv)))));
                    status := "processing";
                    filePath := path f;
                    fileSize := size f;
                    pageCount := None;
                    chunkCount := None;
                    error := None |}]> (documents srv))
            (pending srv ++ [{| taskFilePath := path f;
                                taskDocumentId := nextUuid srv;
                                taskFileName := name |}])
            (mkSt (snd (nowISO P (snd (uuidv4 P (world (proc srv))))))
                  (trace (proc srv) ++ [FsStatCalled (path f)])
                  (geminiModel (proc srv))
                  (embeddingsInstance (proc srv)) (pineconeClient (proc srv))
                  (pineconeIndex (proc srv)))).
Proof.
  intros Hacc. unfold accepts in Hacc.
  destruct file as [f|]; [|discriminate Hacc].
  destruct (Nat.eqb (size f) 0) eqn:Hsize; [discriminate Hacc|].
  destruct (originalname f) as [name|] eqn:Hname; [|discriminate Hacc].
  destruct (Nat.eqb (String.length (Js.trim name)) 0) eqn:Hblank; [discriminate Hacc|].
  exists f, name. split; [reflexivity|]. split; [exact Hname|].
  unfold uploadDocument, nextUuid. rewrite Hsize, Hname, Hblank.
  destruct (uuidv4 P (world (proc srv))) as [documentId w1]. cbn [fst snd].
  by destruct (nowISO P w1) as [date w2].
Qed.

(** X19. An accepted upload is answered 201 with the id drawn from uuidv4
    and the original name. By then processDocument has been called and
    has run to its first await: fs.stat has been called on the file, and
    that is all of the ingestion that has been done; the log grows by
    this one call, the file stays, and one more ingestion is pending. At
    once the document can be fetched under its id, with status
    'processing', the size of the file, no counts and no error, and the
    other documents read as before. *)
Theorem upload_then_getDocument (file : option UploadedFile) (srv : Server P) :
  accepts file = true ->
  exists f name date,
    file = Some f /\ originalname f = Some name
    /\ postUpload file srv = uploadDocument file srv
    /\ fst (uploadDocument file srv)
       = Responded {| httpStatus := 201;
                      body := UploadAccepted (nextUuid srv) name
                                "Document uploaded and processing started" |}
    /\ getDocument (nextUuid srv) (snd (uploadDocument file srv))
       = Responded {| httpStatus := 200;
                      body := DocumentBody (nextUuid srv) name date "processing"
                                (size f) None None None |}
    /\ (forall id, id <> nextUuid srv ->
          getDocument id (snd (uploadDocument file srv)) = getDocument id srv)
    /\ trace (proc (snd (uploadDocument file srv)))
       = trace (proc srv) ++ [FsStatCalled (path f)]
    /\ length (pending (snd (uploadDocument file srv))) = S (length (pending srv)).
Proof.
  intros Hacc.
  destruct (upload_accepted_record file srv Hacc) as (f & name & -> & Hname & Hup).
  exists f, name. eexists. split; [reflexivity|]. split; [exact Hname|].
  split; [reflexivity|]. rewrite Hup. cbn [fst snd proc trace pending].
  split; [reflexivity|]. split; [|split; [|split]].
  - unfold getDocument. cbn [documents]. rewrite lookup_insert_eq. reflexivity.
  - intros id Hid. unfold getDocument. cbn [documents].
    by rewrite lookup_insert_ne.
  - reflexivity.
  - rewrite length_app. cbn [length]. lia.
Qed.

End Uploads.

(** An empty file arrives while notes.pdf is being ingested: it is
    removed by the first call of unlink, and the second finds it gone. *)
Lemma upload_rejected_cleanly_witness :
  let empty := {| path := "uploads/2-empty.pdf"; size := 0; originalname := Some "empty.pdf" |} in
  fst (uploadDocument (Some empty) Scripted.uploaded)
    = Next (AppError "Uploaded file is empty" 400 "EMPTY_FILE")
  /\ documents (snd (uploadDocument (Some empty) Scripted.uploaded))
     = documents Scripted.uploaded
  /\ trace (proc (snd (uploadDocument (Some empty) Scripted.uploaded)))
     = [FsStatCalled "uploads/1-notes.pdf"; Unlink "uploads/2-empty.pdf";
        Unlink "uploads/2-empty.pdf"]
  /\ Scripted.removed (world (proc (snd (uploadDocument (Some empty) Scripted.uploaded))))
     = ["uploads/2-empty.pdf"].
Proof.
  intros empty.
  destruct (upload_rejected_cleanly (P := Scripted.providers) (Some empty) Scripted.uploaded
              eq_refl) as (e & Hres & _ & _ & [He Hproc] & Hdocs & _).
  cbn in He. subst e.
  destruct (Hproc ltac:(discriminate)) as (_ & Htrace & Hworld).
  split; [exact Hres|]. split; [exact Hdocs|]. split; [exact Htrace|].
  rewrite Hworld. reflexivity.
Defined.

Lemma upload_then_getDocument_witness :
  exists date,
    getDocument "doc-0"
      (snd (uploadDocument (Some Scripted.file)
              (boot (Scripted.script [] [] (Ok (Some Scripted.threePages))
                     : World Scripted.providers))))
    = Responded {| httpStatus := 200;
                   body := DocumentBody "doc-0" "notes.pdf" date "processing"
                             4096 None None None |}
  /\ trace (proc Scripted.uploaded) = [FsStatCalled "uploads/1-notes.pdf"].
Proof.
  destruct (upload_then_getDocument (P := Scripted.providers) (Some Scripted.file)
              (boot (Scripted.script [] [] (Ok (Some Scripted.threePages))
                     : World Scripted.providers))
              eq_refl) as (f & name & date & Hf & Hname & _ & _ & Hget & _ & Htrace & _).
  injection Hf as <-. injection Hname as <-. exists date.
  split; [exact Hget | exact Htrace].
Defined.

(** ** The registry along a run *)

Section Registry.
Context {P : Providers}.

Lemma recordShape_processing (doc : Document) :
  recordShape doc -> status doc = "processing" ->
  pageCount doc = None /\ chunkCount doc = None /\ error doc = None.
Proof.
  intros [(_ & H) | [(Hs & _) | (Hs & _)]] Hp; [exact H | |]; rewrite Hp in Hs;
    discriminate Hs.
Qed.

Lemma step_records (a : Action) (srv : Server P) :
  registryInv srv -> recordsInv srv -> recordsInv (step a srv).
Proof.
  intros Hreg Hrec. destruct a as [file|id0|req|k]; cbn [step].
  - destruct (accepts file) eqn:Hacc.
    + destruct (upload_accepted_record file srv Hacc) as (f & name & _ & _ & ->).
      cbn [snd]. intros id doc. cbn [documents].
      destruct (decide (id = nextUuid srv)) as [->|Hne].
      * rewrite lookup_insert_eq. intros [= <-]. split; [reflexivity|].
        left. by repeat split.
      * rewrite lookup_insert_ne by done. apply Hrec.
    + destruct (upload_rejected file srv Hacc) as [Hd _].
      intros id doc. rewrite Hd. apply Hrec.
  - exact Hrec.
  - destruct (handleQuery_registry req srv) as [Hd _].
    intros id doc. rewrite Hd. apply Hrec.
  - destruct (pending srv !! k) as [task|] eqn:Hk; [|by rewrite settle_nothing].
    destruct Hreg as (_ & Hpending & _).
    pose proof (Hpending task (list_elem_of_lookup_2 _ _ _ Hk)) as Hstatus.
    unfold statusOf in Hstatus. apply fmap_Some in Hstatus as (doc0 & Hdoc0 & Hs0).
    destruct (Hrec _ _ Hdoc0) as [Hid0 Hshape0].
    destruct (recordShape_processing doc0 Hshape0 (eq_sym Hs0)) as (Hp0 & Hc0 & He0).
    destruct (settle_registry k task doc0 srv Hk Hdoc0) as (_ & doc' & Hdocs & _ & Hdoc').
    unfold ingestion in Hdoc'.
    destruct (processDocument_run (taskFilePath task) (taskDocumentId task)
                (taskFileName task) (proc srv)) as (rest & _ & Hres).
    intros id doc. rewrite Hdocs.
    destruct (decide (id = taskDocumentId task)) as [->|Hne].
    + rewrite lookup_insert_eq. intros [= <-].
      destruct (fst (processDocument (taskFilePath task) (taskDocumentId task)
                       (taskFileName task) (proc srv))) as [result|err].
      * subst doc'. cbn [markReady documentId]. split; [exact Hid0|].
        right; left. cbn [status pageCount chunkCount error].
        destruct Hres as (_ & _ & Hn & _).
        split; [reflexivity|]. split; [by eexists _, _ | exact He0].
      * subst doc'. cbn [markFailed documentId]. split; [exact Hid0|].
        right; right. cbn [status pageCount chunkCount error].
        destruct Hres as [(m & ->) _].
        split; [reflexivity|]. split; [exact Hp0|]. split; [exact Hc0|]. by exists m.
    + rewrite lookup_insert_ne by done. apply Hrec.
Qed.

Lemma run_records (actions : list Action) (srv : Server P) :
  registryInv srv -> recordsInv srv -> uuidsFresh actions srv ->
  registryInv (run actions srv) /\ recordsInv (run actions srv).
Proof.
  revert srv. induction actions as [|a actions IH]; intros srv Hreg Hrec Hfresh;
    [by split|].
  destruct Hfresh as [Ha Hrest].
  change (run (a :: actions) srv) with (run actions (step a srv)).
  apply IH; [by apply step_registry | by apply step_records | exact Hrest].
Qed.

Lemma boot_records (w : World P) : recordsInv (boot w).
Proof. intros id doc H. cbn in H. by rewrite lookup_empty in H. Qed.

(** X20. In every state the server reaches from its start, provided
    uuidv4 never returns an id that is registered, each record of the
    registry is filed under its own documentId and has one of three
    shapes: 'processing' with no counts and no error; 'ready' with a page
    count, a chunk count of at least 1 and no error; or 'failed' with no
    counts and an error that starts with 'Failed to process PDF
    document: '. *)
Theorem reachable_records (w : World P) (actions : list Action) (id : string)
    (doc : Document) :
  uuidsFresh actions (boot w) ->
  documents (run actions (boot w)) !! id = Some doc ->
  documentId doc = id /\ recordShape doc.
Proof.
  intros Hfresh Hdoc.
  destruct (run_records actions (boot w) (boot_registry w) (boot_records w) Hfresh)
    as [_ Hrec].
  by apply Hrec.
Qed.

End Registry.

Lemma reachable_records_witness :
  exists doc,
    documents Scripted.broken !! "doc-0" = Some doc
    /\ status doc = "failed"
    /\ error doc = Some "Failed to process PDF document: Invalid PDF structure"
    /\ recordShape doc.
Proof.
  pose (w := Scripted.script [] [] (Throw (Error "Invalid PDF structure"))
             : World Scripted.providers).
  pose (document := {| documentId := "doc-0"; fileName := "notes.pdf";
                       uploadDate := "2024-01-01T00:00:00.000Z"; status := "failed";
                       filePath := "uploads/1-notes.pdf"; fileSize := 4096;
                       pageCount := None; chunkCount := None;
                       error := Some "Failed to process PDF document: Invalid PDF structure" |}).
  assert (Hfresh : uuidsFresh [Upload (Some Scripted.file); Settle 0] (boot w))
    by (repeat split).
  assert (Hdoc : documents (run [Upload (Some Scripted.file); Settle 0] (boot w)) !! "doc-0"
                 = Some document) by reflexivity.
  destruct (reachable_records w [Upload (Some Scripted.file); Settle 0] "doc-0" document
              Hfresh Hdoc) as [_ Hshape].
  exists document. split; [exact Hdoc|]. split; [reflexivity|]. split; [reflexivity|].
  exact Hshape.
Defined.

(** ** The query route on a running server *)

Section QueryOutcomes.
Context {P : Providers}.

Lemma processQuery_throws d q h (st : St P) e :
  fst (processQuery d q h st) = Throw e -> isPipelineError e.
Proof.
  rewrite processQuery_entered. change (maxRetries + 1) with 2.
  rewrite processQueryFrom_iteration.
  destruct (attemptQuery d q h (entered d q st)) as [[r|e1] st1] eqn:H1; [discriminate|].
  pose proof (attemptQuery_error _ _ _ _ _ _ H1) as He1.
  destruct (Js.includes (message e1) "search"); [by intros [= <-]|].
  change (Nat.eqb 0 maxRetries) with false. cbv iota.
  rewrite processQueryFrom_iteration.
  destruct (attemptQuery d q h (afterWait (2 ^ 0 * 1000) st1)) as [[r|e2] st2] eqn:H2;
    [discriminate|].
  pose proof (attemptQuery_error _ _ _ _ _ _ H2) as He2.
  destruct (Js.includes (message e2) "search"); [by intros [= <-]|].
  change (Nat.eqb 1 maxRetries) with true. cbv iota. by intros [= <-].
Qed.

Lemma pipelineError_rendered e :
  isPipelineError e ->
  errorHandler e = {| httpStatus := 500; body := Failure (message e) "INTERNAL_ERROR" |}.
Proof. by intros (m & [-> | ->]). Qed.

(** X21. Whatever state the server has reached from its start, provided
    uuidv4 never returns an id that is registered, a query is answered in
    one of five ways: 404 when the id is not registered; 400
    DOCUMENT_PROCESSING while the ingestion is pending; 400
    DOCUMENT_FAILED, quoting the error of the ingestion with its prefix,
    when it has failed; and for a ready document either 200 with an
    answer and a time stamp, or an error of the retrieval or the
    generation, which the error handler renders as 500 INTERNAL_ERROR. So
    the answers 'Document is not ready for queries' and 'Unknown error'
    are never given. *)
Theorem handleQuery_outcomes (w : World P) (actions : list Action) (req : QueryBody) :
  uuidsFresh actions (boot w) ->
  let srv := run actions (boot w) in
  match fst (handleQuery req srv) with
  | Responded r =>
      statusOf (bodyDocumentId req) srv = Some "ready"
      /\ httpStatus r = 200
      /\ exists answer timestamp, body r = AnswerBody answer timestamp
  | Next e =>
      (statusOf (bodyDocumentId req) srv = None
       /\ e = AppError "Document not found" 404 "DOCUMENT_NOT_FOUND")
      \/ (statusOf (bodyDocumentId req) srv = Some "processing"
          /\ e = AppError "Document is still being processed. Please try again in a moment."
                          400 "DOCUMENT_PROCESSING")
      \/ (statusOf (bodyDocumentId req) srv = Some "failed"
          /\ exists m,
               e = AppError ("Document processing failed: "
                             +:+ ("Failed to process PDF document: " +:+ m)
                             +:+ ". Please upload the document again.")
                            400 "DOCUMENT_FAILED")
      \/ (statusOf (bodyDocumentId req) srv = Some "ready"
          /\ isPipelineError e
          /\ errorHandler e
             = {| httpStatus := 500; body := Failure (message e) "INTERNAL_ERROR" |})
  end.
Proof.
  intros Hfresh srv.
  destruct (run_records actions (boot w) (boot_registry w) (boot_records w) Hfresh)
    as [_ Hrec].
  fold srv in Hrec.
  unfold handleQuery, handleQueryBody, statusOf.
  destruct (documents srv !! bodyDocumentId req) as [doc|] eqn:Hd;
    [|cbn; left; by split].
  destruct (Hrec _ _ Hd) as [_ [(Hs & _) | [(Hs & _) | (Hs & _ & _ & m & Hm)]]];
    rewrite Hs; cbn [fmap option_fmap option_map].
  - change (String.eqb "processing" "processing") with true. cbv iota.
    cbn [throw fst]. right; left. by rewrite Hs.
  - change (String.eqb "ready" "processing") with false.
    change (String.eqb "ready" "failed") with false.
    change (negb (String.eqb "ready" "ready")) with false. cbv iota.
    unfold bind.
    destruct (processQuery (bodyDocumentId req) (bodyQuestion req) (bodyHistory req)
                (proc srv)) as [[r|e] st'] eqn:Hpq; cbn [fst ret httpStatus body].
    + rewrite Hs. split; [reflexivity|]. split; [reflexivity|]. by eexists _, _.
    + right; right; right. rewrite Hs. split; [reflexivity|].
      assert (He : isPipelineError e) by (eapply processQuery_throws; by rewrite Hpq).
      split; [exact He | by apply pipelineError_rendered].
  - change (String.eqb "failed" "processing") with false.
    change (String.eqb "failed" "failed") with true. cbv iota.
    cbn [throw fst]. right; right; left. rewrite Hs, Hm. split; [reflexivity|].
    by exists m.
Qed.

End QueryOutcomes.

Lemma handleQuery_outcomes_witness :
  statusOf "doc-0" Scripted.broken = Some "failed"
  /\ exists m,
       fst (handleQuery Scripted.ask Scripted.broken)
       = Next (AppError ("Document processing failed: "
                         +:+ ("Failed to process PDF document: " +:+ m)
                         +:+ ". Please upload the document again.")
                        400 "DOCUMENT_FAILED").
Proof.
  pose (w := Scripted.script [] [] (Throw (Error "Invalid PDF structure"))
             : World Scripted.providers).
  assert (Hfresh : uuidsFresh [Upload (Some Scripted.file); Settle 0] (boot w))
    by (repeat split).
  pose proof (handleQuery_outcomes w [Upload (Some Scripted.file); Settle 0] Scripted.ask
                Hfresh) as H.
  cbn zeta in H. change (run [Upload (Some Scripted.file); Settle 0] (boot w))
    with Scripted.broken in H.
  split; [reflexivity|].
  destruct (fst (handleQuery Scripted.ask Scripted.broken)) as [r|e] eqn:He.
  - destruct H as [Hs _]. discriminate Hs.
  - destruct H as [[Hs _] | [[Hs _] | [[_ (m & ->)] | [Hs _]]]]; try discriminate Hs.
    by exists m.
Defined.

(** ** The end of an ingestion *)

Section Settling.
Context {P : Providers}.

(** X22. When a pending ingestion settles, whatever its outcome, it
    leaves the list of the pending ones, which gets shorter by one; the
    uploaded file is removed once, as the last thing logged, and not
    before the ingestion is over; no document but the task's own is
    written, and nothing is written when the task's document is no longer
    registered. *)
Theorem settle_cleans_up (k : nat) (task : Task) (srv : Server P) :
  pending srv !! k = Some task ->
  pending (settle k srv) = delete k (pending srv)
  /\ S (length (pending (settle k srv))) = length (pending srv)
  /\ (exists rest,
        trace (proc (settle k srv))
        = trace (proc srv) ++ FsStat (taskFilePath task) :: rest
                           ++ [Unlink (taskFilePath task)]
        /\ countEvents isUnlink rest = 0)
  /\ (forall id, id <> taskDocumentId task ->
        documents (settle k srv) !! id = documents srv !! id)
  /\ (documents srv !! taskDocumentId task = None ->
      documents (settle k srv) = documents srv).
Proof.
  intros Hk.
  destruct (processDocument_quiet (taskFilePath task) (taskDocumentId task)
              (taskFileName task) (proc srv)) as (rest & Htrace & Hunlink & _).
  assert (Hlen : S (length (delete k (pending srv))) = length (pending srv)).
  { rewrite length_delete by (by eexists).
    apply lookup_lt_Some in Hk. lia. }
  unfold settle. rewrite Hk.
  destruct (processDocument (taskFilePath task) (taskDocumentId task) (taskFileName task)
              (proc srv)) as [[result|err] st']; cbn [snd] in Htrace;
    unfold onProcessed, onProcessingFailed; rewrite unlink_run;
    cbn [documents pending proc snd trace].
  all: split; [reflexivity|]; split; [exact Hlen|]; split;
    [exists rest; split; [by rewrite Htrace, <- app_assoc | exact Hunlink]|].
  all: destruct (documents srv !! taskDocumentId task) as [doc|]; split;
    [intros id Hne; by rewrite lookup_insert_ne | discriminate
    | reflexivity | reflexivity].
Qed.

End Settling.

Lemma settle_cleans_up_witness :
  pending Scripted.uploaded
  = [{| taskFilePath := "uploads/1-notes.pdf"; taskDocumentId := "doc-0";
        taskFileName := "notes.pdf" |}]
  /\ pending Scripted.ingested = []
  /\ exists rest,
       trace (proc Scripted.ingested)
       = FsStatCalled "uploads/1-notes.pdf" :: FsStat "uploads/1-notes.pdf"
         :: rest ++ [Unlink "uploads/1-notes.pdf"].
Proof.
  pose (task := {| taskFilePath := "uploads/1-notes.pdf"; taskDocumentId := "doc-0";
                   taskFileName := "notes.pdf" |}).
  assert (Hk : pending Scripted.uploaded !! 0 = Some task) by reflexivity.
  destruct (settle_cleans_up (P := Scripted.providers) 0 task Scripted.uploaded Hk)
    as (Hpending & _ & (rest & Htrace & _) & _).
  split; [reflexivity|]. split; [exact Hpending|].
  exists rest. exact Htrace.
Defined.

(** ** The document route *)

Section DocumentRoute.
Context {P : Providers}.

(** X23. On GET /api/documents/:id, where the id of the path is never
    empty, a documentId in the body plays no role. An id that fails the
    format test is answered 400 'Invalid document ID format' without a
    look at the registry; an id that passes is answered 404 when it is
    not registered, and otherwise 200 with every field of its record but
    the path of the file: the id, the name, the date, the status, the
    size of the file, the counts and the error. *)
Theorem getDocument_route (id : string) (bodyDocumentId : option string) (srv : Server P) :
  id <> EmptyString ->
  getDocumentRoute id bodyDocumentId srv = getDocumentRoute id None srv
  /\ match getDocumentRoute id bodyDocumentId srv with
     | Responded r =>
         uuidRegexTest id = true /\ httpStatus r = 200
         /\ exists doc,
              documents srv !! id = Some doc
              /\ body r = DocumentBody (documentId doc) (fileName doc) (uploadDate doc)
                             (status doc) (fileSize doc) (pageCount doc) (chunkCount doc)
                             (error doc)
     | Next e =>
         (uuidRegexTest id = false
          /\ e = AppError "Invalid document ID format" 400 "VALIDATION_ERROR")
         \/ (uuidRegexTest id = true /\ documents srv !! id = None
             /\ e = AppError "Document not found" 404 "DOCUMENT_NOT_FOUND")
     end.
Proof.
  intros Hid. unfold getDocumentRoute, validateDocumentId.
  destruct id as [|c id]; [done|].
  split; [reflexivity|].
  destruct (uuidRegexTest (String c id)); cbn [negb].
  - unfold getDocument. destruct (documents srv !! String c id) as [doc|].
    + split; [reflexivity|]. split; [reflexivity|]. by exists doc.
    + right. by repeat split.
  - left. by split.
Qed.

End DocumentRoute.

(** A registry that holds one document, under an id as uuidv4 makes
    them. *)
Lemma getDocument_route_witness :
  let id := "123e4567-e89b-12d3-a456-426614174000" in
  let doc := {| documentId := id; fileName := "notes.pdf";
                uploadDate := "2024-01-01T00:00:00.000Z"; status := "ready";
                filePath := "uploads/1-notes.pdf"; fileSize := 4096;
                pageCount := Some 3; chunkCount := Some 3; error := None |} in
  let srv := mkServer (<[id := doc]> ∅) [] Scripted.idle in
  getDocumentRoute id None srv
    = Responded {| httpStatus := 200;
                   body := DocumentBody id "notes.pdf" "2024-01-01T00:00:00.000Z" "ready"
                             4096 (Some 3) (Some 3) None |}
  /\ getDocumentRoute "123e4567-e89b-12d3-a456-426614174001" None srv
     = Next (AppError "Document not found" 404 "DOCUMENT_NOT_FOUND")
  /\ getDocumentRoute "doc-0" None srv
     = Next (AppError "Invalid document ID format" 400 "VALIDATION_ERROR").
Proof.
  intros id doc srv.
  assert (H1 : id <> EmptyString) by discriminate.
  assert (H2 : "123e4567-e89b-12d3-a456-426614174001" <> EmptyString) by discriminate.
  assert (H3 : "doc-0" <> EmptyString) by discriminate.
  destruct (getDocument_route (P := Scripted.providers) id None srv H1) as [_ Ha].
  destruct (getDocument_route (P := Scripted.providers)
              "123e4567-e89b-12d3-a456-426614174001" None srv H2) as [_ Hb].
  destruct (getDocument_route (P := Scripted.providers) "doc-0" None srv H3) as [_ Hc].
  split; [|split].
  - destruct (getDocumentRoute id None srv) as [r|e].
    + destruct Ha as (_ & Hstatus & doc' & Hdoc & Hbody).
      vm_compute in Hdoc. injection Hdoc as <-.
      destruct r as [s b]. cbn in Hstatus, Hbody. by subst s b.
    + destruct Ha as [[Hre _] | (_ & Hdoc & _)];
        [vm_compute in Hre; discriminate Hre | vm_compute in Hdoc; discriminate Hdoc].
  - destruct (getDocumentRoute "123e4567-e89b-12d3-a456-426614174001" None srv) as [r|e].
    + destruct Hb as (_ & _ & doc' & Hdoc & _). vm_compute in Hdoc. discriminate Hdoc.
    + destruct Hb as [[Hre _] | (_ & _ & ->)]; [vm_compute in Hre; discriminate Hre|].
      reflexivity.
  - destruct (getDocumentRoute "doc-0" None srv) as [r|e].
    + destruct Hc as (Hre & _). vm_compute in Hre. discriminate Hre.
    + destruct Hc as [[_ ->] | (Hre & _)]; [reflexivity|].
      vm_compute in Hre. discriminate Hre.
Defined.
